(** * Frankenthought chat: a shallow embedding of [frankenthought-chat.py]
      (all-parallel mode with O1 synthesis) and [multi-chat.py]
      (single-select mode), and the properties of their dispatch,
      synthesis, history and log handling. *)

From Stdlib Require Import String Ascii List Arith NArith ZArith Bool Lia.
From Stdlib Require Import DecimalString.
Import ListNotations.
Open Scope string_scope.
Set Warnings "-register-all".

(** ** Python values and control flow shared by both programs *)

Module Py.

(** The outcome of evaluating a Python expression or call: a value, or a
    raised exception.  Every handler in the two programs is
    [except Exception as e] and only ever looks at [str(e)], so an
    exception is carried as that text. *)
Inductive result (A : Type) : Type :=
| Return (a : A)
| Raise (e : string).
Arguments Return {A} a.
Arguments Raise {A} e.

(** A chat message dict [{"role": ..., "content": ...}]. *)
Record Turn : Type := mkTurn { role : string; content : string }.

Definition user_turn (text : string) : Turn := mkTurn "user" text.
Definition assistant_turn (text : string) : Turn := mkTurn "assistant" text.
Definition system_turn (text : string) : Turn := mkTurn "system" text.

(** The two [AsyncOpenAI] client objects the programs construct: the
    default endpoint and the one with [base_url] set to OpenRouter. *)
Inductive AsyncOpenAI : Type :=
| OpenAIEndpoint
| OpenRouterEndpoint.

(** [genai.GenerativeModel(model_name=..., generation_config=...)]. *)
Record GenerativeModel : Type := mkGenerativeModel { model_name : string }.

(** A Gemini [ChatSession], as far as the programs can observe it: the
    texts handed to [send_message] on this session so far, oldest first.
    The remote side keeps whatever memory it keeps; it is consulted
    through [World.gemini_send] with this transcript. *)
Definition ChatSession : Type := list string.

(** One request of [client.chat.completions.create(model=, messages=)]. *)
Record Request : Type := mkRequest {
  req_client : AsyncOpenAI;
  req_model : string;
  req_messages : list Turn
}.

(** Network traffic issued by the program, in program order. *)
Inductive Event : Type :=
| EvStartChat
| EvSendMessage (text : string)
| EvCreate (req : Request).

(** What the programs depend on from outside: the remote backends, and
    the limits of the interpreter that runs them.

    [gemini_send sess text] is what [chat.send_message(text).text] comes
    to on a session whose earlier transcript is [sess]: the text of the
    reply, or the failure raised.  When it is a failure,
    [text_raises sess text] tells whether [send_message] itself returned
    a response and reading its [.text] raised (a response without a text
    part), rather than [send_message] raising.  [create req] is the
    content of the first choice of [chat.completions.create], or the
    failure raised.

    [dump_depth] and [load_depth] are the deepest nesting that
    [json.dump] and [json.load] reach where the programs call them
    before the interpreter raises [RecursionError].  [partial_write
    text] is what of [text] has reached the file when [json.dump] fails
    part way: the chunks written before the failure. *)
Record World : Type := mkWorld {
  gemini_send : ChatSession -> string -> result string;
  create : Request -> result string;
  text_raises : ChatSession -> string -> bool;
  dump_depth : nat;
  load_depth : nat;
  partial_write : string -> string
}.

(** The response object of [send_message]: reading [.text] gives the
    text or raises. *)
Record Response : Type := mkResponse { response_text : result string }.

(** [chat.send_message(text)] on a session whose earlier transcript is
    [sess]. *)
Definition send (w : World) (sess : ChatSession) (text : string)
  : result Response :=
  match gemini_send w sess text with
  | Return reply => Return (mkResponse (Return reply))
  | Raise e =>
    if text_raises w sess text then Return (mkResponse (Raise e)) else Raise e
  end.

(** A coroutine that has been started and has run up to its first
    suspension point.  The backend coroutines of both programs suspend at
    most once, on [await client.chat.completions.create(...)], and touch
    no shared state after they resume, so the continuation maps the
    awaited outcome to the coroutine's result. *)
Inductive Coro (A : Type) : Type :=
| Finished (r : result A)
| Awaiting (req : Request) (k : result string -> result A).
Arguments Finished {A} r.
Arguments Awaiting {A} req k.

(** The response for the awaited request arrives and the coroutine runs
    to its end. *)
Definition resume {A : Type} (w : World) (c : Coro A) : result A :=
  match c with
  | Finished r => r
  | Awaiting req k => k (create w req)
  end.


Definition outcome {A : Type} (c : Coro A) : option (result A) :=
  match c with
  | Finished r => Some r
  | Awaiting _ _ => None
  end.

(** A task once the response it awaits, if any, has arrived. *)
Definition settle {A : Type} (w : World) (c : Coro A) : Coro A :=
  Finished (resume w c).

(** One turn of the event loop: the response awaited by task [i] arrives
    and that task runs to its end.  A task that is already done, or an
    index that names no task, changes nothing. *)
Definition deliver {A : Type} (w : World) (i : nat) (tasks : list (Coro A))
  : list (Coro A) :=
  match nth_error tasks i with
  | Some c => firstn i tasks ++ settle w c :: skipn (S i) tasks
  | None => tasks
  end.

Fixpoint run_loop {A : Type} (w : World) (order : list nat)
  (tasks : list (Coro A)) : list (Coro A) :=
  match order with
  | [] => tasks
  | i :: later => run_loop w later (deliver w i tasks)
  end.

(** The results of finished tasks in task order; an exception of a task
    is the exception of the whole. *)
Fixpoint collect {A : Type} (rs : list (result A)) : result (list A) :=
  match rs with
  | [] => Return []
  | Raise e :: _ => Raise e
  | Return a :: rest =>
    match collect rest with
    | Return l => Return (a :: l)
    | Raise e => Raise e
    end
  end.

Fixpoint outcomes {A : Type} (tasks : list (Coro A))
  : option (list (result A)) :=
  match tasks with
  | [] => Some []
  | c :: rest =>
    match outcome c, outcomes rest with
    | Some r, Some rs => Some (r :: rs)
    | _, _ => None
    end
  end.

(** The future [asyncio.gather] over the tasks returns: unresolved ([None])
    while any task is pending, and then the tasks' results in the order
    of the argument list. *)
Definition gather_future {A : Type} (tasks : list (Coro A))
  : option (result (list A)) :=
  match outcomes tasks with
  | Some rs => Some (collect rs)
  | None => None
  end.

(** [await asyncio.gather] over the tasks when the responses arrive in the order
    [order].  The programs set no timeout and wait for every request, so
    a request [order] does not name is answered after those it names. *)
Definition gather {A : Type} (w : World) (order : list nat)
  (tasks : list (Coro A)) : result (list A) :=
  match gather_future (run_loop w (order ++ seq 0 (length tasks)) tasks) with
  | Some r => r
  | None => Raise "pending"
  end.

(** [for i, x in enumerate(xs, start)]. *)
Fixpoint enumerate {A : Type} (start : nat) (xs : list A) : list (nat * A) :=
  match xs with
  | [] => []
  | x :: rest => (start, x) :: enumerate (S start) rest
  end.

(** [str(n)] for a non-negative int. *)
Definition str_of_nat (n : nat) : string :=
  NilEmpty.string_of_uint (Nat.to_uint n).

(** An insertion-ordered [dict] with [str] keys. *)
Definition dict (V : Type) : Type := list (string * V).

Fixpoint dict_get {V : Type} (d : dict V) (key : string) : option V :=
  match d with
  | [] => None
  | (k, v) :: rest => if String.eqb k key then Some v else dict_get rest key
  end.

(** [d[key] = v]: an existing key keeps its position. *)
Fixpoint dict_set {V : Type} (d : dict V) (key : string) (v : V) : dict V :=
  match d with
  | [] => [(key, v)]
  | (k, v0) :: rest =>
      if String.eqb k key then (k, v) :: rest else (k, v0) :: dict_set rest key v
  end.

(** A dict display or comprehension: the items are stored left to right. *)
Definition dict_of {V : Type} (items : list (string * V)) : dict V :=
  fold_left (fun d kv => dict_set d (fst kv) (snd kv)) items [].

Definition values {V : Type} (d : dict V) : list V := map snd d.
Definition keys {V : Type} (d : dict V) : list string := map fst d.

(** [d[key]], raising [KeyError] (whose text is the key's repr). *)
Definition getitem {V : Type} (d : dict V) (key : string) : result V :=
  match dict_get d key with
  | Some v => Return v
  | None => Raise ("'" ++ key ++ "'")
  end.

(** [xs[i]] on a list. *)
Definition index {A : Type} (xs : list A) (i : nat) : result A :=
  match nth_error xs i with
  | Some x => Return x
  | None => Raise "list index out of range"
  end.

(** *** Statements and coroutines over a program's globals *)

Section Statements.

Variable S : Type.

(** A statement: a transformer of the globals [S] that returns or raises.
    What a statement did before it raised stays done. *)
Definition M (A : Type) : Type := S -> result A * S.

Definition ret {A : Type} (a : A) : M A := fun st => (Return a, st).

Definition bind {A B : Type} (c : M A) (k : A -> M B) : M B :=
  fun st =>
    match c st with
    | (Return a, st') => k a st'
    | (Raise e, st') => (Raise e, st')
    end.

Definition lift {A : Type} (r : result A) : M A := fun st => (r, st).

Definition gets {A : Type} (f : S -> A) : M A := fun st => (Return (f st), st).

Definition modify (f : S -> S) : M unit := fun st => (Return tt, f st).

(** [try: body except Exception as e: handler(str(e))]. *)
Definition try_except {A : Type} (body : M A) (handler : string -> M A) : M A :=
  fun st =>
    match body st with
    | (Return a, st') => (Return a, st')
    | (Raise e, st') => handler e st'
    end.

Fixpoint for_each {A : Type} (xs : list A) (body : A -> M unit) : M unit :=
  match xs with
  | [] => ret tt
  | x :: rest => bind (body x) (fun _ => for_each rest body)
  end.

(** A coroutine function called and run up to its first suspension. *)
Definition Async (A : Type) : Type := S -> Coro A * S.

(** An [async def] whose body never awaits runs to its end at once. *)
Definition no_await {A : Type} (body : M A) : Async A :=
  fun st => let '(r, st') := body st in (Finished r, st').

(** The event loop gives a task created with [asyncio.create_task] its
    first run. *)
Definition start {A : Type} (co : Async A) : M (Coro A) :=
  fun st => let '(c, st') := co st in (Return c, st').

(** [await co] from the one running coroutine: [co] runs, and the caller
    continues when the response [co] awaits has arrived. *)
Definition await {A : Type} (w : World) (co : Async A) : M A :=
  fun st => let '(c, st') := co st in (resume w c, st').

End Statements.

Arguments ret {S A} a.
Arguments bind {S A B} c k.
Arguments lift {S A} r.
Arguments gets {S A} f.
Arguments modify {S} f.
Arguments try_except {S A} body handler.
Arguments for_each {S A} xs body.
Arguments no_await {S A} body.
Arguments start {S A} co.
Arguments await {S A} w co.

Notation "x <- c ;; k" := (bind c (fun x => k))
  (at level 61, c at next level, right associativity).
Notation "c ;;; k" := (bind c (fun _ => k))
  (at level 61, right associativity).

(** *** [str.strip()] and [str.lower()] *)

(** A [str] is modelled by the bytes of its UTF-8 encoding; a lone
    surrogate, which UTF-8 does not encode, by the three bytes the same
    scheme gives it.  The white space of [str.strip] is the characters of
    [str.isspace]: U+0009 to U+000D, U+001C to U+0020, U+0085, U+00A0,
    U+1680, U+2000 to U+200A, U+2028, U+2029, U+202F, U+205F and
    U+3000.  They take one, two or three bytes. *)
Definition is_space (c : ascii) : bool :=
  let n := nat_of_ascii c in
  Nat.eqb n 32 || (Nat.leb 9 n && Nat.leb n 13) || (Nat.leb 28 n && Nat.leb n 31).

Definition is_space2 (a b : ascii) : bool :=
  Nat.eqb (nat_of_ascii a) 194
  && (Nat.eqb (nat_of_ascii b) 133 || Nat.eqb (nat_of_ascii b) 160).

Definition is_space3 (a b c : ascii) : bool :=
  let x := nat_of_ascii a in
  let y := nat_of_ascii b in
  let z := nat_of_ascii c in
  (Nat.eqb x 225 && Nat.eqb y 154 && Nat.eqb z 128)
  || (Nat.eqb x 226 && Nat.eqb y 128
      && ((Nat.leb 128 z && Nat.leb z 138)
          || Nat.eqb z 168 || Nat.eqb z 169 || Nat.eqb z 175))
  || (Nat.eqb x 226 && Nat.eqb y 129 && Nat.eqb z 159)
  || (Nat.eqb x 227 && Nat.eqb y 128 && Nat.eqb z 128).

Fixpoint lstrip (s : string) : string :=
  match s with
  | EmptyString => EmptyString
  | String a r =>
    if is_space a then lstrip r
    else
      match r with
      | EmptyString => s
      | String b r1 =>
        if is_space2 a b then lstrip r1
        else
          match r1 with
          | EmptyString => s
          | String c r2 => if is_space3 a b c then lstrip r2 else s
          end
      end
  end.

(** The text is made of white space only. *)
Fixpoint isspace_or_empty (s : string) : bool :=
  match s with
  | EmptyString => true
  | String a r =>
    if is_space a then isspace_or_empty r
    else
      match r with
      | EmptyString => false
      | String b r1 =>
        if is_space2 a b then isspace_or_empty r1
        else
          match r1 with
          | EmptyString => false
          | String c r2 => is_space3 a b c && isspace_or_empty r2
          end
      end
  end.

(** The text up to the white space it ends with. *)
Fixpoint rstrip (s : string) : string :=
  match s with
  | EmptyString => EmptyString
  | String c rest =>
    if isspace_or_empty s then EmptyString else String c (rstrip rest)
  end.

Definition strip (s : string) : string := rstrip (lstrip s).

Definition lower_char (c : ascii) : ascii :=
  let n := nat_of_ascii c in
  if Nat.leb 65 n && Nat.leb n 90 then ascii_of_nat (n + 32) else c.

(** [str.lower()], as far as the programs use it: its result is only
    ever compared with a command word, which is ASCII.  The letters A to
    Z are lowered, and so are the two characters outside ASCII whose
    lowercase holds an ASCII letter: U+0130, lowered to i followed by
    U+0307, and U+212A, the Kelvin sign, lowered to k.  The lowercase of
    any other character outside ASCII is outside ASCII as well; such a
    character is left as it is, which gives the same answer to every
    comparison with an ASCII word. *)
Fixpoint lower (s : string) : string :=
  match s with
  | EmptyString => EmptyString
  | String a r =>
    match r with
    | EmptyString => String (lower_char a) EmptyString
    | String b r1 =>
      if Nat.eqb (nat_of_ascii a) 196 && Nat.eqb (nat_of_ascii b) 176
      then String "i" (String (ascii_of_nat 204) (String (ascii_of_nat 135)
                                                    (lower r1)))
      else
        match r1 with
        | EmptyString => String (lower_char a) (lower r)
        | String c r2 =>
          if Nat.eqb (nat_of_ascii a) 226 && Nat.eqb (nat_of_ascii b) 132
             && Nat.eqb (nat_of_ascii c) 170
          then String "k" (lower r2)
          else String (lower_char a) (lower r)
        end
    end
  end.

Inductive Control : Type := Break | Continue.

End Py.

(** ** The [json] module, as far as [json.dump(..., indent=2,
       ensure_ascii=False)] and [json.load] are used for the chat log *)

Module Json.

(** A value [json.load] can return or [json.dump] can write.  A number is
    kept as the lexeme it was read from, which stands for the [int] or
    [float] Python makes of it: the programs never compute with one, and
    [json.dump] writes it as Python spells that number.  A [str] is
    modelled by the bytes of its UTF-8 encoding (a lone surrogate by the
    three bytes the same scheme gives it); the log file holds bytes. *)
Inductive json : Type :=
| JNull
| JBool (b : bool)
| JNum (lexeme : string)
| JStr (s : string)
| JArr (items : list json)
| JObj (members : Py.dict json).

Definition dquote : ascii := "034"%char.

Definition is_digit (c : ascii) : bool :=
  (48 <=? N_of_ascii c)%N && (N_of_ascii c <=? 57)%N.

(** *** Numbers *)

(** The lexeme stands for a [float]: it has a fraction or an exponent,
    or is one of the constants [NaN], [Infinity] and [-Infinity]. *)
Definition is_float_lexeme (lexeme : string) : bool :=
  existsb (fun c => Ascii.eqb c "."%char || Ascii.eqb c "e"%char
                    || Ascii.eqb c "E"%char || Ascii.eqb c "N"%char
                    || Ascii.eqb c "I"%char)
          (list_ascii_of_string lexeme).

(** [str(int(lexeme))]: the only integer lexeme of JSON that is not its
    own decimal text is "-0". *)
Definition int_text (lexeme : string) : string :=
  if String.eqb lexeme "-0" then "0" else lexeme.

(** The leading decimal digits of [s] appended to the number [acc], and
    what follows them. *)
Fixpoint digits_value (acc : Z) (s : string) : Z * string :=
  match s with
  | String c r =>
    if is_digit c
    then digits_value (10 * acc + Z.of_N (N_of_ascii c - 48))%Z r
    else (acc, s)
  | EmptyString => (acc, s)
  end.

Fixpoint count_digits (s : string) : Z :=
  match s with
  | String c r => if is_digit c then (1 + count_digits r)%Z else 0%Z
  | EmptyString => 0%Z
  end.

(** The unsigned part of a float lexeme as [digits * 10 ^ exponent]. *)
Definition read_decimal (s : string) : Z * Z :=
  let '(int_part, r) := digits_value 0 s in
  let '(all, frac_len, r1) :=
    match r with
    | String c r0 =>
      if Ascii.eqb c "."%char
      then let '(v, r') := digits_value int_part r0 in (v, count_digits r0, r')
      else (int_part, 0%Z, r)
    | EmptyString => (int_part, 0%Z, r)
    end in
  let exponent :=
    match r1 with
    | String e r2 =>
      if Ascii.eqb e "e"%char || Ascii.eqb e "E"%char then
        match r2 with
        | String c r3 =>
          if Ascii.eqb c "-"%char then (- fst (digits_value 0 r3))%Z
          else if Ascii.eqb c "+"%char then fst (digits_value 0 r3)
          else fst (digits_value 0 r2)
        | EmptyString => 0%Z
        end
      else 0%Z
    | EmptyString => 0%Z
    end in
  (all, (exponent - frac_len)%Z).

(** The magnitude of a binary64 value: zero, [m * 2 ^ e] with
    [0 < m < 2 ^ 53] and [-1074 <= e <= 971], or infinity. *)
Inductive double : Type :=
| DZero
| DFinite (m e : Z)
| DInf.

Definition double_eqb (x y : double) : bool :=
  match x, y with
  | DZero, DZero => true
  | DInf, DInf => true
  | DFinite m e, DFinite m' e' => (m =? m') && (e =? e')
  | _, _ => false
  end%Z.

Open Scope Z_scope.

(** The quotient [n / d] rounded to the nearest integer, ties to even. *)
Definition div_nearest_even (n d : Z) : Z :=
  let q := n / d in
  let r := n mod d in
  match 2 * r ?= d with
  | Lt => q
  | Gt => q + 1
  | Eq => if Z.even q then q else q + 1
  end.

(** [n / d], for positive [n] and [d], rounded to the nearest binary64
    value, ties to even: the significand has 53 bits, fewer below
    [2 ^ -1022], and a value of [2 ^ 1024] or more is infinite. *)
Definition nearest_double (n d : Z) : double :=
  let k0 := Z.log2 n - Z.log2 d in
  let k := if (if 0 <=? k0 then d * 2 ^ k0 <=? n else d <=? n * 2 ^ (- k0))
           then k0 else k0 - 1 in
  let e := Z.max (k - 52) (-1074) in
  let m := if 0 <=? e then div_nearest_even n (d * 2 ^ e)
           else div_nearest_even (n * 2 ^ (- e)) d in
  let '(m, e) := if m =? 2 ^ 53 then (2 ^ 52, e + 1) else (m, e) in
  if m =? 0 then DZero
  else if 972 <=? e then DInf
  else DFinite m e.

(** [float(digits * 10 ^ exponent)].  Exponents that put the value out
    of the range of binary64 whatever the digits are settled first, so
    that the powers of ten computed stay small. *)
Definition double_of_decimal (digits exponent : Z) : double :=
  if digits =? 0 then DZero
  else if 400 <? exponent then DInf
  else if exponent + Z.log2 digits + 1 <? -400 then DZero
  else if 0 <=? exponent then nearest_double (digits * 10 ^ exponent) 1
  else nearest_double digits (10 ^ (- exponent)).

(** [10 ^ p <= n / d]. *)
Definition pow10_le (p n d : Z) : bool :=
  if 0 <=? p then d * 10 ^ p <=? n else d <=? n * 10 ^ (- p).

(** The largest [p] with [10 ^ p <= n / d]. *)
Definition log10_floor (n d : Z) : Z :=
  let p0 := ((Z.log2 n - Z.log2 d) * 30103) / 100000 in
  if pow10_le (p0 + 2) n d then p0 + 2
  else if pow10_le (p0 + 1) n d then p0 + 1
  else if pow10_le p0 n d then p0
  else if pow10_le (p0 - 1) n d then p0 - 1
  else p0 - 2.

(** [n / d] divided by [10 ^ s], as a fraction. *)
Definition scaled (n d s : Z) : Z * Z :=
  if 0 <=? s then (n, d * 10 ^ s) else (n * 10 ^ (- s), d).

(** The decimal of [count] significant digits that reads back as [x],
    when there is one: the nearer to [x] of the two that enclose it, and
    of two equally near the one whose last digit is even. *)
Definition decimal_of_length (x : double) (n d p count : Z) : option (Z * Z) :=
  let s := p - count + 1 in
  let '(sn, sd) := scaled n d s in
  let lo := sn / sd in
  let hi := lo + 1 in
  let lo_ok := double_eqb (double_of_decimal lo s) x in
  let hi_ok := double_eqb (double_of_decimal hi s) x in
  if lo_ok && hi_ok then
    match 2 * (sn mod sd) ?= sd with
    | Lt => Some (lo, s)
    | Gt => Some (hi, s)
    | Eq => if Z.even lo then Some (lo, s) else Some (hi, s)
    end
  else if lo_ok then Some (lo, s)
  else if hi_ok then Some (hi, s)
  else None.

Fixpoint shortest_decimal (x : double) (n d p : Z) (counts : list Z) : Z * Z :=
  match counts with
  | [] => (0, 0)
  | count :: more =>
    match decimal_of_length x n d p count with
    | Some r => r
    | None => shortest_decimal x n d p more
    end
  end.

(** Trailing zeros of the digits go to the exponent. *)
Fixpoint strip_zeros (fuel : nat) (digits exponent : Z) : Z * Z :=
  match fuel with
  | O => (digits, exponent)
  | S fuel' =>
    if (digits mod 10 =? 0) && negb (digits =? 0)
    then strip_zeros fuel' (digits / 10) (exponent + 1)
    else (digits, exponent)
  end.

Close Scope Z_scope.

Definition str_of_Z (z : Z) : string :=
  NilEmpty.string_of_uint (N.to_uint (Z.to_N z)).

Fixpoint zeros (n : nat) : string :=
  match n with
  | O => ""
  | S n' => String "0" (zeros n')
  end.

Definition substring_from (n : nat) (s : string) : string :=
  substring n (String.length s - n) s.

(** [format_float_short] for [repr]: exponent notation when the decimal
    point would be more than 16 digits to the right of the first digit
    or more than 3 zeros to its left, and [.0] after a whole number. *)
Definition format_repr (digits : string) (decpt : Z) : string :=
  let n := Z.of_nat (String.length digits) in
  if (decpt <=? -4)%Z || (16 <? decpt)%Z then
    let e := (decpt - 1)%Z in
    let mantissa :=
      match digits with
      | String c EmptyString => digits
      | String c rest => String c (String "." rest)
      | EmptyString => digits
      end in
    let etext := str_of_Z (Z.abs e) in
    mantissa ++ "e" ++ (if (e <? 0)%Z then "-" else "+")
    ++ (if Nat.ltb (String.length etext) 2 then "0" else "") ++ etext
  else if (decpt <=? 0)%Z then
    "0." ++ zeros (Z.to_nat (- decpt)) ++ digits
  else if (n <=? decpt)%Z then
    digits ++ zeros (Z.to_nat (decpt - n)) ++ ".0"
  else
    substring 0 (Z.to_nat decpt) digits ++ "."
    ++ substring_from (Z.to_nat decpt) digits.

(** [float.__repr__] of a magnitude: the shortest decimal that reads
    back as the same binary64 value. *)
Definition repr_double (x : double) : string :=
  match x with
  | DZero => "0.0"
  | DInf => "Infinity"
  | DFinite m e =>
    let '(n, d) := if (0 <=? e)%Z then ((m * 2 ^ e)%Z, 1%Z)
                   else (m, (2 ^ (- e))%Z) in
    let p := log10_floor n d in
    let '(digits, s) :=
      shortest_decimal x n d p
        [1; 2; 3; 4; 5; 6; 7; 8; 9; 10; 11; 12; 13; 14; 15; 16; 17]%Z in
    let '(digits, s) := strip_zeros 20 digits s in
    let text := str_of_Z digits in
    format_repr text (s + Z.of_nat (String.length text))
  end.

(** [float.__repr__(float(lexeme))] as [json.dump] writes it: [NaN],
    [Infinity] and [-Infinity] for the values that are no numbers. *)
Definition float_text (lexeme : string) : string :=
  if String.eqb lexeme "NaN" then "NaN"
  else
    let '(sign, rest) :=
      match lexeme with
      | String c r => if Ascii.eqb c "-"%char then ("-", r) else ("", lexeme)
      | EmptyString => ("", lexeme)
      end in
    if String.eqb rest "Infinity" then sign ++ "Infinity"
    else
      let '(digits, exponent) := read_decimal rest in
      sign ++ repr_double (double_of_decimal digits exponent).

Definition number_text (lexeme : string) : string :=
  if is_float_lexeme lexeme then float_text lexeme else int_text lexeme.

(** *** Encoding *)
Definition backslash : ascii := "092"%char.

Definition hex_digit (n : nat) : ascii :=
  match n with
  | 0 => "0" | 1 => "1" | 2 => "2" | 3 => "3" | 4 => "4" | 5 => "5"
  | 6 => "6" | 7 => "7" | 8 => "8" | 9 => "9" | 10 => "a" | 11 => "b"
  | 12 => "c" | 13 => "d" | 14 => "e" | _ => "f"
  end%char.

(** [ESCAPE_DCT] of [json.encoder]: the two-character escapes, and
    [\u00xx] for the other control characters. *)
Definition escape_char (c : ascii) : string :=
  if Ascii.eqb c dquote then String backslash (String dquote "")
  else if Ascii.eqb c backslash then String backslash (String backslash "")
  else if Ascii.eqb c "010"%char then String backslash "n"
  else if Ascii.eqb c "013"%char then String backslash "r"
  else if Ascii.eqb c "009"%char then String backslash "t"
  else if Ascii.eqb c "008"%char then String backslash "b"
  else if Ascii.eqb c "012"%char then String backslash "f"
  else if Nat.ltb (nat_of_ascii c) 32 then
    String backslash
      (String "u" (String "0" (String "0"
        (String (hex_digit (nat_of_ascii c / 16))
          (String (hex_digit (nat_of_ascii c mod 16)) "")))))
  else String c "".

Fixpoint escape (s : string) : string :=
  match s with
  | EmptyString => EmptyString
  | String c rest => escape_char c ++ escape rest
  end.

(** [py_encode_basestring]. *)
Definition encode_basestring (s : string) : string :=
  String dquote (escape s ++ String dquote "").

Fixpoint indent_by (level : nat) : string :=
  match level with
  | O => ""
  | S l => "  " ++ indent_by l
  end.

Definition newline_indent (level : nat) : string :=
  String "010"%char (indent_by level).

(** [_iterencode] with [indent=2]: the item separator is a comma followed
    by the newline and indentation of the container's level, the key
    separator is a colon and a blank, and an empty container is written
    closed.  A number is written as [int.__repr__] or [float.__repr__]
    spell it. *)
Fixpoint encode (level : nat) (v : json) {struct v} : string :=
  match v with
  | JNull => "null"
  | JBool true => "true"
  | JBool false => "false"
  | JNum lexeme => number_text lexeme
  | JStr s => encode_basestring s
  | JArr [] => "[]"
  | JArr items =>
      "[" ++ newline_indent (S level)
      ++ String.concat ("," ++ newline_indent (S level))
           (map (encode (S level)) items)
      ++ newline_indent level ++ "]"
  | JObj [] => "{}"
  | JObj members =>
      "{" ++ newline_indent (S level)
      ++ String.concat ("," ++ newline_indent (S level))
           (map (fun kv => encode_basestring (fst kv) ++ ": "
                           ++ encode (S level) (snd kv)) members)
      ++ newline_indent level ++ "}"
  end.

Definition dumps (v : json) : string := encode 0 v.

(** *** Decoding *)

Definition is_ws (c : ascii) : bool :=
  Ascii.eqb c " "%char || Ascii.eqb c "009"%char
  || Ascii.eqb c "010"%char || Ascii.eqb c "013"%char.

Fixpoint skip_ws (s : string) : string :=
  match s with
  | EmptyString => EmptyString
  | String c rest => if is_ws c then skip_ws rest else s
  end.

Definition hex_val (c : ascii) : option N :=
  let n := N_of_ascii c in
  if (48 <=? n)%N && (n <=? 57)%N then Some (n - 48)%N
  else if (97 <=? n)%N && (n <=? 102)%N then Some (n - 87)%N
  else if (65 <=? n)%N && (n <=? 70)%N then Some (n - 55)%N
  else None.

Definition hex4 (a b c d : ascii) : option N :=
  match hex_val a, hex_val b, hex_val c, hex_val d with
  | Some x, Some y, Some z, Some t => Some (((x * 16 + y) * 16 + z) * 16 + t)%N
  | _, _, _, _ => None
  end.

(** The UTF-8 bytes of a code point. *)
Definition utf8 (cp : N) : string :=
  (if cp <? 128 then String (ascii_of_N cp) ""
   else if cp <? 2048 then
     String (ascii_of_N (192 + cp / 64))
       (String (ascii_of_N (128 + cp mod 64)) "")
   else if cp <? 65536 then
     String (ascii_of_N (224 + cp / 4096))
       (String (ascii_of_N (128 + (cp / 64) mod 64))
         (String (ascii_of_N (128 + cp mod 64)) ""))
   else
     String (ascii_of_N (240 + cp / 262144))
       (String (ascii_of_N (128 + (cp / 4096) mod 64))
         (String (ascii_of_N (128 + (cp / 64) mod 64))
           (String (ascii_of_N (128 + cp mod 64)) ""))))%N.

(** [BACKSLASH] of [json.decoder]. *)
Definition unescape (e : ascii) : option ascii :=
  if Ascii.eqb e dquote then Some dquote
  else if Ascii.eqb e backslash then Some backslash
  else if Ascii.eqb e "/"%char then Some "/"%char
  else if Ascii.eqb e "b"%char then Some "008"%char
  else if Ascii.eqb e "f"%char then Some "012"%char
  else if Ascii.eqb e "n"%char then Some "010"%char
  else if Ascii.eqb e "r"%char then Some "013"%char
  else if Ascii.eqb e "t"%char then Some "009"%char
  else None.

Definition prepend (pre : string) (r : option (string * string))
  : option (string * string) :=
  match r with
  | Some (text, rest) => Some (pre ++ text, rest)
  | None => None
  end.

Definition is_high_surrogate (cp : N) : bool :=
  (55296 <=? cp)%N && (cp <=? 56319)%N.
Definition is_low_surrogate (cp : N) : bool :=
  (56320 <=? cp)%N && (cp <=? 57343)%N.

(** [py_scanstring] in strict mode, started just after the opening quote:
    the decoded text and what follows the closing quote.  [None] stands
    for the [JSONDecodeError] raised on an unterminated string, a raw
    control character or an invalid escape.  A high surrogate followed
    by another [\u] escape is joined with it when that one is a low
    surrogate. *)
Fixpoint scanstring (s : string) : option (string * string) :=
  match s with
  | EmptyString => None
  | String c r =>
    if Ascii.eqb c dquote then Some ("", r)
    else if Ascii.eqb c backslash then
      match r with
      | EmptyString => None
      | String e r1 =>
        if Ascii.eqb e "u"%char then
          match r1 with
          | String h1 (String h2 (String h3 (String h4 r2))) =>
            match hex4 h1 h2 h3 h4 with
            | None => None
            | Some uni =>
              if is_high_surrogate uni then
                match r2 with
                | String b2 (String u2 r3) =>
                  if Ascii.eqb b2 backslash && Ascii.eqb u2 "u"%char then
                    match r3 with
                    | String l1 (String l2 (String l3 (String l4 r4))) =>
                      match hex4 l1 l2 l3 l4 with
                      | None => None
                      | Some uni2 =>
                        if is_low_surrogate uni2 then
                          prepend
                            (utf8 (65536 + ((uni - 55296) * 1024
                                            + (uni2 - 56320)))%N)
                            (scanstring r4)
                        else prepend (utf8 uni) (scanstring r2)
                      end
                    | _ => None
                    end
                  else prepend (utf8 uni) (scanstring r2)
                | _ => prepend (utf8 uni) (scanstring r2)
                end
              else prepend (utf8 uni) (scanstring r2)
            end
          | _ => None
          end
        else
          match unescape e with
          | Some ch => prepend (String ch "") (scanstring r1)
          | None => None
          end
      end
    else if Nat.ltb (nat_of_ascii c) 32 then None
    else prepend (String c "") (scanstring r)
  end.

(** [NUMBER_RE]: an integer part, then an optional fraction and an
    optional exponent, each taken only when it matches in full. *)
Fixpoint span_digits (s : string) : string * string :=
  match s with
  | EmptyString => ("", "")
  | String c rest =>
    if is_digit c then
      let '(ds, r) := span_digits rest in (String c ds, r)
    else ("", s)
  end.

Definition match_int (s : string) : option (string * string) :=
  let '(sign, r) :=
    match s with
    | String c r0 => if Ascii.eqb c "-"%char then ("-", r0) else ("", s)
    | EmptyString => ("", s)
    end in
  match r with
  | String c r1 =>
    if Ascii.eqb c "0"%char then Some (sign ++ "0", r1)
    else if is_digit c then
      let '(ds, r2) := span_digits r1 in Some (sign ++ String c ds, r2)
    else None
  | EmptyString => None
  end.

Definition match_frac (s : string) : string * string :=
  match s with
  | String c r =>
    if Ascii.eqb c "."%char then
      match span_digits r with
      | (EmptyString, _) => ("", s)
      | (ds, r1) => (String c ds, r1)
      end
    else ("", s)
  | EmptyString => ("", s)
  end.

Definition match_exp (s : string) : string * string :=
  match s with
  | String e r =>
    if Ascii.eqb e "e"%char || Ascii.eqb e "E"%char then
      let '(sign, r1) :=
        match r with
        | String c r0 =>
          if Ascii.eqb c "-"%char || Ascii.eqb c "+"%char
          then (String c "", r0) else ("", r)
        | EmptyString => ("", r)
        end in
      match span_digits r1 with
      | (EmptyString, _) => ("", s)
      | (ds, r2) => (String e (sign ++ ds), r2)
      end
    else ("", s)
  | EmptyString => ("", s)
  end.

Definition match_number (s : string) : option (string * string) :=
  match match_int s with
  | None => None
  | Some (int_part, r) =>
    let '(frac, r1) := match_frac r in
    let '(exp, r2) := match_exp r1 in
    Some (int_part ++ frac ++ exp, r2)
  end.

(** [s[idx:idx+len(word)] == word]: what follows the word, when it is
    there. *)
Fixpoint strip_prefix (word s : string) : option string :=
  match word with
  | EmptyString => Some s
  | String a word' =>
    match s with
    | String b s' => if Ascii.eqb a b then strip_prefix word' s' else None
    | EmptyString => None
    end
  end.

(** The literals and numbers of [_scan_once], tried in its order. *)
Definition scan_atom (s : string) : option (json * string) :=
  match strip_prefix "null" s with
  | Some r => Some (JNull, r)
  | None =>
  match strip_prefix "true" s with
  | Some r => Some (JBool true, r)
  | None =>
  match strip_prefix "false" s with
  | Some r => Some (JBool false, r)
  | None =>
  match match_number s with
  | Some (lexeme, r) => Some (JNum lexeme, r)
  | None =>
  match strip_prefix "NaN" s with
  | Some r => Some (JNum "NaN", r)
  | None =>
  match strip_prefix "Infinity" s with
  | Some r => Some (JNum "Infinity", r)
  | None =>
  match strip_prefix "-Infinity" s with
  | Some r => Some (JNum "-Infinity", r)
  | None => None
  end end end end end end end.

(** [_scan_once], [JSONArray] and [JSONObject].  Each returns the value
    and what follows it; [None] stands for the [JSONDecodeError].  The
    members of an object are returned as the decoder collects them, in
    the order of the text and with their repetitions: [normalise] makes
    the dicts.  The recursion of the decoder follows the nesting of the
    text, which [fuel] bounds: [parse] supplies more than the text is
    long.
    [array_items] is the loop of [JSONArray], entered at a value;
    [object_members] is the loop of [JSONObject], entered just after the
    opening quote of a key. *)
Fixpoint scan_once (fuel : nat) (s : string) {struct fuel}
  : option (json * string) :=
  match fuel with
  | O => None
  | S fuel' =>
    match s with
    | EmptyString => None
    | String c r =>
      if Ascii.eqb c dquote then
        match scanstring r with
        | Some (text, r1) => Some (JStr text, r1)
        | None => None
        end
      else if Ascii.eqb c "{"%char then
        match skip_ws r with
        | String c1 r1 =>
          if Ascii.eqb c1 "}"%char then Some (JObj [], r1)
          else if Ascii.eqb c1 dquote then
            match object_members fuel' r1 with
            | Some (pairs, r2) => Some (JObj pairs, r2)
            | None => None
            end
          else None
        | EmptyString => None
        end
      else if Ascii.eqb c "["%char then
        match skip_ws r with
        | String c1 r1 =>
          if Ascii.eqb c1 "]"%char then Some (JArr [], r1)
          else
            match array_items fuel' (String c1 r1) with
            | Some (vs, r2) => Some (JArr vs, r2)
            | None => None
            end
        | EmptyString => None
        end
      else scan_atom s
    end
  end
with array_items (fuel : nat) (s : string) {struct fuel}
  : option (list json * string) :=
  match fuel with
  | O => None
  | S fuel' =>
    match scan_once fuel' s with
    | None => None
    | Some (v, r) =>
      match skip_ws r with
      | String c r1 =>
        if Ascii.eqb c "]"%char then Some ([v], r1)
        else if Ascii.eqb c ","%char then
          match array_items fuel' (skip_ws r1) with
          | Some (vs, r2) => Some (v :: vs, r2)
          | None => None
          end
        else None
      | EmptyString => None
      end
    end
  end
with object_members (fuel : nat) (s : string) {struct fuel}
  : option (list (string * json) * string) :=
  match fuel with
  | O => None
  | S fuel' =>
    match scanstring s with
    | None => None
    | Some (key, r) =>
      match skip_ws r with
      | String c r1 =>
        if Ascii.eqb c ":"%char then
          match scan_once fuel' (skip_ws r1) with
          | None => None
          | Some (v, r2) =>
            match skip_ws r2 with
            | String c2 r3 =>
              if Ascii.eqb c2 "}"%char then Some ([(key, v)], r3)
              else if Ascii.eqb c2 ","%char then
                match skip_ws r3 with
                | String c3 r4 =>
                  if Ascii.eqb c3 dquote then
                    match object_members fuel' r4 with
                    | Some (pairs, r5) => Some ((key, v) :: pairs, r5)
                    | None => None
                    end
                  else None
                | EmptyString => None
                end
              else None
            | EmptyString => None
            end
          end
        else None
      | EmptyString => None
      end
    end
  end.

(** [JSONDecoder.decode]: one value between optional whitespace, and
    nothing after it. *)
Definition parse (s : string) : option json :=
  match scan_once (S (String.length s)) (skip_ws s) with
  | Some (v, r) =>
    match skip_ws r with
    | EmptyString => Some v
    | String _ _ => None
    end
  | None => None
  end.

(** [dict(pairs)] at every object: a key that comes again keeps its
    first place and takes the later value. *)
Fixpoint normalise (v : json) : json :=
  match v with
  | JArr items => JArr (map normalise items)
  | JObj members =>
    JObj (Py.dict_of (map (fun kv => (fst kv, normalise (snd kv))) members))
  | _ => v
  end.

(** The nesting of lists and dicts, which the recursion of the decoder
    follows. *)
Fixpoint depth (v : json) : nat :=
  match v with
  | JArr items => S (fold_right (fun x acc => Nat.max (depth x) acc) 0 items)
  | JObj members =>
    S (fold_right (fun kv acc => Nat.max (depth (snd kv)) acc) 0 members)
  | _ => 0
  end.

(** The number of digits of an integer lexeme. *)
Definition int_digits (lexeme : string) : nat :=
  match lexeme with
  | String c r => if Ascii.eqb c "-"%char then String.length r
                  else String.length lexeme
  | EmptyString => 0
  end.

(** [int(lexeme)] raises [ValueError] beyond 4300 digits, the default of
    [sys.set_int_max_str_digits]. *)
Fixpoint ints_ok (v : json) : bool :=
  match v with
  | JNum lexeme => is_float_lexeme lexeme || Nat.leb (int_digits lexeme) 4300
  | JArr items => forallb ints_ok items
  | JObj members => forallb (fun kv => ints_ok (snd kv)) members
  | _ => true
  end.

(** The bytes are the UTF-8 encoding of a text: no byte out of place, no
    encoding longer than needed, no surrogate, nothing above U+10FFFF.
    They are the bytes a file opened with [encoding='utf-8'] can be read
    from, and the [str] values it can be written from. *)
Definition is_cont (c : ascii) : bool :=
  (128 <=? N_of_ascii c)%N && (N_of_ascii c <? 192)%N.

Fixpoint utf8_valid (s : string) : bool :=
  match s with
  | EmptyString => true
  | String a r =>
    let n := N_of_ascii a in
    if (n <? 128)%N then utf8_valid r
    else
      match r with
      | EmptyString => false
      | String b r1 =>
        if (194 <=? n)%N && (n <? 224)%N then is_cont b && utf8_valid r1
        else
          match r1 with
          | EmptyString => false
          | String c r2 =>
            if (224 <=? n)%N && (n <? 240)%N then
              is_cont b && is_cont c
              && (negb (n =? 224)%N || (160 <=? N_of_ascii b)%N)
              && (negb (n =? 237)%N || (N_of_ascii b <? 160)%N)
              && utf8_valid r2
            else
              match r2 with
              | EmptyString => false
              | String d r3 =>
                (240 <=? n)%N && (n <? 245)%N
                && is_cont b && is_cont c && is_cont d
                && (negb (n =? 240)%N || (144 <=? N_of_ascii b)%N)
                && (negb (n =? 244)%N || (N_of_ascii b <? 144)%N)
                && utf8_valid r3
              end
          end
      end
  end.

(** [json.load(f)] on a file opened for reading with [encoding='utf-8']
    that holds the bytes [file]: they are decoded, the text is parsed,
    and the value is returned, unless the bytes are no UTF-8
    ([UnicodeDecodeError]), the text is no JSON document
    ([JSONDecodeError]), its nesting is deeper than [max_depth]
    ([RecursionError]) or one of its integers is too long
    ([ValueError]). *)
Definition load (max_depth : nat) (file : string) : Py.result json :=
  if negb (utf8_valid file)
  then Py.Raise "'utf-8' codec can't decode bytes: invalid data"
  else
    match parse file with
    | None => Py.Raise "JSONDecodeError"
    | Some raw =>
      if Nat.ltb max_depth (depth raw)
      then Py.Raise "maximum recursion depth exceeded while decoding a JSON document"
      else if negb (ints_ok raw)
      then Py.Raise "Exceeds the limit (4300 digits) for integer string conversion"
      else Py.Return (normalise raw)
    end.

(** The frames [_iterencode] needs on top of its own: one for each list
    or dict on the way to a value, and one for the call that spells a
    [float]. *)
Fixpoint dump_need (v : json) : nat :=
  match v with
  | JNum lexeme => if is_float_lexeme lexeme then 1 else 0
  | JArr items => S (fold_right (fun x acc => Nat.max (dump_need x) acc) 0 items)
  | JObj members =>
    S (fold_right (fun kv acc => Nat.max (dump_need (snd kv)) acc) 0 members)
  | _ => 0
  end.

(** [json.dump(v, f, indent=2, ensure_ascii=False)] on a file opened for
    writing with [encoding='utf-8']: the text that reaches the file,
    unless the value nests deeper than [max_depth] ([RecursionError]) or
    one of its strings holds a lone surrogate, which the file cannot
    encode ([UnicodeEncodeError]). *)
Definition dump (max_depth : nat) (v : json) : Py.result string :=
  if Nat.ltb max_depth (dump_need v)
  then Py.Raise "maximum recursion depth exceeded"
  else if negb (utf8_valid (dumps v))
  then Py.Raise "'utf-8' codec can't encode character: surrogates not allowed"
  else Py.Return (dumps v).

End Json.

(** ** [frankenthought-chat.py]: every message goes to all four models,
       and O1 synthesizes one reply *)

Module Frankenthought.
Import Py.

(** [MODELS]. *)
Definition MODELS : dict string :=
  [ ("gemini", "gemini-2.0-flash-thinking-exp-01-21");
    ("o1", "o1");
    ("deepseek", "deepseek/deepseek-r1");
    ("qwen", "qwen/qwq-32b-preview") ].

(** The module's globals and what they reach.  [gemini_model],
    [openai_client] and [openrouter_client] are [None] when their
    initialization raised.  [chat] is the attribute
    [get_gemini_response.chat], [None] while the function has no such
    attribute.  [log_file] is the bytes [CHAT_LOG_FILE] holds, [None]
    while there is no such file; opening it is taken to succeed.
    [trace] records the network requests issued.  Console output is left
    out. *)
Record State : Type := mkState {
  gemini_model : option GenerativeModel;
  openai_client : option AsyncOpenAI;
  openrouter_client : option AsyncOpenAI;
  chat_history : list Turn;
  chat : option ChatSession;
  log_file : option string;
  trace : list Event
}.

Definition set_chat_history (h : list Turn) (st : State) : State :=
  mkState (gemini_model st) (openai_client st) (openrouter_client st)
          h (chat st) (log_file st) (trace st).

Definition set_chat (c : option ChatSession) (st : State) : State :=
  mkState (gemini_model st) (openai_client st) (openrouter_client st)
          (chat_history st) c (log_file st) (trace st).

Definition set_log_file (f : option string) (st : State) : State :=
  mkState (gemini_model st) (openai_client st) (openrouter_client st)
          (chat_history st) (chat st) f (trace st).

Definition log_event (ev : Event) (st : State) : State :=
  mkState (gemini_model st) (openai_client st) (openrouter_client st)
          (chat_history st) (chat st) (log_file st) (trace st ++ [ev]).

Definition M : Type -> Type := Py.M State.
Definition Async : Type -> Type := Py.Async State.

Section Program.

Variable w : World.

(** *** The chat log *)

Definition load_chat_log : M Json.json :=
  try_except
    (file <- gets log_file ;;
     match file with
     | Some bytes => lift (Json.load (load_depth w) bytes)
     | None => ret (Json.JArr [])
     end)
    (fun _ => ret (Json.JArr [])).

(** [open(CHAT_LOG_FILE, 'w')] empties the file, and [json.dump] writes
    the text chunk by chunk: when it fails, what was written before
    stays in the file. *)
Definition json_dump (chat_log : Json.json) : M unit :=
  fun st =>
    match Json.dump (dump_depth w) chat_log with
    | Return text => (Return tt, set_log_file (Some text) st)
    | Raise e =>
      (Raise e,
       set_log_file (Some (partial_write w (Json.dumps chat_log))) st)
    end.

Definition save_chat_log (chat_log : Json.json) : M unit :=
  try_except (json_dump chat_log) (fun _ => ret tt).

(** *** The backends *)

Definition start_chat : M unit :=
  modify (fun st => set_chat (Some []) (log_event EvStartChat st)).

(** [get_gemini_response.chat.send_message(text)]. *)
Definition send_message (text : string) : M Response :=
  fun st =>
    match chat st with
    | None => (Raise "'function' object has no attribute 'chat'", st)
    | Some sess =>
      (send w sess text,
       set_chat (Some (sess ++ [text])%list) (log_event (EvSendMessage text) st))
    end.

Definition get_gemini_response (message : string) : Async string :=
  no_await
    (try_except
       (model <- gets gemini_model ;;
        match model with
        | None => ret "Gemini model not available"
        | Some _ =>
          session <- gets chat ;;
          match session with
          | None =>
            start_chat ;;;
            history <- gets chat_history ;;
            for_each history (fun msg =>
              if String.eqb (role msg) "user"
              then send_message (content msg) ;;; ret tt
              else ret tt)
          | Some _ => ret tt
          end ;;;
          response <- send_message message ;;
          lift (response_text response)
        end)
       (fun e => ret ("Gemini Error: " ++ e))).

Definition get_openai_response (client : option AsyncOpenAI)
  (model message : string) : Async string :=
  fun st =>
    match client with
    | None => (Finished (Return (model ++ " client not available")), st)
    | Some c =>
      let messages :=
        ([system_turn "You are a helpful AI assistant."]
         ++ chat_history st ++ [user_turn message])%list in
      let req := mkRequest c model messages in
      (Awaiting req
         (fun response =>
            match response with
            | Return text => Return text
            | Raise e => Return (model ++ " Error: " ++ e)
            end),
       log_event (EvCreate req) st)
    end.

Definition nl : string := String "010"%char "".

(** The f-string of [synthesize_responses]; its subscripts raise
    [KeyError] on a missing model. *)
Definition synthesis_prompt (user_message : string) (responses : dict string)
  : M string :=
  gemini <- lift (getitem responses "gemini") ;;
  deepseek <- lift (getitem responses "deepseek") ;;
  qwen <- lift (getitem responses "qwen") ;;
  o1 <- lift (getitem responses "o1") ;;
  ret ("As an AI synthesizer, analyze these AI responses to the user's message and create a comprehensive, accurate response that combines the best insights from all sources." ++ nl
       ++ nl
       ++ "User's Message: " ++ user_message ++ nl
       ++ nl
       ++ "Responses from different AI models:" ++ nl
       ++ "Model 1: " ++ gemini ++ nl
       ++ "Model 2: " ++ deepseek ++ nl
       ++ "Model 3: " ++ qwen ++ nl
       ++ "Model 4: " ++ o1 ++ nl
       ++ nl
       ++ "Create a well-structured response that:" ++ nl
       ++ "1. Combines the unique insights from each model" ++ nl
       ++ "2. Resolves any contradictions between the responses" ++ nl
       ++ "3. Provides the most accurate and helpful information" ++ nl
       ++ "4. Maintains a natural, conversational tone" ++ nl
       ++ nl).

Definition synthesize_responses (user_message : string)
  (responses : dict string) : Async string :=
  fun st =>
    match openai_client st with
    | None => (Finished (Return "Cannot synthesize: OpenAI O1 not available"), st)
    | Some client =>
      match
        (prompt <- synthesis_prompt user_message responses ;;
         model <- lift (getitem MODELS "o1") ;;
         ret (mkRequest client model
                [system_turn "You are an expert AI response synthesizer.";
                 user_turn prompt])) st
      with
      | (Raise e, st') => (Finished (Return ("Synthesis Error: " ++ e)), st')
      | (Return req, st') =>
        (Awaiting req
           (fun response =>
              match response with
              | Return text => Return text
              | Raise e => Return ("Synthesis Error: " ++ e)
              end),
         log_event (EvCreate req) st')
      end
    end.

(** The task list of [process_message]: the arguments are evaluated and
    the four tasks created in the order of the list, and each task gets
    its first run, in that order, when [process_message] awaits. *)
Definition start_tasks (message : string) : M (list (Coro string)) :=
  openrouter <- gets openrouter_client ;;
  deepseek <- lift (getitem MODELS "deepseek") ;;
  qwen <- lift (getitem MODELS "qwen") ;;
  openai <- gets openai_client ;;
  o1 <- lift (getitem MODELS "o1") ;;
  t0 <- start (get_gemini_response message) ;;
  t1 <- start (get_openai_response openrouter deepseek message) ;;
  t2 <- start (get_openai_response openrouter qwen message) ;;
  t3 <- start (get_openai_response openai o1 message) ;;
  ret [t0; t1; t2; t3].

(** The first half of [process_message]: the tasks are awaited together
    and their results stored under the four keys.  [order] is the order
    in which the network answers the requests in flight, by task
    number. *)
Definition dispatch (order : list nat) (message : string) : M (dict string) :=
  tasks <- start_tasks message ;;
  results <- lift (gather w order tasks) ;;
  r0 <- lift (index results 0) ;;
  r1 <- lift (index results 1) ;;
  r2 <- lift (index results 2) ;;
  r3 <- lift (index results 3) ;;
  ret (dict_of [("gemini", r0); ("deepseek", r1); ("qwen", r2); ("o1", r3)]).

Definition type_name (v : Json.json) : string :=
  match v with
  | Json.JNull => "NoneType"
  | Json.JBool _ => "bool"
  | Json.JNum lexeme => if Json.is_float_lexeme lexeme then "float" else "int"
  | Json.JStr _ => "str"
  | Json.JArr _ => "list"
  | Json.JObj _ => "dict"
  end.

(** [chat_log.append(entry)] on whatever [load_chat_log] returned. *)
Definition append (chat_log entry : Json.json) : result Json.json :=
  match chat_log with
  | Json.JArr items => Return (Json.JArr (items ++ [entry]))
  | _ => Raise ("'" ++ type_name chat_log ++ "' object has no attribute 'append'")
  end.

(** The dict appended to the chat log. *)
Definition log_entry (now message : string) (responses : dict string)
  (final_response : string) : Json.json :=
  Json.JObj (dict_of
    [ ("timestamp", Json.JStr now);
      ("user_message", Json.JStr message);
      ("model_responses",
       Json.JObj (dict_of
         (map (fun ir => ("Model " ++ str_of_nat (fst ir), Json.JStr (snd ir)))
              (enumerate 1 (values responses)))));
      ("final_response", Json.JStr final_response) ]).

(** [now] is [datetime.now().isoformat()] at the time of the call. *)
Definition process_message (order : list nat) (now message : string) : M string :=
  responses <- dispatch order message ;;
  final_response <- await w (synthesize_responses message responses) ;;
  modify (fun st => set_chat_history (chat_history st ++ [user_turn message]) st) ;;;
  modify (fun st =>
    set_chat_history (chat_history st ++ [assistant_turn final_response]) st) ;;;
  chat_log <- load_chat_log ;;
  chat_log' <- lift (append chat_log (log_entry now message responses final_response)) ;;
  save_chat_log chat_log' ;;;
  ret final_response.

(** *** The command loop *)

(** The [--clear] branch of [main]. *)
Definition clear : M unit :=
  modify (set_chat_history []) ;;;
  session <- gets chat ;;
  match session with
  | Some _ => modify (set_chat None)
  | None => ret tt
  end.

(** What one pass through the [while True] loop of [main] needs from
    outside: the line typed, and for a message the arrival order of the
    responses and the clock. *)
Record Input : Type := mkInput {
  line : string;
  arrival : list nat;
  clock : string
}.

(** One pass through the loop.  The catch-all at its end prints the
    exception and the loop goes on. *)
Definition main_iteration (inp : Input) (st : State) : Control * State :=
  let message := strip (line inp) in
  if String.eqb (lower message) "--exit" then (Break, st)
  else if String.eqb (lower message) "--help" then (Continue, st)
  else if String.eqb (lower message) "--clear" then (Continue, snd (clear st))
  else if String.eqb message "" then (Continue, st)
  else (Continue, snd (process_message (arrival inp) (clock inp) message st)).

Fixpoint main (inputs : list Input) (st : State) : State :=
  match inputs with
  | [] => st
  | inp :: later =>
    match main_iteration inp st with
    | (Break, st') => st'
    | (Continue, st') => main later st'
    end
  end.

End Program.

End Frankenthought.

(** ** [multi-chat.py]: one selected model answers each message *)

Module MultiChat.
Import Py.

(** [MODELS]: the display name and the model id of each choice. *)
Definition MODELS : list (nat * (string * string)) :=
  [ (1, ("Gemini", "gemini-2.0-flash-thinking-exp-01-21"));
    (2, ("OpenAI", "o1"));
    (3, ("DeepSeek", "deepseek/deepseek-r1"));
    (4, ("Qwen", "qwen/qwq-32b-preview")) ].

(** [MODELS[model_choice]]; the text of the [KeyError] is the key. *)
Definition MODELS_getitem (model_choice : nat) : result (string * string) :=
  match find (fun kv => Nat.eqb (fst kv) model_choice) MODELS with
  | Some kv => Return (snd kv)
  | None => Raise (str_of_nat model_choice)
  end.

(** The module's globals; [gemini_chat] is the attribute
    [chat_with_model.gemini_chat], [None] while the function has none. *)
Record State : Type := mkState {
  gemini_model : option GenerativeModel;
  openai_client : option AsyncOpenAI;
  openrouter_client : option AsyncOpenAI;
  chat_history : list Turn;
  gemini_chat : option ChatSession;
  trace : list Event
}.

Definition set_chat_history (h : list Turn) (st : State) : State :=
  mkState (gemini_model st) (openai_client st) (openrouter_client st)
          h (gemini_chat st) (trace st).

Definition set_gemini_chat (c : option ChatSession) (st : State) : State :=
  mkState (gemini_model st) (openai_client st) (openrouter_client st)
          (chat_history st) c (trace st).

Definition log_event (ev : Event) (st : State) : State :=
  mkState (gemini_model st) (openai_client st) (openrouter_client st)
          (chat_history st) (gemini_chat st) (trace st ++ [ev]).

Definition M : Type -> Type := Py.M State.
Definition Async : Type -> Type := Py.Async State.

Section Program.

Variable w : World.

Definition send_openai_message (client : AsyncOpenAI) (model message : string)
  : Async string :=
  fun st =>
    let messages :=
      ([system_turn "You are a helpful AI assistant."]
       ++ chat_history st ++ [user_turn message])%list in
    let req := mkRequest client model messages in
    (Awaiting req
       (fun response =>
          match response with
          | Return text => Return text
          | Raise e => Return ("Error: " ++ e)
          end),
     log_event (EvCreate req) st).

Definition start_chat : M unit :=
  modify (fun st => set_gemini_chat (Some []) (log_event EvStartChat st)).

(** [chat_with_model.gemini_chat.send_message(text)]. *)
Definition send_message (text : string) : M Response :=
  fun st =>
    match gemini_chat st with
    | None => (Raise "'function' object has no attribute 'gemini_chat'", st)
    | Some sess =>
      (send w sess text,
       set_gemini_chat (Some (sess ++ [text])%list)
         (log_event (EvSendMessage text) st))
    end.

Definition append_exchange (message response : string) : M unit :=
  modify (fun st => set_chat_history (chat_history st ++ [user_turn message]) st) ;;;
  modify (fun st => set_chat_history (chat_history st ++ [assistant_turn response]) st).

(** The seeding of a fresh Gemini session: every user turn of the shared
    history is sent again, and the replies are dropped. *)
Definition replay_history : M unit :=
  history <- gets chat_history ;;
  for_each history (fun msg =>
    if String.eqb (role msg) "user"
    then send_message (content msg) ;;; ret tt
    else ret tt).

(** [chat_with_model], awaited by [main]: the branches are tried in the
    order of the [if] chain, and a client that is [None] is falsy.  In
    the Gemini branch the user turn is appended before [response.text]
    is read for the assistant turn. *)
Definition chat_with_model (model_choice : nat) (message : string) : M string :=
  try_except
    (entry <- lift (MODELS_getitem model_choice) ;;
     let model_id := snd entry in
     gemini <- gets gemini_model ;;
     openai <- gets openai_client ;;
     openrouter <- gets openrouter_client ;;
     match Nat.eqb model_choice 1, gemini with
     | true, Some _ =>
       session <- gets gemini_chat ;;
       match session with
       | None => start_chat ;;; replay_history
       | Some _ => ret tt
       end ;;;
       response <- send_message message ;;
       modify (fun st =>
         set_chat_history (chat_history st ++ [user_turn message]) st) ;;;
       text <- lift (response_text response) ;;
       modify (fun st =>
         set_chat_history (chat_history st ++ [assistant_turn text]) st) ;;;
       lift (response_text response)
     | _, _ =>
       match Nat.eqb model_choice 2, openai with
       | true, Some client =>
         response <- await w (send_openai_message client model_id message) ;;
         append_exchange message response ;;;
         ret response
       | _, _ =>
         match Nat.eqb model_choice 3 || Nat.eqb model_choice 4, openrouter with
         | true, Some client =>
           response <- await w (send_openai_message client model_id message) ;;
           append_exchange message response ;;;
           ret response
         | _, _ => ret "Selected model is not available."
         end
       end
     end)
    (fun e => ret ("Error: " ++ e)).

(** *** The command loop *)

(** The [--clear] branch of [main]. *)
Definition clear : M unit :=
  modify (set_chat_history []) ;;;
  session <- gets gemini_chat ;;
  match session with
  | Some _ => modify (set_gemini_chat None)
  | None => ret tt
  end.

(** [get_model_choice] over the answers typed: [None] stands for an
    answer [int] refuses, which is asked again, like a number that is
    neither 0 nor a key of [MODELS] (a negative one included).  The
    result is [None] on 0.  Running
    out of answers is the [EOFError] of [input]. *)
Fixpoint get_model_choice (answers : list (option nat)) : result (option nat) :=
  match answers with
  | [] => Raise "EOF when reading a line"
  | None :: later => get_model_choice later
  | Some choice :: later =>
    if Nat.eqb choice 0 then Return None
    else if existsb (fun kv => Nat.eqb (fst kv) choice) MODELS then Return (Some choice)
    else get_model_choice later
  end.

(** What one pass through the [while True] loop of [main] reads: the
    line typed, and after [--change] the answers to the model menu. *)
Record Input : Type := mkInput {
  line : string;
  answers : list (option nat)
}.

(** One pass through the loop, from the current model and the globals.
    The catch-all at its end prints the exception and the loop goes on. *)
Definition main_iteration (inp : Input) (current_model : nat) (st : State)
  : Control * nat * State :=
  let message := strip (line inp) in
  if String.eqb (lower message) "--exit" then (Break, current_model, st)
  else if String.eqb (lower message) "--help" then (Continue, current_model, st)
  else if String.eqb (lower message) "--change" then
    match get_model_choice (answers inp) with
    | Return None => (Break, current_model, st)
    | Return (Some new_model) => (Continue, new_model, st)
    | Raise _ => (Continue, current_model, st)
    end
  else if String.eqb (lower message) "--clear" then
    (Continue, current_model, snd (clear st))
  else if String.eqb message "" then (Continue, current_model, st)
  else (Continue, current_model, snd (chat_with_model current_model message st)).

Fixpoint main_loop (inputs : list Input) (current_model : nat) (st : State)
  : State :=
  match inputs with
  | [] => st
  | inp :: later =>
    match main_iteration inp current_model st with
    | (Break, _, st') => st'
    | (Continue, model, st') => main_loop later model st'
    end
  end.

(** [main]: the first model is chosen before the loop, and 0 there ends
    the program before any line is read; so does the [EOFError] of
    [input], which nothing catches at that point. *)
Definition main (first_answers : list (option nat)) (inputs : list Input)
  (st : State) : State :=
  match get_model_choice first_answers with
  | Return (Some current_model) => main_loop inputs current_model st
  | Return None => st
  | Raise _ => st
  end.

End Program.

End MultiChat.

(** * Properties *)

Import Py.
Open Scope list_scope.

Module F := Frankenthought.
Module MC := MultiChat.

(** ** Vocabulary of the statements *)

(** The texts of the user turns of a history, oldest first. *)
Definition user_texts (history : list Turn) : list string :=
  map content (filter (fun msg => String.eqb (role msg) "user") history).

(** What sending [texts] one after the other on a session with transcript
    [sess] comes to when a failure ends the sequence: the outcome, and
    the texts that were handed to [send_message].  The responses are
    dropped unread, so only a failure of [send_message] itself ends the
    sequence. *)
Fixpoint attempt (w : World) (sess : ChatSession) (texts : list string)
  : result unit * list string :=
  match texts with
  | [] => (Return tt, [])
  | t :: rest =>
    match send w sess t with
    | Return _ =>
      let '(r, sent) := attempt w (sess ++ [t]) rest in (r, t :: sent)
    | Raise e => (Raise e, [t])
    end
  end.

(** The globals a backend call leaves alone: everything but the Gemini
    session and the trace. *)
Definition same_globals (st st' : F.State) : Prop :=
  F.gemini_model st' = F.gemini_model st /\
  F.openai_client st' = F.openai_client st /\
  F.openrouter_client st' = F.openrouter_client st /\
  F.chat_history st' = F.chat_history st /\
  F.log_file st' = F.log_file st.

(** The state after [sent] was handed to [send_message] on session
    [sess]. *)
Definition after_sending (sess : ChatSession) (sent : list string)
  (st : F.State) : F.State :=
  F.mkState (F.gemini_model st) (F.openai_client st) (F.openrouter_client st)
            (F.chat_history st) (Some (sess ++ sent))
            (F.log_file st) (F.trace st ++ map EvSendMessage sent).

(** The text [get_gemini_response] makes of the outcome of its last
    [send_message]. *)
Definition gemini_text (r : result string) : string :=
  match r with
  | Return text => text
  | Raise e => ("Gemini Error: " ++ e)%string
  end.

(** The state just after [gemini_model.start_chat(history=[])]. *)
Definition chat_started (st : F.State) : F.State :=
  F.set_chat (Some []) (F.log_event EvStartChat st).

(** The messages [get_openai_response] sends: the system preamble, the
    whole shared history, and the new message. *)
Definition openai_messages (history : list Turn) (message : string) : list Turn :=
  [system_turn "You are a helpful AI assistant."] ++ history ++ [user_turn message].

(** The text [get_openai_response] comes to once its request, if it makes
    one, is answered. *)
Definition openai_reply (w : World) (client : option AsyncOpenAI)
  (model message : string) (history : list Turn) : string :=
  match client with
  | None => (model ++ " client not available")%string
  | Some c =>
    match create w (mkRequest c model (openai_messages history message)) with
    | Return text => text
    | Raise e => (model ++ " Error: " ++ e)%string
    end
  end.

(** The request [get_openai_response] puts on the network. *)
Definition openai_request (client : option AsyncOpenAI) (model message : string)
  (history : list Turn) : list Event :=
  match client with
  | None => []
  | Some c => [EvCreate (mkRequest c model (openai_messages history message))]
  end.

Definition add_events (evs : list Event) (st : F.State) : F.State :=
  F.mkState (F.gemini_model st) (F.openai_client st) (F.openrouter_client st)
            (F.chat_history st) (F.chat st) (F.log_file st) (F.trace st ++ evs).

(** The state [dispatch] ends in, from the state [st1] the Gemini call
    left: the three requests are on the network. *)
Definition after_requests (message : string) (st1 : F.State) : F.State :=
  add_events
    (openai_request (F.openrouter_client st1) "deepseek/deepseek-r1" message
       (F.chat_history st1)
     ++ openai_request (F.openrouter_client st1) "qwen/qwq-32b-preview" message
       (F.chat_history st1)
     ++ openai_request (F.openai_client st1) "o1" message (F.chat_history st1))
    st1.

(** The four entries of [responses], from the state [st] in which
    [process_message] was called and the reply [r0] of the Gemini call. *)
Definition responses_of (w : World) (message : string) (st : F.State)
  (r0 : string) : dict string :=
  [ ("gemini", r0);
    ("deepseek", openai_reply w (F.openrouter_client st) "deepseek/deepseek-r1"
                   message (F.chat_history st));
    ("qwen", openai_reply w (F.openrouter_client st) "qwen/qwq-32b-preview"
               message (F.chat_history st));
    ("o1", openai_reply w (F.openai_client st) "o1" message (F.chat_history st)) ].

(** A client or model object that is not [None]. *)
Definition available {A : Type} (o : option A) : bool :=
  match o with
  | Some _ => true
  | None => false
  end.

(** A world given by its two backends: every response of Gemini that
    arrives has a text, [json] handles a nesting of 900, and a failed
    [json.dump] has written nothing. *)
Definition backends (gemini : ChatSession -> string -> result string)
  (openai : Request -> result string) : World :=
  mkWorld gemini openai (fun _ _ => false) 900 900 (fun _ => ""%string).

(** A concrete run for C1: Gemini and OpenAI are there, OpenRouter is
    not, and the o1 response is the only one in flight. *)
Definition world_demo : World :=
  backends (fun _ text => Return ("gemini says " ++ text)%string)
           (fun req => Return ("reply of " ++ req_model req)%string).

Definition state_demo : F.State :=
  F.mkState (Some (mkGenerativeModel "gemini-2.0-flash-thinking-exp-01-21"))
            (Some OpenAIEndpoint) None [] None None [].

(** The f-string of [synthesize_responses] with its five values. *)
Definition prompt_text (message gemini deepseek qwen o1 : string) : string :=
  ("As an AI synthesizer, analyze these AI responses to the user's message and create a comprehensive, accurate response that combines the best insights from all sources." ++ F.nl
   ++ F.nl
   ++ "User's Message: " ++ message ++ F.nl
   ++ F.nl
   ++ "Responses from different AI models:" ++ F.nl
   ++ "Model 1: " ++ gemini ++ F.nl
   ++ "Model 2: " ++ deepseek ++ F.nl
   ++ "Model 3: " ++ qwen ++ F.nl
   ++ "Model 4: " ++ o1 ++ F.nl
   ++ F.nl
   ++ "Create a well-structured response that:" ++ F.nl
   ++ "1. Combines the unique insights from each model" ++ F.nl
   ++ "2. Resolves any contradictions between the responses" ++ F.nl
   ++ "3. Provides the most accurate and helpful information" ++ F.nl
   ++ "4. Maintains a natural, conversational tone" ++ F.nl
   ++ F.nl)%string.

(** The synthesis request for the four responses. *)
Definition synthesis_request (client : AsyncOpenAI)
  (message gemini deepseek qwen o1 : string) : Request :=
  mkRequest client "o1"
    [system_turn "You are an expert AI response synthesizer.";
     user_turn (prompt_text message gemini deepseek qwen o1)].

(** The text [synthesize_responses] comes to. *)
Definition synthesis_reply (w : World) (client : option AsyncOpenAI)
  (message gemini deepseek qwen o1 : string) : string :=
  match client with
  | None => "Cannot synthesize: OpenAI O1 not available"%string
  | Some c =>
    match create w (synthesis_request c message gemini deepseek qwen o1) with
    | Return text => text
    | Raise e => ("Synthesis Error: " ++ e)%string
    end
  end.

Definition synthesis_events (client : option AsyncOpenAI)
  (message gemini deepseek qwen o1 : string) : list Event :=
  match client with
  | None => []
  | Some c => [EvCreate (synthesis_request c message gemini deepseek qwen o1)]
  end.


(** What [load_chat_log] returns for a given log file: the value its
    bytes stand for when [json.load] returns, the empty list when there
    is no file and when [json.load] raises. *)
Definition read_log (w : World) (file : option string) : Json.json :=
  match file with
  | None => Json.JArr []
  | Some bytes =>
    match Json.load (load_depth w) bytes with
    | Return v => v
    | Raise _ => Json.JArr []
    end
  end.

(** What [save_chat_log] leaves in the log file. *)
Definition saved_log (w : World) (chat_log : Json.json) : string :=
  match Json.dump (dump_depth w) chat_log with
  | Return text => text
  | Raise _ => partial_write w (Json.dumps chat_log)
  end.

(** The state in which [process_message] loads the log: after the
    dispatch [st2], the synthesis request, and the two appends. *)
Definition before_log (w : World) (message : string) (st st1 : F.State)
  (r0 : string) : F.State :=
  let r1 := openai_reply w (F.openrouter_client st) "deepseek/deepseek-r1"
              message (F.chat_history st) in
  let r2 := openai_reply w (F.openrouter_client st) "qwen/qwq-32b-preview"
              message (F.chat_history st) in
  let r3 := openai_reply w (F.openai_client st) "o1" message (F.chat_history st) in
  F.set_chat_history
    (F.chat_history st
     ++ [user_turn message;
         assistant_turn
           (synthesis_reply w (F.openai_client st) message r0 r1 r2 r3)])
    (add_events (synthesis_events (F.openai_client st) message r0 r1 r2 r3)
       (after_requests message st1)).

(** The scenario of the specification: one backend answers 4, the others
    are unavailable. *)
Definition world_four : World :=
  backends (fun _ _ => Raise "unreachable") (fun _ => Return "4").

Definition state_only_openai : F.State :=
  F.mkState None (Some OpenAIEndpoint) None [] None None [].




(** The state after [sent] was handed to [send_message] on session
    [sess]. *)
Definition mc_after_sending (sess : ChatSession) (sent : list string)
  (st : MC.State) : MC.State :=
  MC.mkState (MC.gemini_model st) (MC.openai_client st) (MC.openrouter_client st)
             (MC.chat_history st) (Some (sess ++ sent))
             (MC.trace st ++ map EvSendMessage sent).

Definition mc_chat_started (st : MC.State) : MC.State :=
  MC.set_gemini_chat (Some []) (MC.log_event EvStartChat st).

(** What the Gemini branch of [chat_with_model] gets from the backend:
    the outcome of the seeding, if the session is new, and then of the
    send of the message. *)
Definition mc_gemini_outcome (w : World) (message : string) (st : MC.State)
  : result string :=
  match MC.gemini_chat st with
  | Some sess => gemini_send w sess message
  | None =>
    match attempt w [] (user_texts (MC.chat_history st)) with
    | (Return _, sent) => gemini_send w sent message
    | (Raise e, _) => Raise e
    end
  end.

(** In the Gemini branch the response to the message arrived and
    reading its text raised: the failure comes after the user turn was
    appended. *)
Definition mc_text_raised (w : World) (message : string) (st : MC.State)
  : bool :=
  match mc_gemini_outcome w message st with
  | Return _ => false
  | Raise _ =>
    match MC.gemini_chat st with
    | Some sess => text_raises w sess message
    | None =>
      match attempt w [] (user_texts (MC.chat_history st)) with
      | (Return _, sent) => text_raises w sent message
      | (Raise _, _) => false
      end
    end
  end.

(** The texts the Gemini branch hands to [send_message], and the session
    they are sent on. *)
Definition mc_gemini_sent (w : World) (message : string) (st : MC.State)
  : list string :=
  match MC.gemini_chat st with
  | Some sess => [message]
  | None =>
    match attempt w [] (user_texts (MC.chat_history st)) with
    | (Return _, sent) => sent ++ [message]
    | (Raise e, sent) => sent
    end
  end.

Definition mc_gemini_state (w : World) (message : string) (st : MC.State)
  : MC.State :=
  match MC.gemini_chat st with
  | Some sess => mc_after_sending sess [message] st
  | None => mc_after_sending [] (mc_gemini_sent w message st) (mc_chat_started st)
  end.

Definition mc_append (message response : string) (st : MC.State) : MC.State :=
  MC.set_chat_history
    (MC.chat_history st ++ [user_turn message; assistant_turn response]) st.

(** The client that serves a model choice, when there is one. *)
Definition mc_client (model_choice : nat) (st : MC.State) : option AsyncOpenAI :=
  match model_choice with
  | 2 => MC.openai_client st
  | 3 | 4 => MC.openrouter_client st
  | _ => None
  end.

(** The model choice is a key of [MODELS] and its backend is there. *)
Definition mc_selected_available (model_choice : nat) (st : MC.State) : bool :=
  match model_choice with
  | 1 => available (MC.gemini_model st)
  | 2 => available (MC.openai_client st)
  | 3 | 4 => available (MC.openrouter_client st)
  | _ => false
  end.

Definition mc_model_id (model_choice : nat) : string :=
  match MC.MODELS_getitem model_choice with
  | Return entry => snd entry
  | Raise _ => ""%string
  end.

Definition mc_openai_text (r : result string) : string :=
  match r with
  | Return text => text
  | Raise e => ("Error: " ++ e)%string
  end.

Definition mc_request (c : AsyncOpenAI) (model_choice : nat) (message : string)
  (st : MC.State) : Request :=
  mkRequest c (mc_model_id model_choice)
    (openai_messages (MC.chat_history st) message).


Definition mc_state_openai : MC.State :=
  MC.mkState None (Some OpenAIEndpoint) None [] None [].

(** The state with an empty history and no Gemini session. *)
Definition cleared (st : F.State) : F.State :=
  F.mkState (F.gemini_model st) (F.openai_client st) (F.openrouter_client st)
            [] None (F.log_file st) (F.trace st).

Definition mc_cleared (st : MC.State) : MC.State :=
  MC.mkState (MC.gemini_model st) (MC.openai_client st) (MC.openrouter_client st)
             [] None (MC.trace st).

(** A Gemini backend whose first call on a session fails. *)
Definition world_flaky : World :=
  backends
    (fun sess text =>
       match sess with
       | [] => Raise "503 Service Unavailable"
       | _ :: _ => Return ("echo " ++ text)%string
       end)
    (fun _ => Return "ok").

Definition state_two_exchanges : F.State :=
  F.mkState (Some (mkGenerativeModel "gemini-2.0-flash-thinking-exp-01-21"))
    None None
    [user_turn "a"; assistant_turn "x"; user_turn "b"; assistant_turn "y"]
    None None [].

(** [process_message] on each input in turn; an exchange that raised (the
    catch-all of [main] prints and goes on) still counts as a step. *)
Fixpoint exchanges (w : World) (steps : list F.Input) (st : F.State) : F.State :=
  match steps with
  | [] => st
  | inp :: later =>
    exchanges w later
      (snd (F.process_message w (F.arrival inp) (F.clock inp) (F.line inp) st))
  end.

(** [chat_with_model] on each pair of model choice and message. *)
Fixpoint mc_exchanges (w : World) (steps : list (nat * string)) (st : MC.State)
  : MC.State :=
  match steps with
  | [] => st
  | (choice, message) :: later =>
    mc_exchanges w later (snd (MC.chat_with_model w choice message st))
  end.



(** The history made of the given pairs of message and final text. *)
Definition turns_of (pairs : list (string * string)) : list Turn :=
  flat_map (fun p => [user_turn (fst p); assistant_turn (snd p)]) pairs.

(** Turn [i] is a user turn when [i] is even and an assistant turn when
    it is odd. *)
Definition roles_alternate (history : list Turn) : Prop :=
  forall i t, nth_error history i = Some t ->
              role t = if Nat.even i then "user"%string else "assistant"%string.

Definition steps_demo : list F.Input :=
  [F.mkInput "first" [1; 3] "t1"; F.mkInput "second" [] "t2"].

Definition mc_steps_demo : list (nat * string) :=
  [(2, "first"%string); (1, "second"%string); (2, "third"%string)].

Definition mc_state_demo : MC.State :=
  MC.mkState (Some (mkGenerativeModel "gemini-2.0-flash-thinking-exp-01-21"))
             (Some OpenAIEndpoint) None [] None [].

(** What the Gemini call of the all-parallel mode gets from the backend:
    the outcome of the seeding, if the session is new, and then of the
    send of the message. *)
Definition gemini_outcome (w : World) (message : string) (st : F.State)
  : result string :=
  match F.chat st with
  | Some sess => gemini_send w sess message
  | None =>
    match attempt w [] (user_texts (F.chat_history st)) with
    | (Return _, sent) => gemini_send w sent message
    | (Raise e, _) => Raise e
    end
  end.

(** A world in which every backend call fails with the text boom. *)
Definition world_down : World :=
  backends (fun _ _ => Raise "boom") (fun _ => Raise "boom").

Definition state_all_clients : F.State :=
  F.mkState (Some (mkGenerativeModel "gemini-2.0-flash-thinking-exp-01-21"))
            (Some OpenAIEndpoint) (Some OpenRouterEndpoint) [] None None [].


(** Values the chat log can hold and [json.load] gives back as they
    were: built from strings, [None], booleans, lists and dicts (whose
    keys are distinct, as in every Python dict); no numbers. *)
Fixpoint distinct (ks : list string) : bool :=
  match ks with
  | [] => true
  | k :: rest => negb (existsb (String.eqb k) rest) && distinct rest
  end.

Fixpoint storable (v : Json.json) : bool :=
  match v with
  | Json.JNum _ => false
  | Json.JArr items => forallb storable items
  | Json.JObj members =>
    distinct (map fst members)
    && forallb (fun kv => storable (snd kv)) members
  | _ => true
  end.

(** Fuel that is enough to decode the text of a value. *)
Fixpoint need (v : Json.json) : nat :=
  match v with
  | Json.JArr items => S (fold_right (fun x acc => S (need x + acc)) 0 items)
  | Json.JObj members =>
    S (fold_right (fun kv acc => S (need (snd kv) + acc)) 0 members)
  | _ => 1
  end.

(** The text starts with a character that is neither a blank nor a
    closing bracket. *)
Definition starts_value (s : string) : Prop :=
  exists c r, s = String c r /\ Json.is_ws c = false
              /\ Ascii.eqb c "]"%char = false.

(** The text of [v] at any level, followed by anything, decodes to [v]
    and what follows. *)
Definition decodes (v : Json.json) : Prop :=
  storable v = true ->
  forall (level : nat) (rest : string) (fuel : nat),
    need v <= fuel ->
    Json.scan_once fuel (Json.encode level v ++ rest)%string = Some (v, rest).

Definition item_separator (level : nat) : string :=
  ("," ++ Json.newline_indent (S level))%string.

Definition member_text (level : nat) (kv : string * Json.json) : string :=
  (Json.encode_basestring (fst kv) ++ ": " ++ Json.encode (S level) (snd kv))%string.

(** The text of the members of a dict after the opening quote of the
    first key, followed by [X]. *)
Fixpoint members_tail (level : nat) (k : string) (v : Json.json)
  (ms : list (string * Json.json)) (X : string) : string :=
  (Json.escape k
   ++ String Json.dquote
        (String ":"
           (String " "
              (Json.encode (S level) v
               ++ match ms with
                  | [] => X
                  | kv2 :: ms' =>
                    String ","
                      (Json.newline_indent (S level)
                       ++ String Json.dquote
                            (members_tail level (fst kv2) (snd kv2) ms' X))
                  end))))%string.

(** A record of the chat log as [process_message] writes it; the keys of
    [model_responses] are distinct, as in every dict. *)
Record ChatLogEntry : Type := mkChatLogEntry {
  timestamp : string;
  user_message : string;
  model_responses : dict string;
  final_response : string
}.

(** The dict that stands for a record. *)
Definition entry_json (e : ChatLogEntry) : Json.json :=
  Json.JObj
    [ ("timestamp", Json.JStr (timestamp e));
      ("user_message", Json.JStr (user_message e));
      ("model_responses",
       Json.JObj (map (fun kv => (fst kv, Json.JStr (snd kv))) (model_responses e)));
      ("final_response", Json.JStr (final_response e)) ]%string.


Definition well_formed_entry (e : ChatLogEntry) : Prop :=
  distinct (keys (model_responses e)) = true.


Definition state_corrupt_log : F.State :=
  F.mkState None None None [] None (Some "[{]"%string) [].

(** The state after a first Gemini call that seeded the session. *)
Definition state_two_exchanges_seeded : F.State :=
  snd (F.get_gemini_response world_demo "c" state_two_exchanges).

(** A run of the single-select program from its start, with Gemini and
    OpenAI in place: OpenAI is chosen, the messages a and b are sent,
    and the model is changed to Gemini. *)
Definition inputs_seeding : list MC.Input :=
  [MC.mkInput "a" []; MC.mkInput "b" []; MC.mkInput "--change" [Some 1]].

Definition state_before_seeding : MC.State :=
  MC.main world_flaky [Some 2] inputs_seeding mc_state_demo.

(** The command a typed line stands for: stripped and lowered. *)
Definition command_of (text : string) : string := lower (strip text).




(** [choice in MODELS]. *)
Definition is_model_key (choice : nat) : bool :=
  existsb (fun kv => Nat.eqb (fst kv) choice) MC.MODELS.

(** An answer to the model menu that [get_model_choice] asks again
    after: not a number, or a number that is neither 0 nor a key of
    [MODELS]. *)
Definition refused (answer : option nat) : bool :=
  match answer with
  | None => true
  | Some choice => negb (Nat.eqb choice 0) && negb (is_model_key choice)
  end.

(** The messages of the steps in which Gemini was the selected model. *)
Definition gemini_messages (steps : list (nat * string)) : list string :=
  map snd (filter (fun step => Nat.eqb (fst step) 1) steps).

(** A no-break space, U+00A0, and an ideographic space, U+3000. *)
Definition nbsp : string :=
  String (ascii_of_nat 194) (String (ascii_of_nat 160) "").

Definition wide_space : string :=
  String (ascii_of_nat 227) (String (ascii_of_nat 128)
    (String (ascii_of_nat 128) "")).

(** A Gemini backend whose responses arrive without a text:
    [send_message] returns, and reading [.text] raises. *)
Definition world_blocked : World :=
  mkWorld (fun _ _ => Raise "no valid part") (fun _ => Return "ok")
          (fun _ _ => true) 900 900 (fun _ => ""%string).

(** Every text of the value, the keys of its dicts included, is the
    UTF-8 encoding of a text: none holds a lone surrogate, so a file
    opened with [encoding='utf-8'] can be written from it. *)
Fixpoint encodable (v : Json.json) : bool :=
  match v with
  | Json.JStr s => Json.utf8_valid s
  | Json.JArr items => forallb encodable items
  | Json.JObj members =>
    forallb (fun kv => Json.utf8_valid (fst kv) && encodable (snd kv)) members
  | _ => true
  end.

Definition encodable_entry (e : ChatLogEntry) : Prop :=
  Json.utf8_valid (timestamp e) = true
  /\ Json.utf8_valid (user_message e) = true
  /\ forallb (fun kv => Json.utf8_valid (fst kv) && Json.utf8_valid (snd kv))
       (model_responses e) = true
  /\ Json.utf8_valid (final_response e) = true.




(** The text of a reply or of a failure is the UTF-8 encoding of a
    text. *)
Definition valid_outcome (r : result string) : bool :=
  match r with
  | Return text => Json.utf8_valid text
  | Raise e => Json.utf8_valid e
  end.

(** The backends only ever give texts without lone surrogates. *)
Definition encodable_world (w : World) : Prop :=
  (forall sess text, valid_outcome (gemini_send w sess text) = true)
  /\ (forall req, valid_outcome (create w req) = true).

(** A dict that nests a list and a dict, with a quote and a newline in
    one of its strings and the empty string as a key. *)
Definition value_demo : Json.json :=
  Json.JObj
    [ ("k"%string,
       Json.JArr [Json.JNull; Json.JBool true;
                  Json.JStr (String "034"%char (String "010"%char "x"%string))]);
      (""%string, Json.JObj []) ].

(** Induction on values, through the lists and dicts they nest. *)
Section JsonInduction.

Variable P : Json.json -> Prop.
Hypothesis Hnull : P Json.JNull.
Hypothesis Hbool : forall b, P (Json.JBool b).
Hypothesis Hnum : forall lexeme, P (Json.JNum lexeme).
Hypothesis Hstr : forall s, P (Json.JStr s).
Hypothesis Harr : forall items, Forall P items -> P (Json.JArr items).
Hypothesis Hobj :
  forall members, Forall (fun kv => P (snd kv)) members -> P (Json.JObj members).

Fixpoint json_nested_ind (v : Json.json) : P v :=
  match v with
  | Json.JNull => Hnull
  | Json.JBool b => Hbool b
  | Json.JNum lexeme => Hnum lexeme
  | Json.JStr s => Hstr s
  | Json.JArr items =>
    Harr items
      ((fix go (l : list Json.json) : Forall P l :=
          match l with
          | [] => Forall_nil P
          | x :: xs => Forall_cons x (json_nested_ind x) (go xs)
          end) items)
  | Json.JObj members =>
    Hobj members
      ((fix go (l : list (string * Json.json))
          : Forall (fun kv => P (snd kv)) l :=
          match l with
          | [] => Forall_nil _
          | kv :: ms => Forall_cons kv (json_nested_ind (snd kv)) (go ms)
          end) members)
  end.

End JsonInduction.

(** ** Lemmas and theorems *)

(** ** The event loop: [gather] is a barrier and keeps the task order *)

Section EventLoop.

Context {A : Type} (w : World).

Lemma settle_idem (c : Coro A) : settle w (settle w c) = settle w c.
Proof. reflexivity. Qed.

Lemma deliver_nth (i j : nat) (tasks : list (Coro A)) :
  nth_error (deliver w i tasks) j =
  if Nat.eqb j i then option_map (settle w) (nth_error tasks j)
  else nth_error tasks j.
Proof.
  unfold deliver.
  destruct (nth_error tasks i) as [c|] eqn:Hi.
  - destruct (nth_error_split _ _ Hi) as (l1 & l2 & -> & Hlen).
    rewrite firstn_app, Hlen, Nat.sub_diag, firstn_O, app_nil_r.
    rewrite <- Hlen at 1. rewrite firstn_all.
    replace (S i) with (length l1 + 1) by lia.
    rewrite skipn_app, skipn_all2 by lia.
    replace (length l1 + 1 - length l1) with 1 by lia.
    cbn [skipn app].
    rewrite !nth_error_app.
    destruct (Nat.eqb_spec j i) as [->|Hne].
    + rewrite Hlen, Nat.ltb_irrefl, Nat.sub_diag. reflexivity.
    + destruct (Nat.ltb_spec j (length l1)); [reflexivity|].
      destruct (j - length l1) eqn:E; [lia|reflexivity].
  - destruct (Nat.eqb_spec j i) as [->|Hne]; [|reflexivity].
    rewrite Hi. reflexivity.
Qed.

Lemma run_loop_nth (order : list nat) (tasks : list (Coro A)) (j : nat) :
  nth_error (run_loop w order tasks) j =
  if existsb (Nat.eqb j) order then option_map (settle w) (nth_error tasks j)
  else nth_error tasks j.
Proof.
  revert tasks; induction order as [|i later IH]; intros tasks; cbn.
  - reflexivity.
  - rewrite IH, deliver_nth.
    destruct (Nat.eqb j i), (existsb (Nat.eqb j) later); cbn;
      try reflexivity.
    destruct (nth_error tasks j); reflexivity.
Qed.

Lemma run_loop_all (order : list nat) (tasks : list (Coro A)) :
  (forall j, j < length tasks -> existsb (Nat.eqb j) order = true) ->
  run_loop w order tasks = map (settle w) tasks.
Proof.
  intros Hall. apply nth_error_ext. intros j.
  rewrite run_loop_nth, nth_error_map.
  destruct (Nat.ltb_spec j (length tasks)) as [Hlt|Hge].
  - rewrite (Hall j Hlt). reflexivity.
  - apply nth_error_None in Hge. rewrite Hge.
    destruct (existsb _ _); reflexivity.
Qed.

Lemma outcomes_settled (tasks : list (Coro A)) :
  outcomes (map (settle w) tasks) = Some (map (resume w) tasks).
Proof.
  induction tasks as [|c rest IH]; cbn; [reflexivity|].
  cbn in IH. rewrite IH. reflexivity.
Qed.

Lemma mem_seq (j n : nat) (order : list nat) :
  j < n -> existsb (Nat.eqb j) (order ++ seq 0 n) = true.
Proof.
  intros Hlt. rewrite existsb_app. apply orb_true_iff. right.
  apply existsb_exists. exists j. split.
  - apply in_seq. lia.
  - apply Nat.eqb_refl.
Qed.

(** Whatever the arrival order, [gather] returns the tasks' own results
    in the order of the task list. *)
Lemma gather_eq (order : list nat) (tasks : list (Coro A)) :
  gather w order tasks = collect (map (resume w) tasks).
Proof.
  unfold gather, gather_future.
  rewrite run_loop_all by (intros j Hj; apply mem_seq, Hj).
  rewrite outcomes_settled. reflexivity.
Qed.



End EventLoop.

(** ** [frankenthought-chat.py] *)

(** Reading the text of the response of a send gives what the backend
    gave. *)
Lemma send_text (w : World) (sess : ChatSession) (text : string) :
  match send w sess text with
  | Return response => response_text response
  | Raise e => Raise e
  end = gemini_send w sess text.
Proof.
  unfold send. destruct (gemini_send w sess text) as [reply|e]; [reflexivity|].
  destruct (text_raises w sess text); reflexivity.
Qed.

Lemma send_returns (w : World) (sess : ChatSession) (text reply : string) :
  gemini_send w sess text = Return reply ->
  send w sess text = Return (mkResponse (Return reply)).
Proof. intros H. unfold send. rewrite H. reflexivity. Qed.

Lemma attempt_all_ok (w : World) (texts : list string) (sess : ChatSession) :
  (forall pre t post, texts = pre ++ t :: post ->
     exists reply, gemini_send w (sess ++ pre) t = Return reply) ->
  attempt w sess texts = (Return tt, texts).
Proof.
  revert sess; induction texts as [|t rest IH]; intros sess Hok; cbn.
  - reflexivity.
  - destruct (Hok [] t rest eq_refl) as [reply Hr].
    rewrite app_nil_r in Hr. rewrite (send_returns w sess t reply Hr).
    rewrite IH; [reflexivity|].
    intros pre t' post ->.
    destruct (Hok (t :: pre) t' post eq_refl) as [reply' Hr'].
    exists reply'. rewrite <- app_assoc. exact Hr'.
Qed.

Lemma replay_loop (w : World) (history : list Turn) :
  forall (st : F.State) (sess : ChatSession),
    F.chat st = Some sess ->
    for_each history
      (fun msg =>
         if String.eqb (role msg) "user"
         then F.send_message w (content msg) ;;; ret tt
         else ret tt) st
    = (fst (attempt w sess (user_texts history)),
       after_sending sess (snd (attempt w sess (user_texts history))) st).
Proof.
  induction history as [|msg rest IH]; intros st sess Hchat.
  - unfold ret, after_sending. destruct st; cbn in *. subst.
    rewrite !app_nil_r. reflexivity.
  - cbn [for_each]. unfold user_texts. cbn [filter].
    destruct (String.eqb (role msg) "user") eqn:Hrole.
    + cbn [map attempt]. unfold bind at 1. unfold bind at 1.
      unfold F.send_message at 1. rewrite Hchat.
      destruct (send w sess (content msg)) as [reply|e] eqn:Hsend.
      * unfold ret at 1.
        rewrite (IH _ (sess ++ [content msg])) by reflexivity.
        fold (user_texts rest).
        destruct (attempt w (sess ++ [content msg]) (user_texts rest))
          as [r sent].
        cbn. unfold after_sending. cbn.
        rewrite <- !app_assoc. reflexivity.
      * cbn. unfold after_sending. cbn. reflexivity.
    + unfold bind at 1. unfold ret at 1.
      rewrite (IH st sess Hchat). reflexivity.
Qed.

Lemma gemini_unavailable (w : World) (message : string) (st : F.State) :
  F.gemini_model st = None ->
  F.get_gemini_response w message st
  = (Finished (Return "Gemini model not available"), st).
Proof.
  intros Hm. unfold F.get_gemini_response, no_await, try_except, bind, gets.
  rewrite Hm. reflexivity.
Qed.

Lemma gemini_session_exists (w : World) (message : string) (st : F.State)
  (g : GenerativeModel) (sess : ChatSession) :
  F.gemini_model st = Some g ->
  F.chat st = Some sess ->
  F.get_gemini_response w message st
  = (Finished (Return (gemini_text (gemini_send w sess message))),
     after_sending sess [message] st).
Proof.
  intros Hm Hc.
  unfold F.get_gemini_response, no_await, try_except, bind, gets, ret,
    F.send_message, lift.
  rewrite Hm, Hc. cbn. rewrite Hc.
  unfold after_sending, F.set_chat, F.log_event. cbn.
  rewrite <- (send_text w sess message).
  destruct (send w sess message) as [[[reply|e]]|e]; reflexivity.
Qed.

Lemma gemini_session_fresh (w : World) (message : string) (st : F.State)
  (g : GenerativeModel) :
  F.gemini_model st = Some g ->
  F.chat st = None ->
  F.get_gemini_response w message st
  = match attempt w [] (user_texts (F.chat_history st)) with
    | (Return _, sent) =>
      (Finished (Return (gemini_text (gemini_send w sent message))),
       after_sending [] (sent ++ [message]) (chat_started st))
    | (Raise e, sent) =>
      (Finished (Return ("Gemini Error: " ++ e)%string),
       after_sending [] sent (chat_started st))
    end.
Proof.
  intros Hm Hc.
  unfold F.get_gemini_response, no_await, try_except.
  unfold bind at 1. unfold gets at 1. rewrite Hm.
  unfold bind at 1. unfold bind at 1. unfold gets at 1. rewrite Hc.
  unfold bind at 1. unfold F.start_chat, modify.
  unfold bind at 1. unfold gets at 1.
  change (F.chat_history (F.set_chat (Some []) (F.log_event EvStartChat st)))
    with (F.chat_history st).
  fold (chat_started st).
  rewrite (replay_loop w (F.chat_history st) (chat_started st) [] eq_refl).
  destruct (attempt w [] (user_texts (F.chat_history st))) as [[u|e] sent];
    cbn [fst snd].
  - unfold bind, lift, F.send_message. cbn [after_sending F.chat app].
    unfold after_sending, F.set_chat, F.log_event. cbn.
    rewrite <- !app_assoc, map_app. cbn.
    rewrite <- (send_text w sent message).
    destruct (send w sent message) as [[[reply|e]]|e]; reflexivity.
  - reflexivity.
Qed.

Lemma openai_response_spec (w : World) (client : option AsyncOpenAI)
  (model message : string) (st : F.State) :
  resume w (fst (F.get_openai_response client model message st))
  = Return (openai_reply w client model message (F.chat_history st))
  /\ snd (F.get_openai_response client model message st)
     = add_events (openai_request client model message (F.chat_history st)) st.
Proof.
  unfold F.get_openai_response, openai_reply, openai_request, add_events.
  destruct client as [c|]; cbn.
  - split; [|reflexivity].
    fold (openai_messages (F.chat_history st) message).
    destruct (create w _); reflexivity.
  - rewrite app_nil_r. destruct st; split; reflexivity.
Qed.

Lemma gemini_finishes (w : World) (message : string) (st : F.State) :
  exists r, fst (F.get_gemini_response w message st) = Finished (Return r)
            /\ same_globals st (snd (F.get_gemini_response w message st)).
Proof.
  destruct (F.gemini_model st) as [g|] eqn:Hm.
  - destruct (F.chat st) as [sess|] eqn:Hc.
    + rewrite (gemini_session_exists w message st g sess Hm Hc).
      eexists; split; [reflexivity|]. repeat split.
    + rewrite (gemini_session_fresh w message st g Hm Hc).
      destruct (attempt w [] (user_texts (F.chat_history st))) as [[u|e] sent];
        eexists; (split; [reflexivity|]); repeat split.
  - rewrite (gemini_unavailable w message st Hm).
    eexists; split; [reflexivity|]. repeat split.
Qed.

Lemma add_events_globals (evs : list Event) (st : F.State) :
  same_globals st (add_events evs st).
Proof. repeat split. Qed.

Lemma same_globals_trans (a b c : F.State) :
  same_globals a b -> same_globals b c -> same_globals a c.
Proof.
  unfold same_globals. intros (?&?&?&?&?) (?&?&?&?&?).
  repeat split; congruence.
Qed.

Lemma add_events_add_events (e1 e2 : list Event) (st : F.State) :
  add_events e2 (add_events e1 st) = add_events (e1 ++ e2) st.
Proof. unfold add_events; cbn. rewrite app_assoc. reflexivity. Qed.

Lemma start_tasks_spec (w : World) (message : string) (st : F.State) :
  exists r0 st1,
    F.get_gemini_response w message st = (Finished (Return r0), st1)
    /\ same_globals st st1
    /\ F.start_tasks w message st
       = (Return
            [Finished (Return r0);
             fst (F.get_openai_response (F.openrouter_client st)
                    "deepseek/deepseek-r1" message st);
             fst (F.get_openai_response (F.openrouter_client st)
                    "qwen/qwq-32b-preview" message st);
             fst (F.get_openai_response (F.openai_client st) "o1" message st)],
          after_requests message st1).
Proof.
  destruct (gemini_finishes w message st) as (r0 & Hr & Hg).
  destruct (F.get_gemini_response w message st) as [t0 st1] eqn:Hgem.
  cbn [fst snd] in Hr, Hg. subst t0.
  exists r0, st1. split; [reflexivity|]. split; [exact Hg|].
  destruct Hg as (Hgm & Hoa & Hor & Hh & Hl).
  unfold F.start_tasks, bind, gets, lift, start, ret.
  cbn [getitem dict_get F.MODELS String.eqb Ascii.eqb Bool.eqb].
  rewrite Hgem. unfold after_requests.
  destruct st1 as [gm oa orr h ch lf tr]; cbn in Hgm, Hoa, Hor, Hh, Hl; subst.
  unfold F.get_openai_response, add_events, F.log_event, openai_request,
    openai_messages.
  destruct (F.openrouter_client st) as [c1|], (F.openai_client st) as [c2|];
    cbn; rewrite ?app_nil_r, <- ?app_assoc; reflexivity.
Qed.

Lemma dispatch_spec (w : World) (order : list nat) (message : string)
  (st : F.State) :
  exists r0 st1,
    F.get_gemini_response w message st = (Finished (Return r0), st1)
    /\ same_globals st st1
    /\ F.dispatch w order message st
       = (Return (responses_of w message st r0), after_requests message st1).
Proof.
  destruct (start_tasks_spec w message st) as (r0 & st1 & Hgem & Hg & Hstart).
  exists r0, st1. split; [exact Hgem|]. split; [exact Hg|].
  unfold F.dispatch. unfold bind at 1. rewrite Hstart.
  unfold bind at 1. unfold lift at 1. rewrite gather_eq.
  cbn [map resume].
  rewrite !(proj1 (openai_response_spec w _ _ message st)).
  reflexivity.
Qed.

(** What [get_gemini_response] returns: its marker without the model,
    and otherwise the text it makes of what the backend gave. *)
Lemma gemini_reply_text (w : World) (message : string) (st : F.State) :
  fst (F.get_gemini_response w message st)
  = Finished
      (Return (match F.gemini_model st with
               | None => "Gemini model not available"%string
               | Some _ => gemini_text (gemini_outcome w message st)
               end)).
Proof.
  destruct (F.gemini_model st) as [g|] eqn:Hm.
  - unfold gemini_outcome. destruct (F.chat st) as [sess|] eqn:Hc.
    + rewrite (gemini_session_exists w message st g sess Hm Hc). reflexivity.
    + rewrite (gemini_session_fresh w message st g Hm Hc).
      destruct (attempt w [] (user_texts (F.chat_history st))) as [[u|e] sent];
        reflexivity.
  - rewrite (gemini_unavailable w message st Hm). reflexivity.
Qed.



Example dispatch_demo :
  fst (F.dispatch world_demo [3; 1] "hi" state_demo)
  = Return [ ("gemini", "gemini says hi");
             ("deepseek", "deepseek/deepseek-r1 client not available");
             ("qwen", "qwen/qwq-32b-preview client not available");
             ("o1", "reply of o1") ]%string.
Proof. reflexivity. Qed.

(** *** The synthesis and the rest of [process_message] *)

Lemma synthesize_spec (message g d q o : string) (st : F.State) :
  F.synthesize_responses message
    [("gemini", g); ("deepseek", d); ("qwen", q); ("o1", o)] st
  = (match F.openai_client st with
     | None => Finished (Return "Cannot synthesize: OpenAI O1 not available"%string)
     | Some c =>
       Awaiting (synthesis_request c message g d q o)
         (fun response =>
            match response with
            | Return text => Return text
            | Raise e => Return ("Synthesis Error: " ++ e)%string
            end)
     end,
     add_events (synthesis_events (F.openai_client st) message g d q o) st).
Proof.
  unfold F.synthesize_responses, synthesis_events.
  destruct (F.openai_client st) as [c|].
  - reflexivity.
  - unfold add_events. rewrite app_nil_r. destruct st; reflexivity.
Qed.

Lemma load_chat_log_spec (w : World) (st : F.State) :
  F.load_chat_log w st = (Return (read_log w (F.log_file st)), st).
Proof.
  unfold F.load_chat_log, try_except, bind, gets, lift, ret, read_log.
  destruct (F.log_file st) as [bytes|]; [|reflexivity].
  destruct (Json.load (load_depth w) bytes); reflexivity.
Qed.

Lemma save_chat_log_spec (w : World) (v : Json.json) (st : F.State) :
  F.save_chat_log w v st
  = (Return tt, F.set_log_file (Some (saved_log w v)) st).
Proof.
  unfold F.save_chat_log, F.json_dump, try_except, saved_log, ret.
  destruct (Json.dump (dump_depth w) v); reflexivity.
Qed.


(** The whole of [process_message], from the reply [r0] and the state
    [st1] its Gemini call gives. *)
Lemma process_message_spec (w : World) (order : list nat)
  (now message : string) (st : F.State) :
  exists r0 st1,
    F.get_gemini_response w message st = (Finished (Return r0), st1)
    /\ same_globals st st1
    /\ let responses := responses_of w message st r0 in
       let r1 := openai_reply w (F.openrouter_client st) "deepseek/deepseek-r1"
                   message (F.chat_history st) in
       let r2 := openai_reply w (F.openrouter_client st) "qwen/qwq-32b-preview"
                   message (F.chat_history st) in
       let r3 := openai_reply w (F.openai_client st) "o1" message
                   (F.chat_history st) in
       let final := synthesis_reply w (F.openai_client st) message r0 r1 r2 r3 in
       let st4 := before_log w message st st1 r0 in
       F.process_message w order now message st
       = match read_log w (F.log_file st) with
         | Json.JArr items =>
           (Return final,
            F.set_log_file
              (Some (saved_log w
                 (Json.JArr (items ++ [F.log_entry now message responses final]))))
              st4)
         | v =>
           (Raise ("'" ++ F.type_name v ++ "' object has no attribute 'append'")%string,
            st4)
         end.
Proof.
  destruct (dispatch_spec w order message st) as (r0 & st1 & Hgem & Hg & Hd).
  exists r0, st1. split; [exact Hgem|]. split; [exact Hg|].
  cbv zeta.
  unfold F.process_message. unfold bind at 1. rewrite Hd.
  unfold bind at 1. unfold await at 1. unfold responses_of at 1.
  rewrite synthesize_spec.
  destruct Hg as (Hgm & Hoa & Hor & Hh & Hl).
  assert (F.openai_client (after_requests message st1) = F.openai_client st)
    as Hoa' by exact Hoa.
  rewrite Hoa'.
  set (r1 := openai_reply w (F.openrouter_client st) "deepseek/deepseek-r1"
               message (F.chat_history st)).
  set (r2 := openai_reply w (F.openrouter_client st) "qwen/qwq-32b-preview"
               message (F.chat_history st)).
  set (r3 := openai_reply w (F.openai_client st) "o1" message (F.chat_history st)).
  assert (resume w
            match F.openai_client st with
            | Some c =>
              Awaiting (synthesis_request c message r0 r1 r2 r3)
                (fun response =>
                   match response with
                   | Return text => Return text
                   | Raise e => Return ("Synthesis Error: " ++ e)%string
                   end)
            | None => Finished (Return "Cannot synthesize: OpenAI O1 not available"%string)
            end
          = Return (synthesis_reply w (F.openai_client st) message r0 r1 r2 r3))
    as Hres.
  { unfold synthesis_reply. destruct (F.openai_client st); cbn; [|reflexivity].
    destruct (create w _); reflexivity. }
  rewrite Hres.
  unfold bind at 1. unfold modify at 1.
  unfold bind at 1. unfold modify at 1.
  unfold bind at 1. rewrite load_chat_log_spec.
  cbn [F.log_file F.set_chat_history add_events after_requests].
  rewrite Hl.
  unfold before_log. fold r1 r2 r3.
  cbn [F.chat_history F.set_chat_history add_events after_requests].
  rewrite Hh. rewrite <- app_assoc. cbn [app].
  fold (responses_of w message st r0).
  destruct (read_log w (F.log_file st));
    try reflexivity.
  unfold bind, lift. cbn [F.append]. rewrite save_chat_log_spec. reflexivity.
Qed.

(** C2.  A backend whose client or model object is [None] answers with
    its fixed marker text at once: the call is finished without
    suspending and leaves the whole state, the network trace included, as
    it was.  So [dispatch] over any mix of available and unavailable
    backends returns (it never raises) the four entries, where the entry
    of an unavailable backend is its marker and the entry of an available
    backend whose call succeeds is the reply the backend gave. *)
Theorem unavailable_backend_yields_marker
  (w : World) (order : list nat) (message : string) (st : F.State) :
  (F.gemini_model st = None ->
   F.get_gemini_response w message st
   = (Finished (Return "Gemini model not available"%string), st))
  /\ (forall model : string,
        F.get_openai_response None model message st
        = (Finished (Return (model ++ " client not available")%string), st))
  /\ exists (responses : dict string) (st' : F.State),
       F.dispatch w order message st = (Return responses, st')
       /\ keys responses = ["gemini"; "deepseek"; "qwen"; "o1"]%string
       /\ (F.gemini_model st = None ->
           getitem responses "gemini" = Return "Gemini model not available"%string)
       /\ (F.openrouter_client st = None ->
           getitem responses "deepseek"
           = Return "deepseek/deepseek-r1 client not available"%string
           /\ getitem responses "qwen"
              = Return "qwen/qwq-32b-preview client not available"%string)
       /\ (F.openai_client st = None ->
           getitem responses "o1" = Return "o1 client not available"%string)
       /\ (forall g sess reply,
             F.gemini_model st = Some g -> F.chat st = Some sess ->
             gemini_send w sess message = Return reply ->
             getitem responses "gemini" = Return reply)
       /\ (forall g sent reply,
             F.gemini_model st = Some g -> F.chat st = None ->
             attempt w [] (user_texts (F.chat_history st)) = (Return tt, sent) ->
             gemini_send w sent message = Return reply ->
             getitem responses "gemini" = Return reply)
       /\ (forall c reply,
             F.openrouter_client st = Some c ->
             create w (mkRequest c "deepseek/deepseek-r1"
                         (openai_messages (F.chat_history st) message))
             = Return reply ->
             getitem responses "deepseek" = Return reply)
       /\ (forall c reply,
             F.openrouter_client st = Some c ->
             create w (mkRequest c "qwen/qwq-32b-preview"
                         (openai_messages (F.chat_history st) message))
             = Return reply ->
             getitem responses "qwen" = Return reply)
       /\ (forall c reply,
             F.openai_client st = Some c ->
             create w (mkRequest c "o1"
                         (openai_messages (F.chat_history st) message))
             = Return reply ->
             getitem responses "o1" = Return reply).
Proof.
  split; [apply gemini_unavailable|].
  split; [reflexivity|].
  destruct (dispatch_spec w order message st) as (r0 & st1 & Hgem & _ & Hd).
  exists (responses_of w message st r0), (after_requests message st1).
  split; [exact Hd|]. split; [reflexivity|].
  unfold responses_of, getitem. cbn [dict_get String.eqb Ascii.eqb Bool.eqb].
  repeat split.
  - intros Hm. rewrite (gemini_unavailable w message st Hm) in Hgem.
    injection Hgem as <- _. reflexivity.
  - rewrite H. reflexivity.
  - rewrite H. reflexivity.
  - intros Ho. rewrite Ho. reflexivity.
  - intros g sess reply Hm Hc Hs.
    rewrite (gemini_session_exists w message st g sess Hm Hc), Hs in Hgem.
    injection Hgem as <- _. reflexivity.
  - intros g sent reply Hm Hc Ha Hs.
    rewrite (gemini_session_fresh w message st g Hm Hc), Ha, Hs in Hgem.
    injection Hgem as <- _. reflexivity.
  - intros c reply Hc Hr. rewrite Hc. unfold openai_reply. rewrite Hr. reflexivity.
  - intros c reply Hc Hr. rewrite Hc. unfold openai_reply. rewrite Hr. reflexivity.
  - intros c reply Hc Hr. rewrite Hc. unfold openai_reply. rewrite Hr. reflexivity.
Qed.

(** C2 on the scenario of the specification: the OpenAI backend answers 4
    and the others are unavailable. *)
Lemma unavailable_backend_yields_marker_witness :
  exists (responses : dict string) (st' : F.State),
    F.dispatch world_four [] "What is 2+2?" state_only_openai
    = (Return responses, st')
    /\ getitem responses "gemini" = Return "Gemini model not available"%string
    /\ getitem responses "deepseek"
       = Return "deepseek/deepseek-r1 client not available"%string
    /\ getitem responses "o1" = Return "4"%string.
Proof.
  destruct (unavailable_backend_yields_marker world_four [] "What is 2+2?"
              state_only_openai)
    as (_ & _ & responses & st' & Hd & _ & Hg & Hor & _ & _ & _ & _ & _ & Ho).
  exists responses, st'.
  split; [exact Hd|].
  split; [apply Hg; reflexivity|].
  split; [apply Hor; reflexivity|].
  apply (Ho OpenAIEndpoint); reflexivity.
Defined.

Lemma string_app_assoc (a b c : string) :
  ((a ++ b) ++ c = a ++ (b ++ c))%string.
Proof. induction a as [|x a IH]; cbn; [reflexivity|]. rewrite IH. reflexivity. Qed.











(** ** [multi-chat.py] *)

Lemma mc_replay_loop (w : World) (history : list Turn) :
  forall (st : MC.State) (sess : ChatSession),
    MC.gemini_chat st = Some sess ->
    for_each history
      (fun msg =>
         if String.eqb (role msg) "user"
         then MC.send_message w (content msg) ;;; ret tt
         else ret tt) st
    = (fst (attempt w sess (user_texts history)),
       mc_after_sending sess (snd (attempt w sess (user_texts history))) st).
Proof.
  induction history as [|msg rest IH]; intros st sess Hchat.
  - unfold ret, mc_after_sending. destruct st; cbn in *. subst.
    rewrite !app_nil_r. reflexivity.
  - cbn [for_each]. unfold user_texts. cbn [filter].
    destruct (String.eqb (role msg) "user") eqn:Hrole.
    + cbn [map attempt]. unfold bind at 1. unfold bind at 1.
      unfold MC.send_message at 1. rewrite Hchat.
      destruct (send w sess (content msg)) as [reply|e] eqn:Hsend.
      * unfold ret at 1.
        rewrite (IH _ (sess ++ [content msg])) by reflexivity.
        fold (user_texts rest).
        destruct (attempt w (sess ++ [content msg]) (user_texts rest))
          as [r sent].
        cbn. unfold mc_after_sending. cbn.
        rewrite <- !app_assoc. reflexivity.
      * cbn. unfold mc_after_sending. cbn. reflexivity.
    + unfold bind at 1. unfold ret at 1.
      rewrite (IH st sess Hchat). reflexivity.
Qed.

Lemma mc_append_exchange_spec (message response : string) (st : MC.State) :
  MC.append_exchange message response st
  = (Return tt, mc_append message response st).
Proof.
  unfold MC.append_exchange, bind, modify, mc_append. cbn.
  rewrite <- app_assoc. reflexivity.
Qed.

Lemma mc_gemini_branch (w : World) (message : string) (st : MC.State)
  (g : GenerativeModel) :
  MC.gemini_model st = Some g ->
  MC.chat_with_model w 1 message st
  = match mc_gemini_outcome w message st with
    | Return reply =>
      (Return reply, mc_append message reply (mc_gemini_state w message st))
    | Raise e =>
      (Return ("Error: " ++ e)%string,
       if mc_text_raised w message st
       then MC.set_chat_history (MC.chat_history st ++ [user_turn message])
              (mc_gemini_state w message st)
       else mc_gemini_state w message st)
    end.
Proof.
  intros Hm.
  unfold MC.chat_with_model, try_except.
  unfold bind at 1. cbn [MC.MODELS_getitem MC.MODELS find fst snd Nat.eqb lift].
  unfold bind at 1. unfold gets at 1. rewrite Hm.
  unfold bind at 1. unfold gets at 1.
  unfold bind at 1. unfold gets at 1.
  unfold mc_text_raised, mc_gemini_outcome, mc_gemini_state, mc_gemini_sent.
  unfold bind at 1. unfold bind at 1. unfold gets at 1.
  destruct (MC.gemini_chat st) as [sess|] eqn:Hc.
  - unfold ret at 1. unfold bind at 1. unfold MC.send_message. rewrite Hc.
    unfold send.
    destruct (gemini_send w sess message) as [reply|e].
    + unfold bind, modify, lift, ret, mc_append, mc_after_sending. cbn.
      rewrite <- app_assoc. reflexivity.
    + destruct (text_raises w sess message); [|reflexivity].
      unfold bind, modify, lift, ret, mc_after_sending. cbn. reflexivity.
  - unfold bind at 1. unfold MC.start_chat, modify at 1. unfold MC.replay_history.
    unfold bind at 1. unfold gets at 1.
    change (MC.chat_history (MC.set_gemini_chat (Some []) (MC.log_event EvStartChat st)))
      with (MC.chat_history st).
    fold (mc_chat_started st).
    rewrite (mc_replay_loop w (MC.chat_history st) (mc_chat_started st) []
               eq_refl).
    destruct (attempt w [] (user_texts (MC.chat_history st))) as [[u|e] sent];
      cbn [fst snd].
    + unfold bind at 1. unfold MC.send_message.
      cbn [MC.gemini_chat mc_after_sending app].
      unfold send.
      destruct (gemini_send w sent message) as [reply|e].
      * unfold bind, modify, lift, ret, mc_append, mc_after_sending,
          MC.set_gemini_chat, MC.log_event, MC.set_chat_history. cbn.
        rewrite <- !app_assoc, map_app. reflexivity.
      * destruct (text_raises w sent message);
          unfold bind, modify, lift, ret, mc_after_sending, MC.set_gemini_chat,
            MC.log_event, MC.set_chat_history; cbn;
          rewrite <- !app_assoc, map_app; reflexivity.
    + reflexivity.
Qed.

Lemma mc_openai_branch (w : World) (model_choice : nat) (message : string)
  (st : MC.State) (c : AsyncOpenAI) :
  mc_client model_choice st = Some c ->
  MC.chat_with_model w model_choice message st
  = (Return (mc_openai_text (create w (mc_request c model_choice message st))),
     mc_append message
       (mc_openai_text (create w (mc_request c model_choice message st)))
       (MC.log_event (EvCreate (mc_request c model_choice message st)) st)).
Proof.
  intros Hc.
  destruct model_choice as [|[|[|[|[|n]]]]]; cbn in Hc; try discriminate.
  all: unfold MC.chat_with_model, try_except, bind, gets, lift, await,
         MC.send_openai_message, mc_request, mc_model_id;
       cbn [MC.MODELS_getitem MC.MODELS find fst snd Nat.eqb orb];
       rewrite Hc;
       destruct (MC.gemini_model st), (MC.openai_client st),
         (MC.openrouter_client st); try discriminate;
       cbn [resume fst snd];
       fold (openai_messages (MC.chat_history st) message);
       destruct (create w _); cbn [mc_openai_text];
       rewrite mc_append_exchange_spec; reflexivity.
Qed.

Lemma mc_unavailable_branch (w : World) (model_choice : nat) (message : string)
  (st : MC.State) :
  1 <= model_choice <= 4 ->
  mc_selected_available model_choice st = false ->
  MC.chat_with_model w model_choice message st
  = (Return "Selected model is not available."%string, st).
Proof.
  intros Hrange Hav.
  destruct model_choice as [|[|[|[|[|n]]]]]; try lia; cbn in Hav.
  all: unfold MC.chat_with_model, try_except, bind, gets, lift, ret;
       cbn [MC.MODELS_getitem MC.MODELS find fst snd Nat.eqb orb];
       destruct (MC.gemini_model st), (MC.openai_client st),
         (MC.openrouter_client st); try discriminate; reflexivity.
Qed.

Lemma mc_unknown_choice (w : World) (model_choice : nat) (message : string)
  (st : MC.State) :
  model_choice = 0 \/ 4 < model_choice ->
  MC.chat_with_model w model_choice message st
  = (Return ("Error: " ++ str_of_nat model_choice)%string, st).
Proof.
  intros Hout.
  assert (MC.MODELS_getitem model_choice = Raise (str_of_nat model_choice)) as E.
  { destruct model_choice as [|[|[|[|[|n]]]]]; try lia; reflexivity. }
  unfold MC.chat_with_model, try_except, bind, lift. rewrite E. reflexivity.
Qed.

(** *** The exchange and the history *)




(** *** Clearing *)

Lemma clear_spec (st : F.State) : F.clear st = (Return tt, cleared st).
Proof.
  unfold F.clear, bind, modify, gets, ret, cleared.
  destruct st as [gm oa orr h [sess|] lf tr]; reflexivity.
Qed.

Lemma mc_clear_spec (st : MC.State) : MC.clear st = (Return tt, mc_cleared st).
Proof.
  unfold MC.clear, bind, modify, gets, ret, mc_cleared.
  destruct st as [gm oa orr h [sess|] tr]; reflexivity.
Qed.

(** C5.  From any state, in both programs, [--clear] empties the shared
    history and removes the Gemini session (the only stateful one), and
    leaves the model and client objects, hence each backend's
    availability, as they were.  A send to Gemini right after it starts a
    new session and hands it the new message only: the transcript of the
    session is that single message and the network sees the session
    start and one send, so no earlier user turn is replayed.  (In the
    single-select program the history after that send holds the two new
    turns, or nothing when [send_message] raised, or the user turn alone
    when the response arrived and reading its text raised.) *)
Theorem clear_resets_history_and_sessions
  (w : World) (message : string) (st : F.State) (mst : MC.State) :
  (F.clear st = (Return tt, cleared st)
   /\ F.chat_history (cleared st) = []
   /\ F.chat (cleared st) = None
   /\ F.gemini_model (cleared st) = F.gemini_model st
   /\ F.openai_client (cleared st) = F.openai_client st
   /\ F.openrouter_client (cleared st) = F.openrouter_client st
   /\ F.get_gemini_response w message (cleared st)
      = match F.gemini_model st with
        | None => (Finished (Return "Gemini model not available"%string), cleared st)
        | Some _ =>
          (Finished (Return (gemini_text (gemini_send w [] message))),
           F.mkState (F.gemini_model st) (F.openai_client st)
             (F.openrouter_client st) [] (Some [message]) (F.log_file st)
             (F.trace st ++ [EvStartChat; EvSendMessage message]))
        end)
  /\ (MC.clear mst = (Return tt, mc_cleared mst)
      /\ MC.chat_history (mc_cleared mst) = []
      /\ MC.gemini_chat (mc_cleared mst) = None
      /\ MC.gemini_model (mc_cleared mst) = MC.gemini_model mst
      /\ MC.openai_client (mc_cleared mst) = MC.openai_client mst
      /\ MC.openrouter_client (mc_cleared mst) = MC.openrouter_client mst
      /\ MC.chat_with_model w 1 message (mc_cleared mst)
         = match MC.gemini_model mst with
           | None => (Return "Selected model is not available."%string,
                      mc_cleared mst)
           | Some _ =>
             let sent :=
               MC.mkState (MC.gemini_model mst) (MC.openai_client mst)
                 (MC.openrouter_client mst) [] (Some [message])
                 (MC.trace mst ++ [EvStartChat; EvSendMessage message]) in
             match gemini_send w [] message with
             | Return reply =>
               (Return reply,
                MC.set_chat_history [user_turn message; assistant_turn reply] sent)
             | Raise e =>
               (Return ("Error: " ++ e)%string,
                if text_raises w [] message
                then MC.set_chat_history [user_turn message] sent
                else sent)
             end
           end).
Proof.
  split.
  - split; [apply clear_spec|]. repeat (split; [reflexivity|]).
    destruct (F.gemini_model st) as [g|] eqn:Hm.
    + rewrite (gemini_session_fresh w message (cleared st) g Hm eq_refl).
      cbn. unfold after_sending, chat_started. cbn.
      rewrite <- app_assoc, Hm. reflexivity.
    + apply gemini_unavailable. exact Hm.
  - split; [apply mc_clear_spec|]. repeat (split; [reflexivity|]).
    destruct (MC.gemini_model mst) as [g|] eqn:Hm.
    + rewrite (mc_gemini_branch w message (mc_cleared mst) g Hm).
      unfold mc_text_raised, mc_gemini_outcome, mc_gemini_state, mc_gemini_sent.
      cbn.
      unfold mc_after_sending, mc_chat_started, mc_append. cbn.
      rewrite <- app_assoc, Hm.
      destruct (gemini_send w [] message); [reflexivity|].
      destruct (text_raises w [] message); reflexivity.
    + apply mc_unavailable_branch; [lia|]. cbn. rewrite Hm. reflexivity.
Qed.

(** The command loop reaches [clear] on the line [--clear], whatever its
    case and the blanks around it. *)
Example main_iteration_clear :
  F.main_iteration world_demo (F.mkInput "  --Clear " [] "") state_demo
  = (Continue, cleared state_demo).
Proof. reflexivity. Qed.

(** *** Seeding the Gemini session *)

(** When the session is new and every replayed send succeeds, the call
    starts the session, hands it the user turns of the history in order
    (their replies are dropped) and then the message. *)
Lemma seeding_replays_user_turns (w : World) (message : string) (st : F.State)
  (g : GenerativeModel) :
  F.gemini_model st = Some g ->
  F.chat st = None ->
  (forall pre t post,
      user_texts (F.chat_history st) = pre ++ t :: post ->
      exists reply, gemini_send w pre t = Return reply) ->
  F.get_gemini_response w message st
  = (Finished
       (Return (gemini_text
                  (gemini_send w (user_texts (F.chat_history st)) message))),
     F.mkState (F.gemini_model st) (F.openai_client st) (F.openrouter_client st)
       (F.chat_history st)
       (Some (user_texts (F.chat_history st) ++ [message]))
       (F.log_file st)
       (F.trace st
        ++ EvStartChat
           :: map EvSendMessage (user_texts (F.chat_history st) ++ [message]))).
Proof.
  intros Hm Hc Hok.
  rewrite (gemini_session_fresh w message st g Hm Hc).
  rewrite (attempt_all_ok w (user_texts (F.chat_history st)) []) by exact Hok.
  unfold after_sending, chat_started. cbn.
  rewrite <- app_assoc. reflexivity.
Qed.

(** While the session exists a send hands it the message and nothing
    else. *)
Lemma later_send_replays_nothing (w : World) (message : string) (st : F.State)
  (g : GenerativeModel) (sess : ChatSession) :
  F.gemini_model st = Some g ->
  F.chat st = Some sess ->
  F.get_gemini_response w message st
  = (Finished (Return (gemini_text (gemini_send w sess message))),
     F.mkState (F.gemini_model st) (F.openai_client st) (F.openrouter_client st)
       (F.chat_history st) (Some (sess ++ [message])) (F.log_file st)
       (F.trace st ++ [EvSendMessage message])).
Proof. intros Hm Hc. apply (gemini_session_exists w message st g sess Hm Hc). Qed.

(** A first send on the history with the user turns a and b. *)
Lemma seeding_replays_user_turns_witness :
  F.trace (snd (F.get_gemini_response world_demo "c" state_two_exchanges))
  = [EvStartChat; EvSendMessage "a"; EvSendMessage "b"; EvSendMessage "c"]
  /\ F.chat (snd (F.get_gemini_response world_demo "c" state_two_exchanges))
     = Some ["a"; "b"; "c"]%string.
Proof.
  rewrite (seeding_replays_user_turns world_demo "c" state_two_exchanges
             (mkGenerativeModel "gemini-2.0-flash-thinking-exp-01-21")
             eq_refl eq_refl).
  - split; reflexivity.
  - intros pre t post _. eexists. reflexivity.
Defined.

(** The send that follows it. *)
Lemma later_send_replays_nothing_witness :
  F.trace (snd (F.get_gemini_response world_demo "d" state_two_exchanges_seeded))
  = F.trace state_two_exchanges_seeded ++ [EvSendMessage "d"]
  /\ F.chat (snd (F.get_gemini_response world_demo "d" state_two_exchanges_seeded))
     = Some ["a"; "b"; "c"; "d"]%string.
Proof.
  rewrite (later_send_replays_nothing world_demo "d" state_two_exchanges_seeded
             (mkGenerativeModel "gemini-2.0-flash-thinking-exp-01-21")
             ["a"; "b"; "c"]%string eq_refl eq_refl).
  split; reflexivity.
Defined.

(** C6, the failing input, in the single-select program.  OpenAI is
    chosen and answers the messages a and b; the model is then changed
    to Gemini and c is sent.  There is no session yet: one is created
    and the replay begins, and the first replayed send, of a, fails.
    The exchange returns the error text, yet the session stays in place,
    having been handed a only.  The next message, d, finds the session,
    replays nothing, and is answered: over the whole run the session was
    handed a and d, and never b or c.  (In the all-parallel program a
    run cannot reach a state with turns in the history and no session:
    the session is created in the first exchange.) *)
Example seeding_interrupted_by_failure :
  MC.chat_history state_before_seeding
  = [user_turn "a"; assistant_turn "ok"; user_turn "b"; assistant_turn "ok"]
  /\ MC.gemini_chat state_before_seeding = None
  /\ fst (MC.chat_with_model world_flaky 1 "c" state_before_seeding)
     = Return "Error: 503 Service Unavailable"%string
  /\ MC.gemini_chat (snd (MC.chat_with_model world_flaky 1 "c" state_before_seeding))
     = Some ["a"%string]
  /\ fst (MC.chat_with_model world_flaky 1 "d"
            (snd (MC.chat_with_model world_flaky 1 "c" state_before_seeding)))
     = Return "echo d"%string
  /\ MC.main world_flaky [Some 2]
       (inputs_seeding ++ [MC.mkInput "c" []; MC.mkInput "d" []]) mc_state_demo
     = snd (MC.chat_with_model world_flaky 1 "d"
              (snd (MC.chat_with_model world_flaky 1 "c" state_before_seeding)))
  /\ MC.gemini_chat
       (MC.main world_flaky [Some 2]
          (inputs_seeding ++ [MC.mkInput "c" []; MC.mkInput "d" []])
          mc_state_demo)
     = Some ["a"; "d"]%string
  /\ filter (fun ev => match ev with EvCreate _ => false | _ => true end)
       (MC.trace
          (MC.main world_flaky [Some 2]
             (inputs_seeding ++ [MC.mkInput "c" []; MC.mkInput "d" []])
             mc_state_demo))
     = [EvStartChat; EvSendMessage "a"; EvSendMessage "d"]
  /\ MC.chat_history
       (MC.main world_flaky [Some 2]
          (inputs_seeding ++ [MC.mkInput "c" []; MC.mkInput "d" []])
          mc_state_demo)
     = [user_turn "a"; assistant_turn "ok"; user_turn "b"; assistant_turn "ok";
        user_turn "d"; assistant_turn "echo d"].
Proof. repeat split. Qed.

(** *** Sequences of exchanges *)

Lemma turns_of_length (pairs : list (string * string)) :
  length (turns_of pairs) = 2 * length pairs.
Proof.
  induction pairs as [|p rest IH]; [reflexivity|].
  change (turns_of (p :: rest))
    with (user_turn (fst p) :: assistant_turn (snd p) :: turns_of rest).
  cbn [length]. rewrite IH. cbn [length]. lia.
Qed.

Lemma turns_of_alternate (pairs : list (string * string)) :
  roles_alternate (turns_of pairs).
Proof.
  induction pairs as [|p rest IH]; intros i t Hi.
  - destruct i; discriminate.
  - destruct i as [|[|i]]; cbn in Hi.
    + injection Hi as <-. reflexivity.
    + injection Hi as <-. reflexivity.
    + rewrite (IH i t Hi). cbn [Nat.even]. reflexivity.
Qed.

Lemma turns_of_snoc (pairs : list (string * string)) (m r : string) :
  turns_of (pairs ++ [(m, r)]) = turns_of pairs ++ [user_turn m; assistant_turn r].
Proof. unfold turns_of. rewrite flat_map_app. cbn. reflexivity. Qed.

Lemma process_message_appends (w : World) (order : list nat)
  (now message : string) (st : F.State) :
  exists final,
    F.chat_history (snd (F.process_message w order now message st))
    = F.chat_history st ++ [user_turn message; assistant_turn final].
Proof.
  destruct (process_message_spec w order now message st)
    as (r0 & st1 & _ & _ & Hspec).
  cbv zeta in Hspec. rewrite Hspec.
  eexists. destruct (read_log w (F.log_file st)); reflexivity.
Qed.






(** *** Failures of backend calls *)

Lemma gemini_response_text (w : World) (message : string) (st : F.State)
  (g : GenerativeModel) :
  F.gemini_model st = Some g ->
  fst (F.get_gemini_response w message st)
  = Finished (Return (gemini_text (gemini_outcome w message st))).
Proof.
  intros Hm. unfold gemini_outcome.
  destruct (F.chat st) as [sess|] eqn:Hc.
  - rewrite (gemini_session_exists w message st g sess Hm Hc). reflexivity.
  - rewrite (gemini_session_fresh w message st g Hm Hc).
    destruct (attempt w [] (user_texts (F.chat_history st))) as [[u|e] sent];
      reflexivity.
Qed.

(** C8, counterexample.  The o1 call fails with the text boom: the call
    returns the text "o1 Error: boom", which has no colon after the model
    and so is not of the form "<model>: Error: <message>". *)
Lemma error_text_has_no_colon_after_model :
  resume world_down
    (fst (F.get_openai_response (Some OpenAIEndpoint) "o1" "hi" state_all_clients))
  = Return "o1 Error: boom"%string
  /\ resume world_down
       (fst (F.get_openai_response (Some OpenAIEndpoint) "o1" "hi"
               state_all_clients))
     <> Return ("o1" ++ ": Error: " ++ "boom")%string.
Proof. split; [reflexivity|discriminate]. Qed.

(** C8, amended.  A failure raised inside a backend call never leaves
    the call: the call returns a text.  For a failure with text [e] that
    text is "Gemini Error: e" for the Gemini call and "<model> Error: e",
    with the model identifier and no colon after it, for an OpenAI-style
    call of the all-parallel mode; [send_openai_message] of the
    single-select mode returns "Error: e". *)
Theorem backend_failure_becomes_inline_text :
  (forall (w : World) (message : string) (st : F.State),
      exists text, fst (F.get_gemini_response w message st) = Finished (Return text))
  /\ (forall (w : World) (message : string) (st : F.State)
             (g : GenerativeModel) (e : string),
        F.gemini_model st = Some g ->
        gemini_outcome w message st = Raise e ->
        fst (F.get_gemini_response w message st)
        = Finished (Return ("Gemini Error: " ++ e)%string))
  /\ (forall (w : World) (client : option AsyncOpenAI) (model message : string)
             (st : F.State),
        exists text,
          resume w (fst (F.get_openai_response client model message st))
          = Return text)
  /\ (forall (w : World) (c : AsyncOpenAI) (model message : string)
             (st : F.State) (e : string),
        create w (mkRequest c model (openai_messages (F.chat_history st) message))
        = Raise e ->
        resume w (fst (F.get_openai_response (Some c) model message st))
        = Return (model ++ " Error: " ++ e)%string)
  /\ (forall (w : World) (c : AsyncOpenAI) (model message : string)
             (st : MC.State),
        exists text,
          resume w (fst (MC.send_openai_message c model message st))
          = Return text)
  /\ (forall (w : World) (c : AsyncOpenAI) (model message : string)
             (st : MC.State) (e : string),
        create w (mkRequest c model (openai_messages (MC.chat_history st) message))
        = Raise e ->
        resume w (fst (MC.send_openai_message c model message st))
        = Return ("Error: " ++ e)%string).
Proof.
  split.
  { intros w message st. destruct (gemini_finishes w message st) as (r & Hr & _).
    exists r. exact Hr. }
  split.
  { intros w message st g e Hm Hout.
    rewrite (gemini_response_text w message st g Hm), Hout. reflexivity. }
  split.
  { intros w client model message st. eexists.
    apply (proj1 (openai_response_spec w client model message st)). }
  split.
  { intros w c model message st e Hr.
    rewrite (proj1 (openai_response_spec w (Some c) model message st)).
    unfold openai_reply. rewrite Hr. reflexivity. }
  split.
  { intros w c model message st. unfold MC.send_openai_message. cbn.
    destruct (create w _); eexists; reflexivity. }
  intros w c model message st e Hr.
  unfold MC.send_openai_message, openai_messages in *. cbn in Hr |- *.
  rewrite Hr. reflexivity.
Qed.

(** C8, amended, in a world where every call fails with the text boom. *)
Lemma backend_failure_becomes_inline_text_witness :
  fst (F.get_gemini_response world_down "hi" state_all_clients)
  = Finished (Return "Gemini Error: boom"%string)
  /\ resume world_down
       (fst (F.get_openai_response (Some OpenRouterEndpoint)
               "deepseek/deepseek-r1" "hi" state_all_clients))
     = Return "deepseek/deepseek-r1 Error: boom"%string
  /\ resume world_down
       (fst (MC.send_openai_message OpenAIEndpoint "o1" "hi" mc_state_openai))
     = Return "Error: boom"%string.
Proof.
  pose proof backend_failure_becomes_inline_text
    as (_ & Hgem & _ & Hopenai & _ & Hmc).
  split.
  { apply (Hgem world_down "hi" state_all_clients
             (mkGenerativeModel "gemini-2.0-flash-thinking-exp-01-21"));
      reflexivity. }
  split.
  { apply (Hopenai world_down OpenRouterEndpoint "deepseek/deepseek-r1"%string
             "hi"%string state_all_clients "boom"%string).
    reflexivity. }
  apply (Hmc world_down OpenAIEndpoint "o1"%string "hi"%string mc_state_openai
           "boom"%string).
  reflexivity.
Defined.

(** *** Failed exchanges stay in the history *)








(** ** The chat log: [json.dump] followed by [json.load] *)

Lemma scanstring_escape_char (c : ascii) (tail : string) :
  Json.scanstring (Json.escape_char c ++ tail)%string
  = Json.prepend (String c "") (Json.scanstring tail).
Proof.
  destruct c as [[] [] [] [] [] [] [] []]; reflexivity.
Qed.

Lemma scanstring_escape (s rest : string) :
  Json.scanstring (Json.escape s ++ String Json.dquote rest)%string
  = Some (s, rest).
Proof.
  induction s as [|c s IH]; [reflexivity|].
  cbn [Json.escape]. rewrite string_app_assoc, scanstring_escape_char, IH.
  reflexivity.
Qed.

Lemma skip_ws_indent (level : nat) (s : string) :
  Json.skip_ws (Json.indent_by level ++ s)%string = Json.skip_ws s.
Proof. induction level as [|l IH]; [reflexivity|exact IH]. Qed.

Lemma skip_ws_newline_indent (level : nat) (s : string) :
  Json.skip_ws (Json.newline_indent level ++ s)%string = Json.skip_ws s.
Proof. unfold Json.newline_indent. cbn. apply skip_ws_indent. Qed.

Lemma skip_ws_starts_value (s : string) :
  starts_value s -> Json.skip_ws s = s.
Proof. intros (c & r & -> & Hws & _). cbn. rewrite Hws. reflexivity. Qed.

Lemma encode_starts_value (level : nat) (v : Json.json) (rest : string) :
  storable v = true -> starts_value (Json.encode level v ++ rest)%string.
Proof.
  intros Hs.
  destruct v as [|[]|lexeme|s|[|x xs]|[|kv ms]]; try discriminate;
    eexists _, _; (split; [reflexivity|]); split; reflexivity.
Qed.

Lemma array_items_eq (fuel : nat) (s : string) :
  Json.array_items (S fuel) s
  = match Json.scan_once fuel s with
    | None => None
    | Some (v, r) =>
      match Json.skip_ws r with
      | String c r1 =>
        if Ascii.eqb c "]"%char then Some ([v], r1)
        else if Ascii.eqb c ","%char then
          match Json.array_items fuel (Json.skip_ws r1) with
          | Some (vs, r2) => Some (v :: vs, r2)
          | None => None
          end
        else None
      | EmptyString => None
      end
    end.
Proof. reflexivity. Qed.

Lemma concat_starts_value (level : nat) (x : Json.json) (xs : list Json.json)
  (rest : string) :
  storable x = true ->
  starts_value
    (String.concat (item_separator level) (map (Json.encode (S level)) (x :: xs))
     ++ rest)%string.
Proof.
  intros Hs. cbn [map String.concat].
  destruct (map (Json.encode (S level)) xs).
  - apply encode_starts_value, Hs.
  - rewrite string_app_assoc. apply encode_starts_value, Hs.
Qed.

Lemma array_items_encoded (level : nat) (items : list Json.json) :
  items <> [] ->
  Forall decodes items ->
  forallb storable items = true ->
  forall (rest : string) (fuel : nat),
    fold_right (fun x acc => S (need x + acc)) 0 items <= fuel ->
    Json.array_items fuel
      (String.concat (item_separator level) (map (Json.encode (S level)) items)
       ++ Json.newline_indent level ++ String "]"%char rest)%string
    = Some (items, rest).
Proof.
  induction items as [|x xs IH]; [congruence|].
  intros _ Hdec Hst rest fuel Hfuel.
  inversion Hdec as [|? ? Hx Hxs]; subst.
  cbn [forallb] in Hst. apply andb_true_iff in Hst. destruct Hst as [Hsx Hsxs].
  cbn [fold_right] in Hfuel.
  destruct fuel as [|fuel]; [lia|].
  rewrite array_items_eq.
  destruct xs as [|y ys].
  - cbn [map String.concat].
    rewrite (Hx Hsx (S level)) by lia.
    rewrite skip_ws_newline_indent. reflexivity.
  - change (String.concat (item_separator level)
              (map (Json.encode (S level)) (x :: y :: ys)))
      with (Json.encode (S level) x ++ item_separator level
            ++ String.concat (item_separator level)
                 (map (Json.encode (S level)) (y :: ys)))%string.
    rewrite !string_app_assoc.
    rewrite (Hx Hsx (S level)) by lia.
    unfold item_separator at 1.
    cbn [String.append Json.skip_ws Json.is_ws Ascii.eqb Bool.eqb orb].
    rewrite skip_ws_newline_indent.
    rewrite skip_ws_starts_value.
    2:{ apply concat_starts_value.
        cbn [forallb] in Hsxs. apply andb_true_iff in Hsxs. apply Hsxs. }
    rewrite IH; [reflexivity|discriminate|exact Hxs|exact Hsxs|].
    cbn [fold_right] in *. lia.
Qed.

Lemma object_members_eq (fuel : nat) (s : string) :
  Json.object_members (S fuel) s
  = match Json.scanstring s with
    | None => None
    | Some (key, r) =>
      match Json.skip_ws r with
      | String c r1 =>
        if Ascii.eqb c ":"%char then
          match Json.scan_once fuel (Json.skip_ws r1) with
          | None => None
          | Some (v, r2) =>
            match Json.skip_ws r2 with
            | String c2 r3 =>
              if Ascii.eqb c2 "}"%char then Some ([(key, v)], r3)
              else if Ascii.eqb c2 ","%char then
                match Json.skip_ws r3 with
                | String c3 r4 =>
                  if Ascii.eqb c3 Json.dquote then
                    match Json.object_members fuel r4 with
                    | Some (pairs, r5) => Some ((key, v) :: pairs, r5)
                    | None => None
                    end
                  else None
                | EmptyString => None
                end
              else None
            | EmptyString => None
            end
          end
        else None
      | EmptyString => None
      end
    end.
Proof. reflexivity. Qed.

Lemma member_text_shape (level : nat) (k : string) (v : Json.json) (X : string) :
  (member_text level (k, v) ++ X)%string
  = String Json.dquote
      (Json.escape k
       ++ String Json.dquote
            (String ":" (String " " (Json.encode (S level) v ++ X))))%string.
Proof.
  unfold member_text, Json.encode_basestring. cbn [fst snd].
  rewrite !string_app_assoc. cbn [String.append].
  rewrite !string_app_assoc. reflexivity.
Qed.

Lemma members_text_tail (level : nat) (ms : list (string * Json.json)) :
  forall (k : string) (v : Json.json) (X : string),
    (String.concat (item_separator level)
       (map (member_text level) ((k, v) :: ms)) ++ X)%string
    = String Json.dquote (members_tail level k v ms X).
Proof.
  induction ms as [|[k2 v2] ms' IH]; intros k v X.
  - cbn [map String.concat members_tail]. apply member_text_shape.
  - change (String.concat (item_separator level)
              (map (member_text level) ((k, v) :: (k2, v2) :: ms')))
      with (member_text level (k, v) ++ item_separator level
            ++ String.concat (item_separator level)
                 (map (member_text level) ((k2, v2) :: ms')))%string.
    rewrite string_app_assoc, member_text_shape.
    rewrite string_app_assoc, IH.
    reflexivity.
Qed.

Lemma object_members_tail (level : nat) (ms : list (string * Json.json)) :
  forall (k : string) (v : Json.json),
    decodes v -> storable v = true ->
    Forall (fun kv => decodes (snd kv)) ms ->
    forallb (fun kv => storable (snd kv)) ms = true ->
    forall (rest : string) (fuel : nat),
      fold_right (fun kv acc => S (need (snd kv) + acc)) 0 ((k, v) :: ms) <= fuel ->
      Json.object_members fuel
        (members_tail level k v ms
           (Json.newline_indent level ++ String "}"%char rest))
      = Some ((k, v) :: ms, rest).
Proof.
  induction ms as [|[k2 v2] ms' IH];
    intros k v Hv Hsv Hdec Hst rest fuel Hfuel;
    cbn [fold_right snd] in Hfuel;
    (destruct fuel as [|fuel]; [lia|]);
    rewrite object_members_eq; cbn [members_tail];
    rewrite scanstring_escape;
    cbn [Json.skip_ws Json.is_ws Ascii.eqb Bool.eqb orb];
    rewrite skip_ws_starts_value by (apply encode_starts_value, Hsv);
    rewrite (Hv Hsv (S level)) by lia.
  - rewrite skip_ws_newline_indent. reflexivity.
  - cbn [Json.skip_ws Json.is_ws Ascii.eqb Bool.eqb orb].
    rewrite skip_ws_newline_indent.
    cbn [Json.skip_ws Json.is_ws Ascii.eqb Bool.eqb orb Json.dquote fst snd].
    inversion Hdec as [|? ? Hv2 Hms']; subst. cbn [snd] in Hv2.
    cbn [forallb snd] in Hst. apply andb_true_iff in Hst.
    destruct Hst as [Hsv2 Hsms'].
    fold Json.dquote.
    rewrite (IH k2 v2 Hv2 Hsv2 Hms' Hsms' rest fuel); [reflexivity|].
    cbn [fold_right snd]. lia.
Qed.

Lemma string_app_nil_r (s : string) : (s ++ "")%string = s.
Proof. induction s as [|c s IH]; cbn; [reflexivity|]. rewrite IH. reflexivity. Qed.

Lemma string_length_app (a b : string) :
  String.length (a ++ b) = String.length a + String.length b.
Proof. induction a as [|c a IH]; cbn; [reflexivity|]. rewrite IH. reflexivity. Qed.

Lemma distinct_NoDup (ks : list string) : distinct ks = true -> NoDup ks.
Proof.
  induction ks as [|k rest IH]; intros H; [constructor|].
  cbn in H. apply andb_true_iff in H. destruct H as [Hk Hrest].
  constructor; [|apply IH, Hrest].
  intros Hin. apply negb_true_iff in Hk.
  assert (existsb (String.eqb k) rest = true) as E.
  { apply existsb_exists. exists k. split; [exact Hin|apply String.eqb_refl]. }
  congruence.
Qed.

Lemma dict_set_fresh {V : Type} (d : dict V) (k : string) (v : V) :
  ~ In k (map fst d) -> dict_set d k v = d ++ [(k, v)].
Proof.
  induction d as [|[k0 v0] d IH]; intros Hnot; [reflexivity|].
  cbn [dict_set]. destruct (String.eqb_spec k0 k) as [->|Hne].
  - exfalso. apply Hnot. left. reflexivity.
  - rewrite IH; [reflexivity|]. intros Hin. apply Hnot. right. exact Hin.
Qed.

Lemma dict_of_fold {V : Type} (items : list (string * V)) :
  forall acc : dict V,
    NoDup (map fst acc ++ map fst items) ->
    fold_left (fun d kv => dict_set d (fst kv) (snd kv)) items acc = acc ++ items.
Proof.
  induction items as [|[k v] rest IH]; intros acc Hnd.
  - cbn. rewrite app_nil_r. reflexivity.
  - cbn [fold_left fst snd]. cbn [map fst] in Hnd.
    rewrite dict_set_fresh.
    + rewrite IH.
      * rewrite <- app_assoc. reflexivity.
      * rewrite map_app, <- app_assoc. exact Hnd.
    + intros Hin. apply NoDup_remove_2 in Hnd. apply Hnd.
      apply in_or_app. left. exact Hin.
Qed.

(** A dict display with distinct keys keeps its items as written. *)
Lemma dict_of_distinct {V : Type} (items : list (string * V)) :
  distinct (map fst items) = true -> dict_of items = items.
Proof.
  intros Hd. unfold dict_of. rewrite dict_of_fold; [reflexivity|].
  apply distinct_NoDup, Hd.
Qed.

(** The decoder gives back every storable value from its text. *)
Lemma storable_decodes (v : Json.json) : decodes v.
Proof.
  induction v as [|b|lexeme|s|items IH|members IH] using json_nested_ind;
    intros Hst level rest fuel Hfuel.
  - destruct fuel as [|fuel]; [cbn in Hfuel; lia|]. reflexivity.
  - destruct fuel as [|fuel]; [cbn in Hfuel; lia|]. destruct b; reflexivity.
  - discriminate.
  - destruct fuel as [|fuel]; [cbn in Hfuel; lia|].
    cbn [Json.encode]. unfold Json.encode_basestring.
    cbn [String.append]. rewrite string_app_assoc. cbn [String.append].
    change (Json.scan_once (S fuel)
              (String Json.dquote (Json.escape s ++ String Json.dquote rest)))
      with (match Json.scanstring (Json.escape s ++ String Json.dquote rest)%string with
            | Some (text, r1) => Some (Json.JStr text, r1)
            | None => None
            end).
    rewrite scanstring_escape. reflexivity.
  - destruct items as [|x xs].
    { destruct fuel as [|fuel]; [cbn in Hfuel; lia|]. reflexivity. }
    cbn [need] in Hfuel. destruct fuel as [|fuel]; [lia|].
    cbn [storable] in Hst.
    change (Json.encode level (Json.JArr (x :: xs)))
      with ("[" ++ Json.newline_indent (S level)
            ++ String.concat (item_separator level)
                 (map (Json.encode (S level)) (x :: xs))
            ++ Json.newline_indent level ++ "]")%string.
    rewrite !string_app_assoc.
    change ("]" ++ rest)%string with (String "]"%char rest).
    change ("[" ++ ?X)%string with (String "["%char X).
    assert (forall T,
              starts_value T ->
              Json.scan_once (S fuel)
                (String "["%char (Json.newline_indent (S level) ++ T))
              = match Json.array_items fuel T with
                | Some (vs, r2) => Some (Json.JArr vs, r2)
                | None => None
                end) as Hopen.
    { intros T HT.
      change (Json.scan_once (S fuel)
                (String "["%char (Json.newline_indent (S level) ++ T)))
        with (match Json.skip_ws (Json.newline_indent (S level) ++ T)%string with
              | String c1 r1 =>
                if Ascii.eqb c1 "]"%char then Some (Json.JArr [], r1)
                else
                  match Json.array_items fuel (String c1 r1) with
                  | Some (vs, r2) => Some (Json.JArr vs, r2)
                  | None => None
                  end
              | EmptyString => None
              end).
      rewrite skip_ws_newline_indent, (skip_ws_starts_value T HT).
      destruct HT as (c & r & -> & _ & Hc). rewrite Hc. reflexivity. }
    rewrite Hopen.
    2:{ apply concat_starts_value. cbn [forallb] in Hst.
        apply andb_true_iff in Hst. apply Hst. }
    rewrite (array_items_encoded level (x :: xs)); try assumption;
      [reflexivity|discriminate|lia].
  - destruct members as [|[k v] ms].
    { destruct fuel as [|fuel]; [cbn in Hfuel; lia|]. reflexivity. }
    cbn [need] in Hfuel. destruct fuel as [|fuel]; [lia|].
    cbn [storable] in Hst. apply andb_true_iff in Hst. destruct Hst as [Hkeys Hvals].
    change (Json.encode level (Json.JObj ((k, v) :: ms)))
      with ("{" ++ Json.newline_indent (S level)
            ++ String.concat (item_separator level)
                 (map (member_text level) ((k, v) :: ms))
            ++ Json.newline_indent level ++ "}")%string.
    rewrite !string_app_assoc.
    change ("}" ++ rest)%string with (String "}"%char rest).
    rewrite members_text_tail.
    change ("{" ++ ?X)%string with (String "{"%char X).
    set (T := members_tail level k v ms
                (Json.newline_indent level ++ String "}"%char rest)).
    change (Json.scan_once (S fuel)
              (String "{"%char (Json.newline_indent (S level) ++ String Json.dquote T)))
      with (match Json.skip_ws (Json.newline_indent (S level)
                                ++ String Json.dquote T)%string with
            | String c1 r1 =>
              if Ascii.eqb c1 "}"%char then Some (Json.JObj [], r1)
              else if Ascii.eqb c1 Json.dquote then
                match Json.object_members fuel r1 with
                | Some (pairs, r2) => Some (Json.JObj pairs, r2)
                | None => None
                end
              else None
            | EmptyString => None
            end).
    rewrite skip_ws_newline_indent.
    cbn [Json.skip_ws Json.is_ws Json.dquote Ascii.eqb Bool.eqb orb].
    subst T.
    inversion IH as [|? ? Hv Hms]; subst. cbn [snd] in Hv.
    cbn [forallb snd] in Hvals. apply andb_true_iff in Hvals.
    destruct Hvals as [Hsv Hsms].
    rewrite (object_members_tail level ms k v Hv Hsv Hms Hsms rest fuel) by lia.
    reflexivity.
Qed.

Lemma sum_le_concat {A : Type} (f : A -> string) (n : A -> nat) (sep : string)
  (l : list A) :
  1 <= String.length sep ->
  Forall (fun x => n x <= String.length (f x)) l ->
  fold_right (fun x acc => S (n x + acc)) 0 l
  <= String.length (String.concat sep (map f l)) + 1.
Proof.
  intros Hsep Hall. induction Hall as [|x xs Hx Hxs IH]; [cbn; lia|].
  destruct xs as [|y ys].
  - cbn. lia.
  - change (String.concat sep (map f (x :: y :: ys)))
      with (f x ++ sep ++ String.concat sep (map f (y :: ys)))%string.
    rewrite !string_length_app.
    change (fold_right (fun x acc => S (n x + acc)) 0 (x :: y :: ys))
      with (S (n x + fold_right (fun x acc => S (n x + acc)) 0 (y :: ys))).
    lia.
Qed.

Lemma need_le_length (v : Json.json) :
  storable v = true ->
  forall level, need v <= String.length (Json.encode level v).
Proof.
  induction v as [|b|lexeme|s|items IH|members IH] using json_nested_ind;
    intros Hst level.
  - cbn. lia.
  - destruct b; cbn; lia.
  - discriminate.
  - cbn. lia.
  - destruct items as [|x xs]; [cbn; lia|].
    change (Json.encode level (Json.JArr (x :: xs)))
      with ("[" ++ Json.newline_indent (S level)
            ++ String.concat (item_separator level)
                 (map (Json.encode (S level)) (x :: xs))
            ++ Json.newline_indent level ++ "]")%string.
    rewrite !string_length_app. cbn [need].
    assert (fold_right (fun x acc => S (need x + acc)) 0 (x :: xs)
            <= String.length (String.concat (item_separator level)
                                (map (Json.encode (S level)) (x :: xs))) + 1)
      as Hsum.
    { apply sum_le_concat; [cbn; lia|].
      cbn [storable] in Hst. rewrite forallb_forall in Hst.
      rewrite Forall_forall in IH |- *.
      intros y Hy. apply (IH y Hy (Hst y Hy)). }
    cbn [String.length Json.newline_indent]. lia.
  - destruct members as [|kv ms]; [cbn; lia|].
    change (Json.encode level (Json.JObj (kv :: ms)))
      with ("{" ++ Json.newline_indent (S level)
            ++ String.concat (item_separator level)
                 (map (member_text level) (kv :: ms))
            ++ Json.newline_indent level ++ "}")%string.
    rewrite !string_length_app. cbn [need].
    assert (fold_right (fun kv acc => S (need (snd kv) + acc)) 0 (kv :: ms)
            <= String.length (String.concat (item_separator level)
                                (map (member_text level) (kv :: ms))) + 1)
      as Hsum.
    { apply (sum_le_concat (member_text level) (fun kv => need (snd kv)));
        [cbn; lia|].
      cbn [storable] in Hst. apply andb_true_iff in Hst. destruct Hst as [_ Hst].
      rewrite forallb_forall in Hst.
      rewrite Forall_forall in IH |- *.
      intros y Hy. unfold member_text. rewrite !string_length_app.
      specialize (IH y Hy (Hst y Hy) (S level)). lia. }
    cbn [String.length Json.newline_indent]. lia.
Qed.

(** [json.loads(json.dumps(v, indent=2, ensure_ascii=False)) == v]. *)
Lemma parse_dumps (v : Json.json) :
  storable v = true -> Json.parse (Json.dumps v) = Some v.
Proof.
  intros Hst. unfold Json.parse, Json.dumps.
  rewrite skip_ws_starts_value.
  2:{ rewrite <- (string_app_nil_r (Json.encode 0 v)).
      apply encode_starts_value, Hst. }
  rewrite <- (string_app_nil_r (Json.encode 0 v)) at 2.
  rewrite (storable_decodes v Hst 0 "").
  - reflexivity.
  - pose proof (need_le_length v Hst 0). lia.
Qed.

(** A value whose dicts have distinct keys is as the decoder collected
    it. *)
Lemma normalise_storable (v : Json.json) :
  storable v = true -> Json.normalise v = v.
Proof.
  induction v as [|b|lexeme|s|items IH|members IH] using json_nested_ind;
    intros Hst; try reflexivity.
  - cbn [Json.normalise]. f_equal. cbn [storable] in Hst.
    induction IH as [|x xs Hx Hxs IHxs]; [reflexivity|].
    cbn [forallb] in Hst. apply andb_true_iff in Hst. destruct Hst as [Hsx Hsxs].
    cbn [map]. rewrite (Hx Hsx), (IHxs Hsxs). reflexivity.
  - cbn [Json.normalise]. f_equal. cbn [storable] in Hst.
    apply andb_true_iff in Hst. destruct Hst as [Hkeys Hvals].
    assert (map (fun kv => (fst kv, Json.normalise (snd kv))) members = members)
      as ->.
    { clear Hkeys. induction IH as [|[k x] ms Hx Hms IHms]; [reflexivity|].
      cbn [forallb snd] in Hvals. apply andb_true_iff in Hvals.
      destruct Hvals as [Hsx Hsms]. cbn [map fst snd] in *.
      rewrite (Hx Hsx), (IHms Hsms). reflexivity. }
    apply dict_of_distinct, Hkeys.
Qed.

Lemma ints_ok_storable (v : Json.json) :
  storable v = true -> Json.ints_ok v = true.
Proof.
  induction v as [|b|lexeme|s|items IH|members IH] using json_nested_ind;
    intros Hst; try reflexivity; try discriminate.
  - cbn [storable Json.ints_ok] in *. rewrite forallb_forall in *.
    rewrite Forall_forall in IH. intros x Hx. apply (IH x Hx (Hst x Hx)).
  - cbn [storable Json.ints_ok] in *.
    apply andb_true_iff in Hst. destruct Hst as [_ Hst].
    rewrite forallb_forall in *. rewrite Forall_forall in IH.
    intros x Hx. apply (IH x Hx (Hst x Hx)).
Qed.

(** Without numbers, [json.dump] recurses as deep as the value nests. *)
Lemma dump_need_storable (v : Json.json) :
  storable v = true -> Json.dump_need v = Json.depth v.
Proof.
  induction v as [|b|lexeme|s|items IH|members IH] using json_nested_ind;
    intros Hst; try reflexivity; try discriminate.
  - cbn [storable Json.dump_need Json.depth] in *. f_equal.
    induction IH as [|x xs Hx Hxs IHxs]; [reflexivity|].
    cbn [forallb] in Hst. apply andb_true_iff in Hst. destruct Hst as [Hsx Hsxs].
    cbn [fold_right]. rewrite (Hx Hsx), (IHxs Hsxs). reflexivity.
  - cbn [storable Json.dump_need Json.depth] in *. f_equal.
    apply andb_true_iff in Hst. destruct Hst as [_ Hst].
    induction IH as [|x xs Hx Hxs IHxs]; [reflexivity|].
    cbn [forallb] in Hst. apply andb_true_iff in Hst. destruct Hst as [Hsx Hsxs].
    cbn [fold_right]. rewrite (Hx Hsx), (IHxs Hsxs). reflexivity.
Qed.

(** *** Texts that a UTF-8 file can hold *)

Lemma utf8_valid_app (a b : string) :
  Json.utf8_valid a = true -> Json.utf8_valid (a ++ b) = Json.utf8_valid b.
Proof.
  remember (String.length a) as n eqn:Hn. revert a Hn.
  induction n as [n IH] using lt_wf_ind. intros a Hn Ha.
  destruct a as [|c0 a]; [reflexivity|].
  cbn [String.length] in Hn.
  cbn [String.append Json.utf8_valid] in Ha |- *.
  destruct (N_of_ascii c0 <? 128)%N.
  { apply (IH (String.length a)); [lia|reflexivity|exact Ha]. }
  destruct a as [|c1 a]; [discriminate|].
  cbn [String.length] in Hn. cbn [String.append].
  destruct ((194 <=? N_of_ascii c0)%N && (N_of_ascii c0 <? 224)%N).
  { apply andb_true_iff in Ha. destruct Ha as [Hc Ha]. rewrite Hc.
    cbn [andb]. apply (IH (String.length a)); [lia|reflexivity|exact Ha]. }
  destruct a as [|c2 a]; [discriminate|].
  cbn [String.length] in Hn. cbn [String.append].
  destruct ((224 <=? N_of_ascii c0)%N && (N_of_ascii c0 <? 240)%N).
  { apply andb_true_iff in Ha. destruct Ha as [Hc Ha]. rewrite Hc.
    cbn [andb]. apply (IH (String.length a)); [lia|reflexivity|exact Ha]. }
  destruct a as [|c3 a]; [discriminate|].
  cbn [String.length] in Hn. cbn [String.append].
  apply andb_true_iff in Ha. destruct Ha as [Hc Ha]. rewrite Hc.
  cbn [andb]. apply (IH (String.length a)); [lia|reflexivity|exact Ha].
Qed.

Lemma utf8_valid_join (a b : string) :
  Json.utf8_valid a = true -> Json.utf8_valid b = true ->
  Json.utf8_valid (a ++ b) = true.
Proof. intros Ha Hb. rewrite (utf8_valid_app a b Ha). exact Hb. Qed.

Lemma escape_char_high (c : ascii) :
  (N_of_ascii c <? 128)%N = false -> Json.escape_char c = String c "".
Proof.
  destruct c as [[] [] [] [] [] [] [] []]; intros H;
    solve [reflexivity | discriminate H].
Qed.

Lemma escape_char_low (c : ascii) (tail : string) :
  (N_of_ascii c <? 128)%N = true ->
  Json.utf8_valid (Json.escape_char c ++ tail) = Json.utf8_valid tail.
Proof.
  destruct c as [[] [] [] [] [] [] [] []]; intros H;
    solve [reflexivity | discriminate H].
Qed.

Lemma is_cont_high (c : ascii) :
  Json.is_cont c = true -> (N_of_ascii c <? 128)%N = false.
Proof.
  unfold Json.is_cont. intros H. apply andb_true_iff in H. destruct H as [H _].
  apply N.leb_le in H. apply N.ltb_ge. lia.
Qed.

(** Escaping a text leaves it a text. *)
Lemma utf8_valid_escape (s tail : string) :
  Json.utf8_valid s = true ->
  Json.utf8_valid (Json.escape s ++ tail) = Json.utf8_valid tail.
Proof.
  remember (String.length s) as n eqn:Hn. revert s Hn.
  induction n as [n IH] using lt_wf_ind. intros s Hn Hs.
  destruct s as [|c0 s]; [reflexivity|].
  cbn [String.length] in Hn. cbn [Json.escape].
  cbn [Json.utf8_valid] in Hs.
  destruct (N_of_ascii c0 <? 128)%N eqn:H0.
  { rewrite string_app_assoc, (escape_char_low c0 _ H0).
    apply (IH (String.length s)); [lia|reflexivity|exact Hs]. }
  rewrite (escape_char_high c0 H0).
  destruct s as [|c1 s]; [discriminate|].
  cbn [String.length] in Hn. cbn [Json.escape].
  destruct ((194 <=? N_of_ascii c0)%N && (N_of_ascii c0 <? 224)%N) eqn:H2.
  { apply andb_true_iff in Hs. destruct Hs as [Hc1 Hs].
    rewrite (escape_char_high c1 (is_cont_high c1 Hc1)).
    cbn [String.append Json.utf8_valid]. rewrite H0, H2, Hc1. cbn [andb].
    apply (IH (String.length s)); [lia|reflexivity|exact Hs]. }
  destruct s as [|c2 s]; [discriminate|].
  cbn [String.length] in Hn. cbn [Json.escape].
  destruct ((224 <=? N_of_ascii c0)%N && (N_of_ascii c0 <? 240)%N) eqn:H3.
  { apply andb_true_iff in Hs. destruct Hs as [Hc Hs].
    assert (Json.is_cont c1 = true /\ Json.is_cont c2 = true) as [Hc1 Hc2].
    { apply andb_true_iff in Hc. destruct Hc as [Hc _].
      apply andb_true_iff in Hc. destruct Hc as [Hc _].
      apply andb_true_iff in Hc. exact Hc. }
    rewrite (escape_char_high c1 (is_cont_high c1 Hc1)).
    rewrite (escape_char_high c2 (is_cont_high c2 Hc2)).
    cbn [String.append Json.utf8_valid]. rewrite H0, H2, H3, Hc. cbn [andb].
    apply (IH (String.length s)); [lia|reflexivity|exact Hs]. }
  destruct s as [|c3 s]; [discriminate|].
  cbn [String.length] in Hn. cbn [Json.escape].
  apply andb_true_iff in Hs. destruct Hs as [Hc Hs].
  assert (Json.is_cont c1 = true /\ Json.is_cont c2 = true
          /\ Json.is_cont c3 = true) as (Hc1 & Hc2 & Hc3).
  { apply andb_true_iff in Hc. destruct Hc as [Hc _].
    apply andb_true_iff in Hc. destruct Hc as [Hc _].
    apply andb_true_iff in Hc. destruct Hc as [Hc H3'].
    apply andb_true_iff in Hc. destruct Hc as [Hc H2'].
    apply andb_true_iff in Hc. destruct Hc as [_ H1'].
    auto. }
  rewrite (escape_char_high c1 (is_cont_high c1 Hc1)).
  rewrite (escape_char_high c2 (is_cont_high c2 Hc2)).
  rewrite (escape_char_high c3 (is_cont_high c3 Hc3)).
  cbn [String.append Json.utf8_valid]. rewrite H0, H2, H3, Hc. cbn [andb].
  apply (IH (String.length s)); [lia|reflexivity|exact Hs].
Qed.

Lemma utf8_valid_basestring (s : string) :
  Json.utf8_valid s = true -> Json.utf8_valid (Json.encode_basestring s) = true.
Proof.
  intros Hs. unfold Json.encode_basestring.
  change (Json.utf8_valid (Json.escape s ++ String Json.dquote "")%string = true).
  rewrite (utf8_valid_escape s _ Hs). reflexivity.
Qed.

Lemma utf8_valid_indent (level : nat) :
  Json.utf8_valid (Json.newline_indent level) = true.
Proof.
  unfold Json.newline_indent. cbn [Json.utf8_valid]. cbn.
  induction level as [|l IH]; [reflexivity|exact IH].
Qed.

Lemma utf8_valid_concat {A : Type} (f : A -> string) (sep : string)
  (l : list A) :
  Json.utf8_valid sep = true ->
  Forall (fun x => Json.utf8_valid (f x) = true) l ->
  Json.utf8_valid (String.concat sep (map f l)) = true.
Proof.
  intros Hsep Hall. induction Hall as [|x xs Hx Hxs IH]; [reflexivity|].
  destruct xs as [|y ys].
  - exact Hx.
  - change (String.concat sep (map f (x :: y :: ys)))
      with (f x ++ sep ++ String.concat sep (map f (y :: ys)))%string.
    apply utf8_valid_join; [exact Hx|].
    apply utf8_valid_join; [exact Hsep|exact IH].
Qed.

(** The text of a value is a text when the texts in the value are. *)
Lemma utf8_valid_encode (v : Json.json) :
  storable v = true -> encodable v = true ->
  forall level, Json.utf8_valid (Json.encode level v) = true.
Proof.
  induction v as [|b|lexeme|s|items IH|members IH] using json_nested_ind;
    intros Hst Hen level.
  - reflexivity.
  - destruct b; reflexivity.
  - discriminate.
  - apply utf8_valid_basestring, Hen.
  - destruct items as [|x xs]; [reflexivity|].
    change (Json.encode level (Json.JArr (x :: xs)))
      with ("[" ++ Json.newline_indent (S level)
            ++ String.concat (item_separator level)
                 (map (Json.encode (S level)) (x :: xs))
            ++ Json.newline_indent level ++ "]")%string.
    apply utf8_valid_join; [reflexivity|].
    apply utf8_valid_join; [apply utf8_valid_indent|].
    apply utf8_valid_join.
    2:{ apply utf8_valid_join; [apply utf8_valid_indent|reflexivity]. }
    apply utf8_valid_concat.
    { unfold item_separator. apply utf8_valid_join;
        [reflexivity|apply utf8_valid_indent]. }
    cbn [storable encodable] in Hst, Hen. rewrite forallb_forall in Hst, Hen.
    rewrite Forall_forall in IH |- *.
    intros y Hy. apply (IH y Hy (Hst y Hy) (Hen y Hy)).
  - destruct members as [|kv ms]; [reflexivity|].
    change (Json.encode level (Json.JObj (kv :: ms)))
      with ("{" ++ Json.newline_indent (S level)
            ++ String.concat (item_separator level)
                 (map (member_text level) (kv :: ms))
            ++ Json.newline_indent level ++ "}")%string.
    apply utf8_valid_join; [reflexivity|].
    apply utf8_valid_join; [apply utf8_valid_indent|].
    apply utf8_valid_join.
    2:{ apply utf8_valid_join; [apply utf8_valid_indent|reflexivity]. }
    apply utf8_valid_concat.
    { unfold item_separator. apply utf8_valid_join;
        [reflexivity|apply utf8_valid_indent]. }
    cbn [storable encodable] in Hst, Hen.
    apply andb_true_iff in Hst. destruct Hst as [_ Hst].
    rewrite forallb_forall in Hst, Hen.
    rewrite Forall_forall in IH |- *.
    intros y Hy. specialize (Hen y Hy). apply andb_true_iff in Hen.
    destruct Hen as [Hk Hv]. unfold member_text.
    apply utf8_valid_join; [apply utf8_valid_basestring, Hk|].
    apply utf8_valid_join; [reflexivity|].
    apply (IH y Hy (Hst y Hy) Hv).
Qed.

(** [json.dump] writes, and [json.load] then reads back, every value
    that holds no number and no lone surrogate, whose dicts have
    distinct keys, and that nests no deeper than the two calls reach. *)
Lemma load_dump (w : World) (v : Json.json) :
  storable v = true -> encodable v = true ->
  Json.depth v <= dump_depth w -> Json.depth v <= load_depth w ->
  Json.dump (dump_depth w) v = Return (Json.dumps v)
  /\ Json.load (load_depth w) (Json.dumps v) = Return v.
Proof.
  intros Hst Hen Hd Hl.
  pose proof (utf8_valid_encode v Hst Hen 0) as Hvalid.
  fold (Json.dumps v) in Hvalid.
  unfold Json.dump, Json.load.
  rewrite (dump_need_storable v Hst), Hvalid, (parse_dumps v Hst).
  rewrite (ints_ok_storable v Hst), (normalise_storable v Hst).
  destruct (Nat.ltb_spec (dump_depth w) (Json.depth v)); [lia|].
  destruct (Nat.ltb_spec (load_depth w) (Json.depth v)); [lia|].
  split; reflexivity.
Qed.

(** The entry [process_message] appends is such a record. *)
Lemma log_entry_is_entry (w : World) (now message : string) (st : F.State)
  (r0 final : string) :
  F.log_entry now message (responses_of w message st r0) final
  = entry_json
      (mkChatLogEntry now message
         [ ("Model 1", r0);
           ("Model 2", openai_reply w (F.openrouter_client st)
                         "deepseek/deepseek-r1" message (F.chat_history st));
           ("Model 3", openai_reply w (F.openrouter_client st)
                         "qwen/qwq-32b-preview" message (F.chat_history st));
           ("Model 4", openai_reply w (F.openai_client st) "o1" message
                         (F.chat_history st)) ]%string
         final).
Proof. reflexivity. Qed.

Lemma entry_json_storable (e : ChatLogEntry) :
  well_formed_entry e -> storable (entry_json e) = true.
Proof.
  intros Hwf. unfold well_formed_entry, keys in Hwf.
  unfold entry_json. cbn [storable forallb snd map fst].
  repeat (apply andb_true_iff; split); try reflexivity.
  - rewrite map_map. cbn [fst]. exact Hwf.
  - clear Hwf. induction (model_responses e) as [|kv rest IH];
      [reflexivity|exact IH].
Qed.


Lemma entry_json_encodable (e : ChatLogEntry) :
  encodable_entry e -> encodable (entry_json e) = true.
Proof.
  intros (Ht & Hu & Hr & Hf).
  unfold entry_json. cbn [encodable forallb fst snd].
  rewrite Ht, Hu, Hf. cbn [Json.utf8_valid N_of_ascii andb].
  rewrite andb_true_r. cbn.
  induction (model_responses e) as [|kv rest IH]; [reflexivity|].
  cbn [forallb map fst snd encodable] in *.
  apply andb_true_iff in Hr. destruct Hr as [Hkv Hrest].
  rewrite Hkv. exact (IH Hrest).
Qed.


(** A chat log nests three deep: the list, a record, its responses. *)
Lemma entry_json_depth (e : ChatLogEntry) : Json.depth (entry_json e) = 2.
Proof.
  unfold entry_json. cbn [Json.depth fold_right snd].
  assert (fold_right
            (fun (kv : string * Json.json) acc => Nat.max (Json.depth (snd kv)) acc)
            0 (map (fun kv => (fst kv, Json.JStr (snd kv))) (model_responses e))
          = 0) as ->.
  { induction (model_responses e) as [|kv rest IH]; [reflexivity|exact IH]. }
  reflexivity.
Qed.


(** *** What a failed [json.dump] leaves *)






(** * Further properties of the two programs *)

(** ** The command loop of [frankenthought-chat.py] *)

Lemma main_iteration_cases (w : World) (inp : F.Input) (st : F.State) :
  F.main_iteration w inp st
  = if String.eqb (command_of (F.line inp)) "--exit" then (Break, st)
    else if String.eqb (command_of (F.line inp)) "--help" then (Continue, st)
    else if String.eqb (command_of (F.line inp)) "--clear"
         then (Continue, cleared st)
    else if String.eqb (strip (F.line inp)) "" then (Continue, st)
    else (Continue,
          snd (F.process_message w (F.arrival inp) (F.clock inp)
                 (strip (F.line inp)) st)).
Proof.
  unfold F.main_iteration, command_of. rewrite clear_spec. reflexivity.
Qed.

Lemma main_app (w : World) (pre post : list F.Input) (st : F.State) :
  Forall (fun inp => String.eqb (command_of (F.line inp)) "--exit" = false) pre ->
  F.main w (pre ++ post) st = F.main w post (F.main w pre st).
Proof.
  intros Hpre. revert st. induction Hpre as [|inp pre Hinp Hpre IH]; intros st.
  - reflexivity.
  - cbn [app F.main]. rewrite main_iteration_cases, Hinp.
    repeat match goal with
           | |- context [if ?b then _ else _] => destruct b
           end; apply IH.
Qed.


(** X1.  [main] stops at the first line that is the exit command,
    whatever its case and the white space around it: the lines after it
    are never read, so the run ends in the state the lines before it
    left. *)
Theorem main_stops_at_exit (w : World) (pre post : list F.Input)
  (quit : F.Input) (st : F.State) :
  Forall (fun inp => String.eqb (command_of (F.line inp)) "--exit" = false) pre ->
  String.eqb (command_of (F.line quit)) "--exit" = true ->
  F.main w (pre ++ quit :: post) st = F.main w pre st.
Proof.
  intros Hpre Hquit. rewrite main_app by exact Hpre.
  cbn [F.main]. rewrite main_iteration_cases, Hquit. reflexivity.
Qed.

(** X1 on a run with two messages around an exit command that has a
    no-break space before it and an ideographic space after it. *)
Lemma main_stops_at_exit_witness :
  F.main world_demo
    ([F.mkInput "hello" [] "t1"]
       ++ F.mkInput (nbsp ++ " --EXIT" ++ wide_space)%string [] "t2"
       :: [F.mkInput "never sent" [] "t3"]) state_demo
  = F.main world_demo [F.mkInput "hello" [] "t1"] state_demo.
Proof.
  apply main_stops_at_exit.
  - repeat constructor.
  - reflexivity.
Defined.



(** ** What no exchange and no command changes *)

Lemma process_message_frame (w : World) (order : list nat) (now message : string)
  (st : F.State) :
  F.gemini_model (snd (F.process_message w order now message st))
  = F.gemini_model st
  /\ F.openai_client (snd (F.process_message w order now message st))
     = F.openai_client st
  /\ F.openrouter_client (snd (F.process_message w order now message st))
     = F.openrouter_client st.
Proof.
  destruct (process_message_spec w order now message st)
    as (r0 & st1 & _ & (Hgm & Hoa & Hor & _) & Hspec).
  cbv zeta in Hspec. rewrite Hspec.
  destruct (read_log w (F.log_file st)); cbn; auto.
Qed.

(** The Gemini branch of [chat_with_model], piece by piece. *)
Lemma mc_gemini_branch_frame (w : World) (message : string) (st : MC.State)
  (g : GenerativeModel) :
  MC.gemini_model st = Some g ->
  fst (MC.chat_with_model w 1 message st)
  = Return (match mc_gemini_outcome w message st with
            | Return reply => reply
            | Raise e => ("Error: " ++ e)%string
            end)
  /\ MC.chat_history (snd (MC.chat_with_model w 1 message st))
     = match mc_gemini_outcome w message st with
       | Return reply =>
         MC.chat_history st ++ [user_turn message; assistant_turn reply]
       | Raise _ =>
         if mc_text_raised w message st
         then MC.chat_history st ++ [user_turn message]
         else MC.chat_history st
       end
  /\ MC.gemini_chat (snd (MC.chat_with_model w 1 message st))
     = MC.gemini_chat (mc_gemini_state w message st)
  /\ MC.trace (snd (MC.chat_with_model w 1 message st))
     = MC.trace (mc_gemini_state w message st)
  /\ MC.gemini_model (snd (MC.chat_with_model w 1 message st))
     = MC.gemini_model st
  /\ MC.openai_client (snd (MC.chat_with_model w 1 message st))
     = MC.openai_client st
  /\ MC.openrouter_client (snd (MC.chat_with_model w 1 message st))
     = MC.openrouter_client st.
Proof.
  intros Hm. rewrite (mc_gemini_branch w message st g Hm).
  unfold mc_gemini_state.
  destruct (mc_gemini_outcome w message st) as [reply|e];
    [|destruct (mc_text_raised w message st)];
    destruct (MC.gemini_chat st); cbn; rewrite ?Hm; repeat split; reflexivity.
Qed.

Lemma mc_chat_cases (w : World) (choice : nat) (message : string) (st : MC.State) :
  MC.gemini_model (snd (MC.chat_with_model w choice message st))
  = MC.gemini_model st
  /\ MC.openai_client (snd (MC.chat_with_model w choice message st))
     = MC.openai_client st
  /\ MC.openrouter_client (snd (MC.chat_with_model w choice message st))
     = MC.openrouter_client st
  /\ (MC.chat_history (snd (MC.chat_with_model w choice message st))
      = MC.chat_history st
      \/ (exists reply,
            fst (MC.chat_with_model w choice message st) = Return reply
            /\ MC.chat_history (snd (MC.chat_with_model w choice message st))
               = MC.chat_history st ++ [user_turn message; assistant_turn reply])
      \/ (choice = 1 /\ mc_text_raised w message st = true
          /\ MC.chat_history (snd (MC.chat_with_model w choice message st))
             = MC.chat_history st ++ [user_turn message])).
Proof.
  destruct (Nat.eq_dec choice 0) as [->|Hnz].
  { rewrite mc_unknown_choice by (left; reflexivity). cbn. auto. }
  destruct (Nat.ltb_spec 4 choice) as [Hbig|Hsmall].
  { rewrite mc_unknown_choice by (right; exact Hbig). cbn. auto. }
  destruct (mc_selected_available choice st) eqn:Hav.
  2:{ rewrite mc_unavailable_branch by (try lia; exact Hav). cbn. auto. }
  destruct choice as [|[|choice]]; [lia| |].
  - cbn in Hav. destruct (MC.gemini_model st) as [g|] eqn:Hm; [|discriminate].
    destruct (mc_gemini_branch_frame w message st g Hm)
      as (Hr & Hh & _ & _ & Hg & Ho & Hor).
    rewrite Hm in Hg.
    split; [exact Hg|]. split; [exact Ho|]. split; [exact Hor|].
    rewrite Hh, Hr.
    destruct (mc_gemini_outcome w message st) as [reply|e]; [eauto|].
    destruct (mc_text_raised w message st); auto.
  - assert (exists c, mc_client (S (S choice)) st = Some c) as [c Hc].
    { destruct choice as [|[|[|choice]]]; try lia; cbn in Hav |- *;
        match goal with
        | |- exists c, ?o = Some c => destruct o; [eauto|discriminate]
        end. }
    rewrite (mc_openai_branch w _ message st c Hc). cbn. repeat split; eauto.
Qed.

(** When every response of Gemini that arrives has a text, no failure
    comes after the user turn was appended. *)
Lemma mc_text_never_raised (w : World) (message : string) (st : MC.State) :
  (forall sess text, text_raises w sess text = false) ->
  mc_text_raised w message st = false.
Proof.
  intros Hnone. unfold mc_text_raised.
  destruct (mc_gemini_outcome w message st); [reflexivity|].
  destruct (MC.gemini_chat st); [apply Hnone|].
  destruct (attempt w [] (user_texts (MC.chat_history st))) as [[u|e'] sent];
    [apply Hnone|reflexivity].
Qed.

Lemma main_cons (w : World) (inp : F.Input) (later : list F.Input) (st : F.State) :
  F.main w (inp :: later) st
  = if String.eqb (command_of (F.line inp)) "--exit" then st
    else if String.eqb (command_of (F.line inp)) "--help" then F.main w later st
    else if String.eqb (command_of (F.line inp)) "--clear"
         then F.main w later (cleared st)
    else if String.eqb (strip (F.line inp)) "" then F.main w later st
    else F.main w later
           (snd (F.process_message w (F.arrival inp) (F.clock inp)
                   (strip (F.line inp)) st)).
Proof.
  cbn [F.main]. rewrite main_iteration_cases.
  repeat match goal with
         | |- context [if ?b then _ else _] => destruct b
         end; reflexivity.
Qed.

Lemma mc_main_loop_cons (w : World) (inp : MC.Input) (later : list MC.Input)
  (current_model : nat) (st : MC.State) :
  MC.main_loop w (inp :: later) current_model st
  = if String.eqb (command_of (MC.line inp)) "--exit" then st
    else if String.eqb (command_of (MC.line inp)) "--help"
         then MC.main_loop w later current_model st
    else if String.eqb (command_of (MC.line inp)) "--change"
         then match MC.get_model_choice (MC.answers inp) with
              | Return None => st
              | Return (Some new_model) => MC.main_loop w later new_model st
              | Raise _ => MC.main_loop w later current_model st
              end
    else if String.eqb (command_of (MC.line inp)) "--clear"
         then MC.main_loop w later current_model (mc_cleared st)
    else if String.eqb (strip (MC.line inp)) ""
         then MC.main_loop w later current_model st
    else MC.main_loop w later current_model
           (snd (MC.chat_with_model w current_model (strip (MC.line inp)) st)).
Proof.
  cbn [MC.main_loop]. unfold MC.main_iteration, command_of.
  rewrite mc_clear_spec.
  repeat match goal with
         | |- context [if ?b then _ else _] => destruct b
         end; try reflexivity.
  destruct (MC.get_model_choice (MC.answers inp)) as [[m|]|e]; reflexivity.
Qed.

(** X3.  The model and client objects are set once when the module is
    loaded: no run of either command loop, whatever is typed and whatever
    the backends answer, changes them, so a backend that was unavailable
    at start stays unavailable and one that was available stays
    available. *)
Theorem availability_never_changes :
  (forall (w : World) (inputs : list F.Input) (st : F.State),
      F.gemini_model (F.main w inputs st) = F.gemini_model st
      /\ F.openai_client (F.main w inputs st) = F.openai_client st
      /\ F.openrouter_client (F.main w inputs st) = F.openrouter_client st)
  /\ (forall (w : World) (inputs : list MC.Input) (current_model : nat)
             (st : MC.State),
        MC.gemini_model (MC.main_loop w inputs current_model st)
        = MC.gemini_model st
        /\ MC.openai_client (MC.main_loop w inputs current_model st)
           = MC.openai_client st
        /\ MC.openrouter_client (MC.main_loop w inputs current_model st)
           = MC.openrouter_client st).
Proof.
  split.
  - intros w inputs. induction inputs as [|inp later IH]; intros st; [auto|].
    rewrite main_cons.
    repeat match goal with
           | |- context [if ?b then _ else _] => destruct b
           end; auto; try apply (IH (cleared st)).
    destruct (IH (snd (F.process_message w (F.arrival inp) (F.clock inp)
                         (strip (F.line inp)) st))) as (H1 & H2 & H3).
    destruct (process_message_frame w (F.arrival inp) (F.clock inp)
                (strip (F.line inp)) st) as (F1 & F2 & F3).
    rewrite H1, H2, H3. auto.
  - intros w inputs. induction inputs as [|inp later IH]; intros cm st; [auto|].
    rewrite mc_main_loop_cons.
    repeat match goal with
           | |- context [if ?b then _ else _] => destruct b
           end; auto; try apply (IH cm (mc_cleared st)).
    + destruct (MC.get_model_choice (MC.answers inp)) as [[m|]|e]; auto.
    + destruct (IH cm (snd (MC.chat_with_model w cm (strip (MC.line inp)) st)))
        as (H1 & H2 & H3).
      destruct (mc_chat_cases w cm (strip (MC.line inp)) st)
        as (F1 & F2 & F3 & _).
      rewrite H1, H2, H3. auto.
Qed.

(** X4.  The history is a sequence of pairs, a user turn followed by
    its assistant turn: from such a history (the empty one at start)
    every run of the command loop of the all-parallel program, with any
    commands, unavailable backends and failed calls, ends in such a
    history again, so its length is even and its roles alternate.  So
    does every run of the single-select program, with any commands and
    model changes, as long as every response of Gemini that arrives has
    a text. *)
Theorem history_stays_paired :
  (forall (w : World) (inputs : list F.Input) (st : F.State)
          (pairs : list (string * string)),
      F.chat_history st = turns_of pairs ->
      exists pairs',
        F.chat_history (F.main w inputs st) = turns_of pairs'
        /\ length (F.chat_history (F.main w inputs st)) = 2 * length pairs'
        /\ roles_alternate (F.chat_history (F.main w inputs st)))
  /\ (forall (w : World) (inputs : list MC.Input) (current_model : nat)
             (st : MC.State) (pairs : list (string * string)),
        (forall sess text, text_raises w sess text = false) ->
        MC.chat_history st = turns_of pairs ->
        exists pairs',
          MC.chat_history (MC.main_loop w inputs current_model st)
          = turns_of pairs'
          /\ length (MC.chat_history (MC.main_loop w inputs current_model st))
             = 2 * length pairs'
          /\ roles_alternate
               (MC.chat_history (MC.main_loop w inputs current_model st))).
Proof.
  assert (forall (h : list Turn) pairs,
            h = turns_of pairs ->
            exists pairs', h = turns_of pairs'
                           /\ length h = 2 * length pairs'
                           /\ roles_alternate h) as Hdone.
  { intros h pairs ->. exists pairs.
    split; [reflexivity|]. split; [apply turns_of_length|apply turns_of_alternate]. }
  split.
  - intros w inputs. induction inputs as [|inp later IH]; intros st pairs Hh.
    { apply (Hdone _ pairs Hh). }
    rewrite main_cons.
    repeat match goal with
           | |- context [if ?b then _ else _] => destruct b
           end;
      try (apply (Hdone _ pairs Hh)); try (apply (IH _ pairs Hh)).
    + apply (IH _ []). reflexivity.
    + destruct (process_message_appends w (F.arrival inp) (F.clock inp)
                  (strip (F.line inp)) st) as [final Hf].
      rewrite Hh, <- turns_of_snoc in Hf. apply (IH _ _ Hf).
  - intros w inputs. induction inputs as [|inp later IH];
      intros cm st pairs Hnone Hh.
    { apply (Hdone _ pairs Hh). }
    rewrite mc_main_loop_cons.
    repeat match goal with
           | |- context [if ?b then _ else _] => destruct b
           end;
      try (apply (Hdone _ pairs Hh)); try (apply (IH _ _ pairs Hnone Hh)).
    + destruct (MC.get_model_choice (MC.answers inp)) as [[m|]|e];
        try (apply (Hdone _ pairs Hh)); apply (IH _ _ pairs Hnone Hh).
    + apply (IH _ _ [] Hnone). reflexivity.
    + destruct (mc_chat_cases w cm (strip (MC.line inp)) st)
        as (_ & _ & _ & [Hsame|[(reply & _ & Happ)|(_ & Hraised & _)]]).
      * apply (IH _ _ pairs Hnone). rewrite Hsame. exact Hh.
      * rewrite Hh, <- turns_of_snoc in Happ. apply (IH _ _ _ Hnone Happ).
      * rewrite (mc_text_never_raised w _ st Hnone) in Hraised. discriminate.
Qed.

(** X4 on a run of the single-select loop with a failed choice of
    model, a change of model and a clear. *)
Lemma history_stays_paired_witness :
  exists pairs',
    MC.chat_history
      (MC.main_loop world_demo
         [MC.mkInput "one" []; MC.mkInput "--change" [None; Some 9; Some 1];
          MC.mkInput "two" []; MC.mkInput "--clear" []; MC.mkInput "three" []]
         3 mc_state_demo)
    = turns_of pairs'.
Proof.
  destruct (proj2 history_stays_paired world_demo
              [MC.mkInput "one" []; MC.mkInput "--change" [None; Some 9; Some 1];
               MC.mkInput "two" []; MC.mkInput "--clear" []; MC.mkInput "three" []]
              3 mc_state_demo [] (fun _ _ => eq_refl) eq_refl)
    as (pairs' & Hp & _).
  exists pairs'. exact Hp.
Defined.

(** ** The Gemini session and the history in [frankenthought-chat.py] *)



Lemma process_message_chat (w : World) (order : list nat) (now message : string)
  (st : F.State) :
  F.chat (snd (F.process_message w order now message st))
  = F.chat (snd (F.get_gemini_response w message st)).
Proof.
  destruct (process_message_spec w order now message st)
    as (r0 & st1 & Hgem & _ & Hspec).
  cbv zeta in Hspec. rewrite Hspec, Hgem.
  destruct (read_log w (F.log_file st)); reflexivity.
Qed.




(** ** The chat log over a run *)

Lemma send_failure_valid (w : World) (sess : ChatSession) (text e : string) :
  encodable_world w -> send w sess text = Raise e -> Json.utf8_valid e = true.
Proof.
  intros [Hg _] Hs. specialize (Hg sess text). unfold send in Hs.
  destruct (gemini_send w sess text) as [reply|e']; [discriminate|].
  destruct (text_raises w sess text); [discriminate|].
  injection Hs as <-. exact Hg.
Qed.

Lemma attempt_failure_valid (w : World) (texts : list string) :
  encodable_world w ->
  forall sess e, fst (attempt w sess texts) = Raise e -> Json.utf8_valid e = true.
Proof.
  intros Hw. induction texts as [|t later IH]; intros sess e Hf; cbn in Hf.
  - discriminate.
  - destruct (send w sess t) as [r|e'] eqn:Hs.
    + specialize (IH (sess ++ [t]) e).
      destruct (attempt w (sess ++ [t]) later) as [r' sent]. exact (IH Hf).
    + injection Hf as <-. apply (send_failure_valid w sess t e' Hw Hs).
Qed.

(** With backends that give texts, every text an exchange records is a
    text. *)
Lemma gemini_reply_valid (w : World) (message : string) (st : F.State)
  (r0 : string) :
  encodable_world w ->
  fst (F.get_gemini_response w message st) = Finished (Return r0) ->
  Json.utf8_valid r0 = true.
Proof.
  intros Hw Hr. rewrite gemini_reply_text in Hr. injection Hr as <-.
  destruct (F.gemini_model st); [|reflexivity].
  unfold gemini_outcome.
  assert (forall sess, Json.utf8_valid (gemini_text (gemini_send w sess message))
                       = true) as Hsend.
  { intros sess. pose proof (proj1 Hw sess message) as Hv.
    destruct (gemini_send w sess message); [exact Hv|].
    apply utf8_valid_join; [reflexivity|exact Hv]. }
  destruct (F.chat st); [apply Hsend|].
  pose proof (attempt_failure_valid w (user_texts (F.chat_history st)) Hw []) as Hf.
  destruct (attempt w [] (user_texts (F.chat_history st))) as [[u|e] sent];
    [apply Hsend|].
  apply utf8_valid_join; [reflexivity|]. apply (Hf e). reflexivity.
Qed.

Lemma openai_reply_valid (w : World) (client : option AsyncOpenAI)
  (model message : string) (history : list Turn) :
  encodable_world w -> Json.utf8_valid model = true ->
  Json.utf8_valid (openai_reply w client model message history) = true.
Proof.
  intros [_ Hc] Hm. unfold openai_reply. destruct client as [c|].
  - specialize (Hc (mkRequest c model (openai_messages history message))).
    destruct (create w _); [exact Hc|].
    apply utf8_valid_join; [exact Hm|].
    apply utf8_valid_join; [reflexivity|exact Hc].
  - apply utf8_valid_join; [exact Hm|reflexivity].
Qed.

Lemma synthesis_reply_valid (w : World) (client : option AsyncOpenAI)
  (message g d q o : string) :
  encodable_world w ->
  Json.utf8_valid (synthesis_reply w client message g d q o) = true.
Proof.
  intros [_ Hc]. unfold synthesis_reply. destruct client as [c|]; [|reflexivity].
  specialize (Hc (synthesis_request c message g d q o)).
  destruct (create w _); [exact Hc|].
  apply utf8_valid_join; [reflexivity|exact Hc].
Qed.

Lemma depth_snoc (items : list Json.json) (x : Json.json) :
  Json.depth (Json.JArr (items ++ [x]))
  = Nat.max (Json.depth (Json.JArr items)) (S (Json.depth x)).
Proof.
  cbn [Json.depth]. induction items as [|y ys IH]; cbn [app fold_right].
  - lia.
  - injection IH as IH. rewrite IH. lia.
Qed.

Lemma process_message_logged (w : World) (order : list nat)
  (now message : string) (st : F.State) (items : list Json.json) :
  read_log w (F.log_file st) = Json.JArr items ->
  storable (Json.JArr items) = true ->
  encodable (Json.JArr items) = true ->
  Json.depth (Json.JArr items) <= dump_depth w ->
  Json.depth (Json.JArr items) <= load_depth w ->
  3 <= dump_depth w -> 3 <= load_depth w ->
  encodable_world w ->
  Json.utf8_valid now = true -> Json.utf8_valid message = true ->
  exists e : ChatLogEntry,
    timestamp e = now /\ user_message e = message
    /\ fst (F.process_message w order now message st) = Return (final_response e)
    /\ F.chat_history (snd (F.process_message w order now message st))
       = F.chat_history st
         ++ [user_turn message; assistant_turn (final_response e)]
    /\ F.log_file (snd (F.process_message w order now message st))
       = Some (Json.dumps (Json.JArr (items ++ [entry_json e])))
    /\ read_log w (F.log_file (snd (F.process_message w order now message st)))
       = Json.JArr (items ++ [entry_json e])
    /\ storable (Json.JArr (items ++ [entry_json e])) = true
    /\ encodable (Json.JArr (items ++ [entry_json e])) = true
    /\ Json.depth (Json.JArr (items ++ [entry_json e])) <= dump_depth w
    /\ Json.depth (Json.JArr (items ++ [entry_json e])) <= load_depth w.
Proof.
  intros Hlog Hst Hen Hdd Hld Hd3 Hl3 Hw Hnow Hmsg.
  destruct (process_message_spec w order now message st)
    as (r0 & st1 & Hgem & _ & Hspec).
  cbv zeta in Hspec. rewrite Hlog in Hspec. rewrite Hspec.
  rewrite log_entry_is_entry.
  set (r1 := openai_reply w (F.openrouter_client st) "deepseek/deepseek-r1"
               message (F.chat_history st)).
  set (r2 := openai_reply w (F.openrouter_client st) "qwen/qwq-32b-preview"
               message (F.chat_history st)).
  set (r3 := openai_reply w (F.openai_client st) "o1" message (F.chat_history st)).
  set (final := synthesis_reply w (F.openai_client st) message r0 r1 r2 r3).
  set (e := mkChatLogEntry now message
              [("Model 1", r0); ("Model 2", r1); ("Model 3", r2); ("Model 4", r3)]%string
              final).
  assert (Json.utf8_valid r0 = true) as H0.
  { apply (gemini_reply_valid w message st r0 Hw). rewrite Hgem. reflexivity. }
  assert (Json.utf8_valid r1 = true) as H1
      by (apply openai_reply_valid; [exact Hw|reflexivity]).
  assert (Json.utf8_valid r2 = true) as H2
      by (apply openai_reply_valid; [exact Hw|reflexivity]).
  assert (Json.utf8_valid r3 = true) as H3
      by (apply openai_reply_valid; [exact Hw|reflexivity]).
  assert (Json.utf8_valid final = true) as Hf
      by (apply synthesis_reply_valid; exact Hw).
  assert (storable (entry_json e) = true) as Hse
      by (apply entry_json_storable; reflexivity).
  assert (encodable (entry_json e) = true) as Hee.
  { apply entry_json_encodable. unfold encodable_entry, e.
    cbn [timestamp user_message model_responses final_response forallb fst snd].
    rewrite H0, H1, H2, H3. repeat split; try assumption; reflexivity. }
  assert (storable (Json.JArr (items ++ [entry_json e])) = true) as Hst'.
  { cbn [storable] in *. rewrite forallb_app, Hst. cbn [forallb].
    rewrite Hse. reflexivity. }
  assert (encodable (Json.JArr (items ++ [entry_json e])) = true) as Hen'.
  { cbn [encodable] in *. rewrite forallb_app, Hen. cbn [forallb].
    rewrite Hee. reflexivity. }
  assert (Json.depth (Json.JArr (items ++ [entry_json e])) <= dump_depth w
          /\ Json.depth (Json.JArr (items ++ [entry_json e])) <= load_depth w)
    as [Hdd' Hld'].
  { rewrite depth_snoc, entry_json_depth. lia. }
  destruct (load_dump w _ Hst' Hen' Hdd' Hld') as [Hdump Hload].
  exists e.
  split; [reflexivity|]. split; [reflexivity|].
  split; [reflexivity|]. split; [reflexivity|].
  cbn [snd F.log_file F.set_log_file]. unfold saved_log. rewrite Hdump.
  split; [reflexivity|].
  split; [unfold read_log; rewrite Hload; reflexivity|].
  auto.
Qed.

(** X6.  The chat log keeps one record per exchange.  Take backends
    that give texts without lone surrogates, messages and times that
    hold none, a [json] that nests three deep, and a log file that is
    absent, unreadable, or holds a list that [json] writes and reads
    back unchanged (no numbers, no lone surrogates, distinct keys, a
    nesting [json] reaches).  Then after [k] exchanges the file loads to
    that list followed by [k] records, one per exchange in order, each
    with the time and the message of its exchange; and the turns the
    exchanges appended to the history are the messages and final texts
    of these records. *)
Theorem log_keeps_one_record_per_exchange (w : World) (steps : list F.Input)
  (st : F.State) (items : list Json.json) :
  read_log w (F.log_file st) = Json.JArr items ->
  storable (Json.JArr items) = true ->
  encodable (Json.JArr items) = true ->
  Json.depth (Json.JArr items) <= dump_depth w ->
  Json.depth (Json.JArr items) <= load_depth w ->
  3 <= dump_depth w -> 3 <= load_depth w ->
  encodable_world w ->
  Forall (fun inp => Json.utf8_valid (F.line inp) = true
                     /\ Json.utf8_valid (F.clock inp) = true) steps ->
  exists entries : list ChatLogEntry,
    F.load_chat_log w (exchanges w steps st)
    = (Return (Json.JArr (items ++ map entry_json entries)),
       exchanges w steps st)
    /\ map timestamp entries = map F.clock steps
    /\ map user_message entries = map F.line steps
    /\ F.chat_history (exchanges w steps st)
       = F.chat_history st
         ++ turns_of (combine (map user_message entries)
                              (map final_response entries)).
Proof.
  intros Hlog Hst Hen Hdd Hld Hd3 Hl3 Hw Hsteps.
  revert st items Hlog Hst Hen Hdd Hld.
  induction Hsteps as [|inp later [Hline Hclock] Hlater IH];
    intros st items Hlog Hst Hen Hdd Hld.
  - exists []. cbn [exchanges map combine turns_of flat_map].
    rewrite load_chat_log_spec, Hlog, !app_nil_r. auto.
  - cbn [exchanges].
    destruct (process_message_logged w (F.arrival inp) (F.clock inp) (F.line inp)
                st items Hlog Hst Hen Hdd Hld Hd3 Hl3 Hw Hclock Hline)
      as (e & Ht & Hu & _ & Hh & _ & Hlog' & Hst' & Hen' & Hdd' & Hld').
    destruct (IH _ (items ++ [entry_json e]) Hlog' Hst' Hen' Hdd' Hld')
      as (entries & Hl & Hts & Hus & Hhs).
    exists (e :: entries). cbn [map].
    rewrite Hl, Hts, Hus, Ht, Hu, <- app_assoc. cbn [app].
    repeat split; try reflexivity.
    rewrite Hhs, Hh, Hus, <- app_assoc. reflexivity.
Qed.

(** X6 on two exchanges over a file that does not parse, with backends
    that are down. *)
Lemma log_keeps_one_record_per_exchange_witness :
  exists entries : list ChatLogEntry,
    F.load_chat_log world_down (exchanges world_down steps_demo state_corrupt_log)
    = (Return (Json.JArr ([] ++ map entry_json entries)),
       exchanges world_down steps_demo state_corrupt_log)
    /\ map timestamp entries = ["t1"; "t2"]%string
    /\ map user_message entries = ["first"; "second"]%string.
Proof.
  destruct (log_keeps_one_record_per_exchange world_down steps_demo
              state_corrupt_log [] eq_refl eq_refl eq_refl)
    as (entries & Hl & Hts & Hus & _).
  - apply Nat.leb_le. reflexivity.
  - apply Nat.leb_le. reflexivity.
  - apply Nat.leb_le. reflexivity.
  - apply Nat.leb_le. reflexivity.
  - split; intros; reflexivity.
  - repeat constructor.
  - exists entries. auto.
Defined.



(** ** The model menu and the command loop of [multi-chat.py] *)

Lemma get_model_choice_skips (pre later : list (option nat)) :
  forallb refused pre = true ->
  MC.get_model_choice (pre ++ later) = MC.get_model_choice later.
Proof.
  induction pre as [|a pre IH]; intros Hpre; [reflexivity|].
  cbn [forallb] in Hpre. apply andb_true_iff in Hpre. destruct Hpre as [Ha Hpre].
  cbn [app MC.get_model_choice]. destruct a as [choice|]; [|apply IH, Hpre].
  unfold refused, is_model_key in Ha.
  apply andb_true_iff in Ha. destruct Ha as [Hz Hk].
  apply negb_true_iff in Hz, Hk. rewrite Hz, Hk. apply IH, Hpre.
Qed.

Lemma get_model_choice_key (answers : list (option nat)) (m : nat) :
  MC.get_model_choice answers = Return (Some m) -> is_model_key m = true.
Proof.
  induction answers as [|[choice|] later IH]; cbn [MC.get_model_choice].
  - discriminate.
  - destruct (Nat.eqb choice 0); [discriminate|].
    fold (is_model_key choice).
    destruct (is_model_key choice) eqn:Hk; [|exact IH].
    intros E. injection E as <-. exact Hk.
  - exact IH.
Qed.

Lemma is_model_key_range (m : nat) : is_model_key m = true <-> 1 <= m <= 4.
Proof.
  split.
  - destruct m as [|[|[|[|[|m]]]]]; cbn; try discriminate; lia.
  - intros H. destruct m as [|[|[|[|[|m]]]]]; try lia; reflexivity.
Qed.

(** X8.  [get_model_choice] asks until an answer is 0 or a key of
    [MODELS], and returns on the first such answer, whatever was typed
    before it and whatever follows: [None] for 0, the key otherwise.  A
    choice it returns is one of 1, 2, 3, 4, so [MODELS] has its entry;
    the current model of the command loop, once a key, stays a key
    through every pass of the loop. *)
Theorem get_model_choice_returns_first_valid_answer :
  (forall (pre post : list (option nat)) (choice : nat),
      forallb refused pre = true ->
      refused (Some choice) = false ->
      MC.get_model_choice (pre ++ Some choice :: post)
      = Return (if Nat.eqb choice 0 then None else Some choice))
  /\ (forall (answers : list (option nat)) (m : nat),
        MC.get_model_choice answers = Return (Some m) ->
        1 <= m <= 4 /\ exists entry, MC.MODELS_getitem m = Return entry)
  /\ (forall (w : World) (inp : MC.Input) (current_model : nat) (st : MC.State),
        1 <= current_model <= 4 ->
        1 <= snd (fst (MC.main_iteration w inp current_model st)) <= 4).
Proof.
  split.
  { intros pre post choice Hpre Hok.
    rewrite (get_model_choice_skips pre _ Hpre). cbn [MC.get_model_choice].
    unfold refused in Hok. fold (is_model_key choice).
    destruct (Nat.eqb choice 0); [reflexivity|].
    destruct (is_model_key choice); [reflexivity|discriminate]. }
  split.
  { intros answers m Hm.
    apply get_model_choice_key, is_model_key_range in Hm.
    split; [exact Hm|].
    destruct m as [|[|[|[|[|m]]]]]; try lia; eexists; reflexivity. }
  intros w inp cm st Hcm. unfold MC.main_iteration.
  repeat match goal with
         | |- context [if ?b then _ else _] => destruct b
         end; try exact Hcm.
  destruct (MC.get_model_choice (MC.answers inp)) as [[m|]|e] eqn:Hm;
    try exact Hcm.
  apply is_model_key_range, (get_model_choice_key _ _ Hm).
Qed.

(** X8 on a word, a number out of range, and then 3. *)
Lemma get_model_choice_returns_first_valid_answer_witness :
  MC.get_model_choice ([None; Some 7] ++ Some 3 :: [Some 0])
  = Return (if Nat.eqb 3 0 then None else Some 3).
Proof.
  apply (proj1 get_model_choice_returns_first_valid_answer); reflexivity.
Defined.

Lemma mc_main_loop_app (w : World) (pre post : list MC.Input)
  (current_model : nat) (st : MC.State) :
  Forall (fun inp =>
            String.eqb (command_of (MC.line inp)) "--exit" = false
            /\ String.eqb (command_of (MC.line inp)) "--change" = false) pre ->
  MC.main_loop w (pre ++ post) current_model st
  = MC.main_loop w post current_model (MC.main_loop w pre current_model st).
Proof.
  intros Hpre. revert st. induction Hpre as [|inp pre [He Hc] Hpre IH]; intros st.
  - reflexivity.
  - cbn [app]. rewrite !mc_main_loop_cons, He, Hc.
    repeat match goal with
           | |- context [if ?b then _ else _] => destruct b
           end; apply IH.
Qed.

(** X9.  The single-select program ends without reading a message when
    the first answer to the model menu is 0, and its loop ends at the
    first exit command and at the first change command answered with 0:
    the lines after it are never read. *)
Theorem single_select_run_ends_at_exit_or_zero (w : World)
  (first_answers : list (option nat)) (pre post : list MC.Input)
  (last : MC.Input) (current_model : nat) (st : MC.State) :
  Forall (fun inp =>
            String.eqb (command_of (MC.line inp)) "--exit" = false
            /\ String.eqb (command_of (MC.line inp)) "--change" = false) pre ->
  String.eqb (command_of (MC.line last)) "--exit" = true
  \/ (command_of (MC.line last) = "--change"%string
      /\ MC.get_model_choice (MC.answers last) = Return None) ->
  MC.main_loop w (pre ++ last :: post) current_model st
  = MC.main_loop w pre current_model st
  /\ (MC.get_model_choice first_answers = Return None ->
      MC.main w first_answers (pre ++ last :: post) st = st)
  /\ (MC.get_model_choice first_answers = Return (Some current_model) ->
      MC.main w first_answers (pre ++ last :: post) st
      = MC.main w first_answers pre st).
Proof.
  intros Hpre Hlast.
  assert (MC.main_loop w (pre ++ last :: post) current_model st
          = MC.main_loop w pre current_model st) as Hloop.
  { rewrite mc_main_loop_app by exact Hpre. rewrite mc_main_loop_cons.
    destruct Hlast as [He|[Hc Hzero]].
    - rewrite He. reflexivity.
    - rewrite Hc, Hzero. reflexivity. }
  split; [exact Hloop|]. split.
  - intros Hzero. unfold MC.main. rewrite Hzero. reflexivity.
  - intros Hfirst. unfold MC.main. rewrite Hfirst. exact Hloop.
Qed.

(** X9 on a run that chooses OpenAI, sends one message and answers the
    change of model with 0. *)
Lemma single_select_run_ends_at_exit_or_zero_witness :
  MC.main world_demo [Some 2]
    ([MC.mkInput "hello" []] ++ MC.mkInput "--Change" [Some 9; Some 0]
       :: [MC.mkInput "never sent" []]) mc_state_demo
  = MC.main world_demo [Some 2] [MC.mkInput "hello" []] mc_state_demo.
Proof.
  apply (single_select_run_ends_at_exit_or_zero world_demo [Some 2]
           [MC.mkInput "hello" []] [MC.mkInput "never sent" []]
           (MC.mkInput "--Change" [Some 9; Some 0]) 2 mc_state_demo).
  - repeat constructor.
  - right. split; reflexivity.
  - reflexivity.
Defined.

(** ** The Gemini session of [multi-chat.py] *)

Lemma mc_chat_session (w : World) (choice : nat) (message : string)
  (st : MC.State) :
  MC.gemini_chat (snd (MC.chat_with_model w choice message st))
  = if Nat.eqb choice 1 && available (MC.gemini_model st)
    then match MC.gemini_chat st with
         | Some sess => Some (sess ++ [message])
         | None => Some (mc_gemini_sent w message st)
         end
    else MC.gemini_chat st.
Proof.
  destruct (Nat.eq_dec choice 0) as [->|Hnz].
  { rewrite mc_unknown_choice by (left; reflexivity). reflexivity. }
  destruct (Nat.ltb_spec 4 choice) as [Hbig|Hsmall].
  { rewrite mc_unknown_choice by (right; exact Hbig).
    destruct choice as [|[|choice]]; try lia; reflexivity. }
  destruct (mc_selected_available choice st) eqn:Hav.
  2:{ rewrite mc_unavailable_branch by (try lia; exact Hav).
      destruct choice as [|[|choice]]; try lia; [|reflexivity].
      cbn in Hav. rewrite Hav. reflexivity. }
  destruct choice as [|[|choice]]; [lia| |].
  - cbn in Hav. rewrite Hav. cbn [Nat.eqb andb].
    destruct (MC.gemini_model st) as [g|] eqn:Hm; [|discriminate].
    destruct (mc_gemini_branch_frame w message st g Hm) as (_ & _ & Hs & _).
    rewrite Hs. unfold mc_gemini_state, mc_gemini_sent.
    destruct (MC.gemini_chat st); reflexivity.
  - assert (exists c, mc_client (S (S choice)) st = Some c) as [c Hc].
    { destruct choice as [|[|[|choice]]]; try lia; cbn in Hav |- *;
        match goal with
        | |- exists c, ?o = Some c => destruct o; [eauto|discriminate]
        end. }
    rewrite (mc_openai_branch w _ message st c Hc). reflexivity.
Qed.

(** X10.  Once the Gemini session of the single-select program exists,
    it is handed each message sent while Gemini is the selected model
    and nothing else: the messages answered by the other models in
    between go to the history but never reach the session, which is
    seeded only when it is created. *)
Theorem existing_gemini_session_misses_other_models_messages (w : World)
  (steps : list (nat * string)) (st : MC.State) (g : GenerativeModel)
  (sess : ChatSession) :
  MC.gemini_model st = Some g ->
  MC.gemini_chat st = Some sess ->
  MC.gemini_chat (mc_exchanges w steps st) = Some (sess ++ gemini_messages steps).
Proof.
  revert st sess. induction steps as [|[choice message] later IH];
    intros st sess Hm Hc.
  - cbn. rewrite app_nil_r. exact Hc.
  - cbn [mc_exchanges]. unfold gemini_messages. cbn [filter fst].
    pose proof (mc_chat_session w choice message st) as Hs.
    rewrite Hm, Hc in Hs. cbn [available] in Hs. rewrite andb_true_r in Hs.
    destruct (mc_chat_cases w choice message st) as (Hg & _).
    rewrite Hm in Hg.
    destruct (Nat.eqb choice 1).
    + rewrite (IH _ _ Hg Hs). cbn [map snd]. rewrite <- app_assoc. reflexivity.
    + apply (IH _ _ Hg Hs).
Qed.

(** X10 with a session that was handed a before: OpenAI answers the
    first and the third message, Gemini the second. *)
Lemma existing_gemini_session_misses_other_models_messages_witness :
  MC.gemini_chat
    (mc_exchanges world_demo mc_steps_demo
       (MC.set_gemini_chat (Some ["a"%string]) mc_state_demo))
  = Some (["a"%string] ++ gemini_messages mc_steps_demo)
  /\ gemini_messages mc_steps_demo = ["second"%string].
Proof.
  split; [|reflexivity].
  apply (existing_gemini_session_misses_other_models_messages world_demo
           mc_steps_demo (MC.set_gemini_chat (Some ["a"%string]) mc_state_demo)
           (mkGenerativeModel "gemini-2.0-flash-thinking-exp-01-21")
           ["a"%string]); reflexivity.
Defined.

(** X11.  When Gemini is selected for the first time after other models
    answered, and every replayed send succeeds, the new session is
    handed the user messages of the whole history in order, without the
    replies of the other models, and then the new message; the network
    sees the session start and these sends, in this order, and nothing
    else. *)
Theorem first_gemini_selection_replays_user_messages (w : World)
  (message : string) (st : MC.State) (g : GenerativeModel)
  (pairs : list (string * string)) :
  MC.gemini_model st = Some g ->
  MC.gemini_chat st = None ->
  MC.chat_history st = turns_of pairs ->
  (forall pre t post,
      map fst pairs = pre ++ t :: post ->
      exists reply, gemini_send w pre t = Return reply) ->
  MC.gemini_chat (snd (MC.chat_with_model w 1 message st))
  = Some (map fst pairs ++ [message])
  /\ MC.trace (snd (MC.chat_with_model w 1 message st))
     = MC.trace st
       ++ EvStartChat :: map EvSendMessage (map fst pairs ++ [message])
  /\ fst (MC.chat_with_model w 1 message st)
     = Return (match gemini_send w (map fst pairs) message with
               | Return reply => reply
               | Raise e => ("Error: " ++ e)%string
               end).
Proof.
  intros Hm Hc Hh Hok.
  assert (user_texts (turns_of pairs) = map fst pairs) as Hu.
  { clear. induction pairs as [|[m r] pairs IH]; [reflexivity|].
    unfold user_texts, turns_of in *. cbn. rewrite IH. reflexivity. }
  destruct (mc_gemini_branch_frame w message st g Hm) as (Hr & _ & Hs & Ht & _).
  rewrite Hr, Hs, Ht.
  unfold mc_gemini_outcome, mc_gemini_state, mc_gemini_sent.
  rewrite Hc, Hh, Hu.
  rewrite (attempt_all_ok w (map fst pairs) []) by exact Hok.
  cbn. rewrite <- app_assoc. repeat split; reflexivity.
Qed.

(** X11 after a first message answered by OpenAI. *)
Lemma first_gemini_selection_replays_user_messages_witness :
  MC.gemini_chat
    (snd (MC.chat_with_model world_demo 1 "second"
            (snd (MC.chat_with_model world_demo 2 "first" mc_state_demo))))
  = Some (map fst [("first", "reply of o1")] ++ ["second"]).
Proof.
  apply (first_gemini_selection_replays_user_messages world_demo "second"
           (snd (MC.chat_with_model world_demo 2 "first" mc_state_demo))
           (mkGenerativeModel "gemini-2.0-flash-thinking-exp-01-21")
           [("first", "reply of o1")] eq_refl eq_refl eq_refl).
  intros pre t post _. eexists. reflexivity.
Defined.

(** X12.  In the single-select program a Gemini exchange that fails
    with the text [e] returns "Error: e" and appends no assistant turn.
    When the seeding or [send_message] raised, nothing is appended at
    all.  When the response to the message arrived and reading its text
    raised, the user turn has already been appended and stays in the
    history unanswered.  In both cases the session exists afterwards
    and, when it existed before, has been handed the message. *)
Theorem failed_gemini_exchange_appends_no_reply (w : World) (message : string)
  (st : MC.State) (g : GenerativeModel) (e : string) :
  MC.gemini_model st = Some g ->
  mc_gemini_outcome w message st = Raise e ->
  fst (MC.chat_with_model w 1 message st) = Return ("Error: " ++ e)%string
  /\ (mc_text_raised w message st = false ->
      MC.chat_history (snd (MC.chat_with_model w 1 message st))
      = MC.chat_history st)
  /\ (mc_text_raised w message st = true ->
      MC.chat_history (snd (MC.chat_with_model w 1 message st))
      = MC.chat_history st ++ [user_turn message])
  /\ (exists sess',
        MC.gemini_chat (snd (MC.chat_with_model w 1 message st)) = Some sess')
  /\ (forall sess,
        MC.gemini_chat st = Some sess ->
        MC.gemini_chat (snd (MC.chat_with_model w 1 message st))
        = Some (sess ++ [message])).
Proof.
  intros Hm Hout.
  destruct (mc_gemini_branch_frame w message st g Hm) as (Hr & Hh & Hs & _).
  rewrite Hr, Hh, Hs, Hout. unfold mc_gemini_state.
  split; [reflexivity|].
  split; [intros ->; reflexivity|].
  split; [intros ->; reflexivity|].
  split.
  { destruct (MC.gemini_chat st); eexists; reflexivity. }
  intros sess Hc. rewrite Hc. reflexivity.
Qed.

(** X12 with a session: a backend that is down, and a backend whose
    response has no text. *)
Lemma failed_gemini_exchange_appends_no_reply_witness :
  MC.chat_history
    (snd (MC.chat_with_model world_down 1 "hi"
            (MC.set_gemini_chat (Some ["a"%string]) mc_state_demo)))
  = []
  /\ fst (MC.chat_with_model world_blocked 1 "hi"
            (MC.set_gemini_chat (Some ["a"%string]) mc_state_demo))
     = Return "Error: no valid part"%string
  /\ MC.chat_history
       (snd (MC.chat_with_model world_blocked 1 "hi"
               (MC.set_gemini_chat (Some ["a"%string]) mc_state_demo)))
     = [user_turn "hi"].
Proof.
  destruct (failed_gemini_exchange_appends_no_reply world_down "hi"
              (MC.set_gemini_chat (Some ["a"%string]) mc_state_demo)
              (mkGenerativeModel "gemini-2.0-flash-thinking-exp-01-21")
              "boom" eq_refl eq_refl) as (_ & Hnone & _).
  destruct (failed_gemini_exchange_appends_no_reply world_blocked "hi"
              (MC.set_gemini_chat (Some ["a"%string]) mc_state_demo)
              (mkGenerativeModel "gemini-2.0-flash-thinking-exp-01-21")
              "no valid part" eq_refl eq_refl) as (Hr & _ & Hraised & _).
  split; [apply Hnone; reflexivity|].
  split; [exact Hr|apply Hraised; reflexivity].
Defined.

(** ** Lines that do nothing *)

Lemma lstrip_blank (text : string) :
  isspace_or_empty text = true -> lstrip text = ""%string.
Proof.
  remember (String.length text) as n eqn:Hn. revert text Hn.
  induction n as [n IH] using lt_wf_ind. intros text Hn Hb.
  destruct text as [|a r]; [reflexivity|].
  cbn [String.length] in Hn. cbn [isspace_or_empty lstrip] in Hb |- *.
  destruct (is_space a).
  { apply (IH (String.length r)); [lia|reflexivity|exact Hb]. }
  destruct r as [|b r1]; [discriminate|].
  cbn [String.length] in Hn.
  destruct (is_space2 a b).
  { apply (IH (String.length r1)); [lia|reflexivity|exact Hb]. }
  destruct r1 as [|c r2]; [discriminate|].
  cbn [String.length] in Hn.
  apply andb_true_iff in Hb. destruct Hb as [Hc Hb]. rewrite Hc.
  apply (IH (String.length r2)); [lia|reflexivity|exact Hb].
Qed.

Lemma strip_blank (text : string) :
  isspace_or_empty text = true -> strip text = ""%string.
Proof. intros H. unfold strip. rewrite (lstrip_blank text H). reflexivity. Qed.

(** X13.  A line made of white space only and the help command change
    nothing in either program: a run with such a line ends in the same
    state as the run without it. *)
Theorem blank_line_and_help_change_nothing :
  (forall (w : World) (pre post : list F.Input) (inp : F.Input) (st : F.State),
      isspace_or_empty (F.line inp) = true
      \/ command_of (F.line inp) = "--help"%string ->
      F.main w (pre ++ inp :: post) st = F.main w (pre ++ post) st)
  /\ (forall (w : World) (pre post : list MC.Input) (inp : MC.Input)
             (current_model : nat) (st : MC.State),
        isspace_or_empty (MC.line inp) = true
        \/ command_of (MC.line inp) = "--help"%string ->
        MC.main_loop w (pre ++ inp :: post) current_model st
        = MC.main_loop w (pre ++ post) current_model st).
Proof.
  split.
  - intros w pre post inp st Hinp. revert st.
    induction pre as [|p pre IH]; intros st.
    + cbn [app]. rewrite main_cons.
      destruct Hinp as [Hb|Hh].
      * unfold command_of. rewrite (strip_blank _ Hb). reflexivity.
      * rewrite Hh. reflexivity.
    + cbn [app]. rewrite !main_cons.
      repeat match goal with
             | |- context [if ?b then _ else _] => destruct b
             end; try reflexivity; apply IH.
  - intros w pre post inp cm st Hinp. revert cm st.
    induction pre as [|p pre IH]; intros cm st.
    + cbn [app]. rewrite mc_main_loop_cons.
      destruct Hinp as [Hb|Hh].
      * unfold command_of. rewrite (strip_blank _ Hb). reflexivity.
      * rewrite Hh. reflexivity.
    + cbn [app]. rewrite !mc_main_loop_cons.
      repeat match goal with
             | |- context [if ?b then _ else _] => destruct b
             end; try reflexivity; try apply IH.
      destruct (MC.get_model_choice (MC.answers p)) as [[m|]|e];
        try reflexivity; apply IH.
Qed.

(** X13 on a line of a blank, a no-break space, a tab and an ideographic
    space between two messages. *)
Lemma blank_line_and_help_change_nothing_witness :
  F.main world_demo
    ([F.mkInput "one" [] "t1"]
       ++ F.mkInput (" " ++ nbsp ++ String "009" "" ++ wide_space)%string [] "t2"
       :: [F.mkInput "two" [] "t3"]) state_demo
  = F.main world_demo
      ([F.mkInput "one" [] "t1"] ++ [F.mkInput "two" [] "t3"]) state_demo.
Proof.
  apply (proj1 blank_line_and_help_change_nothing). left. reflexivity.
Defined.

(** ** The replay loop of [frankenthought-chat.py] *)

Lemma gemini_session_after (w : World) (message : string) (st : F.State)
  (g : GenerativeModel) :
  F.gemini_model st = Some g ->
  exists sess, F.chat (snd (F.get_gemini_response w message st)) = Some sess.
Proof.
  intros Hm. destruct (F.chat st) as [sess|] eqn:Hc.
  - rewrite (gemini_session_exists w message st g sess Hm Hc).
    eexists. reflexivity.
  - rewrite (gemini_session_fresh w message st g Hm Hc).
    destruct (attempt w [] (user_texts (F.chat_history st))) as [[u|e] sent];
      eexists; reflexivity.
Qed.

(** X14.  In the all-parallel program the replay loop of
    [get_gemini_response] has nothing to replay.  When the Gemini model
    is there and there is a session whenever the history is not empty
    (as at start), every Gemini call puts on the network the send of its
    message only, after the start of the session when there was none,
    whatever the history holds; and after any run of the command loop
    there is again a session whenever the history is not empty. *)
Theorem all_parallel_replay_sends_nothing (w : World) (st : F.State)
  (g : GenerativeModel) :
  F.gemini_model st = Some g ->
  (F.chat st = None -> F.chat_history st = []) ->
  (forall message : string,
      F.trace (snd (F.get_gemini_response w message st))
      = F.trace st
        ++ (if available (F.chat st) then [] else [EvStartChat])
        ++ [EvSendMessage message])
  /\ (forall inputs : list F.Input,
        F.chat (F.main w inputs st) = None ->
        F.chat_history (F.main w inputs st) = []).
Proof.
  intros Hm Hinv. split.
  - intros message. destruct (F.chat st) as [sess|] eqn:Hc.
    + rewrite (gemini_session_exists w message st g sess Hm Hc). reflexivity.
    + rewrite (gemini_session_fresh w message st g Hm Hc).
      rewrite (Hinv eq_refl). cbn. rewrite <- app_assoc. reflexivity.
  - intros inputs. revert st Hm Hinv.
    induction inputs as [|inp later IH]; intros st Hm Hinv; [exact Hinv|].
    rewrite main_cons.
    repeat match goal with
           | |- context [if ?b then _ else _] => destruct b
           end; try exact Hinv; try (apply IH; assumption).
    + apply IH; [exact Hm|]. reflexivity.
    + apply IH.
      * rewrite (proj1 (process_message_frame w _ _ _ st)). exact Hm.
      * rewrite process_message_chat.
        destruct (gemini_session_after w (strip (F.line inp)) st g Hm)
          as [sess Hs].
        rewrite Hs. discriminate.
Qed.

(** X14 on the second message of a run. *)
Lemma all_parallel_replay_sends_nothing_witness :
  F.trace
    (snd (F.get_gemini_response world_demo "two"
            (F.main world_demo [F.mkInput "one" [] "t1"] state_demo)))
  = F.trace (F.main world_demo [F.mkInput "one" [] "t1"] state_demo)
    ++ [] ++ [EvSendMessage "two"].
Proof.
  destruct (all_parallel_replay_sends_nothing world_demo
              (F.main world_demo [F.mkInput "one" [] "t1"] state_demo)
              (mkGenerativeModel "gemini-2.0-flash-thinking-exp-01-21") eq_refl)
    as [Hsend _].
  - discriminate.
  - apply Hsend.
Defined.

(** ** [json.dump] and [json.load] on any value *)

(** X15.  Saving and then loading gives back any value, and not only
    a list of chat log records, that is made of strings without lone
    surrogates, [None], booleans, lists and dicts with distinct keys,
    and that nests no deeper than [json.dump] and [json.load] reach: the
    save leaves the file holding the text of the value, and the load
    returns the value.  Two such values that are written as the same
    text are the same value. *)
Theorem save_then_load_returns_the_value (w : World) (v : Json.json)
  (st : F.State) :
  storable v = true -> encodable v = true ->
  Json.depth v <= dump_depth w -> Json.depth v <= load_depth w ->
  F.save_chat_log w v st
  = (Return tt, F.set_log_file (Some (Json.dumps v)) st)
  /\ F.load_chat_log w (snd (F.save_chat_log w v st))
     = (Return v, F.set_log_file (Some (Json.dumps v)) st)
  /\ (forall v' : Json.json,
        storable v' = true -> Json.dumps v' = Json.dumps v -> v' = v).
Proof.
  intros Hv Hen Hd Hl.
  destruct (load_dump w v Hv Hen Hd Hl) as [Hdump Hload].
  rewrite save_chat_log_spec, load_chat_log_spec. unfold saved_log.
  rewrite Hdump. cbn [fst snd F.log_file F.set_log_file]. unfold read_log.
  rewrite Hload.
  split; [reflexivity|]. split; [reflexivity|].
  intros v' Hv' Heq.
  pose proof (parse_dumps v' Hv') as H'. rewrite Heq, (parse_dumps v Hv) in H'.
  injection H' as ->. reflexivity.
Qed.

(** X15 on a dict that nests a list and a dict, saved over a corrupt
    file. *)
Lemma save_then_load_returns_the_value_witness :
  F.load_chat_log world_demo
    (snd (F.save_chat_log world_demo value_demo state_corrupt_log))
  = (Return value_demo,
     F.set_log_file (Some (Json.dumps value_demo)) state_corrupt_log).
Proof.
  apply (save_then_load_returns_the_value world_demo value_demo state_corrupt_log
           eq_refl eq_refl).
  - apply Nat.leb_le. reflexivity.
  - apply Nat.leb_le. reflexivity.
Defined.
